(** * json_parser.py: merging compiled-model descriptors into the manifest

    A shallow embedding of [src/json_parser.py], the properties of it
    that the specification states, and further properties of the code.

    Modelling conventions.
    - A Python [str] is a [string]: a sequence of 8-bit characters, read as
      the UTF-8 bytes of the text.  [upper], [lower], [split], [strip],
      [splitlines], [strptime] and the classes of the regular expressions
      act on ASCII letters, digits and white space only.  Python's are
      aware of Unicode, so these functions are Python's on texts of ASCII
      characters ([is_ascii]) and on no others; a statement that rests on
      one of them says so in a hypothesis [is_ascii _ = true], or is about
      a text that the script makes of ASCII characters alone.
    - A JSON object is a record.  A key that the script reads with
      [d.get(k, ...)] or tests with [k in d] is an [option] field, and so
      is a key whose absence the script turns into a [KeyError]; values
      have the type the script expects of them.
    - An exception is a [Raise] in the [result] monad; nothing in the
      script catches one except [parse_date].
    - The dictionary [ref_to_bundle] holds references to the bundle
      objects of the list [bundles]; it is a [gmap] from ref to the
      position of the bundle in that list (bundles are only appended).
    - The model objects of a new bundle are the objects of the
      descriptor's [models] list; [update_bundle_models] runs on a store
      of descriptor objects and on slots that either own a model or point
      into that store.
    - [list.sort] is a stable sort; it is written as an insertion sort,
      and [sort_by_unique] shows that every stable sort gives the same
      list.
    - [main] reads and writes files; a file is what [open] and
      [json.load] make of it.  [run] is lines 89 to 150: its result is the
      document that [json.dumps] is given in line 153, and [main] keeps
      that document for the file.  The text in the file is
      [collapse_overrides] of what [json.dumps] writes; it encodes that
      document unless a string inside an [overrides] object holds a
      closing brace: the match of the pattern ends at that brace, and a
      comma that stands just before it is stripped as if it ended the
      line (a folder [RAV,}0] is written [RAV }0]).  Statements about
      [run] are statements about the document, not about that text.
    - [collapse_overrides] is embedded, apart from [main], as a function
      on the text: [re.sub] with the one pattern of the script, and
      [splitlines], [strip] and [rstrip] on ASCII text.
    - [find_metadata_files] is embedded as a walk over a tree of
      directories that can all be listed, with [os.path.join],
      [os.path.dirname] and [os.path.basename] as [posixpath] has them. *)

From Stdlib Require Import ZArith NArith Ascii String List Permutation Sorted Lia Bool.
From stdpp Require Import base tactics option list gmap strings.

Local Open Scope string_scope.
Local Open Scope Z_scope.

(** ** Characters and strings *)

Module Str.

Definition code (c : ascii) : N := N_of_ascii c.

Definition is_lower (c : ascii) : bool := ((97 <=? code c) && (code c <=? 122))%N.
Definition is_upper (c : ascii) : bool := ((65 <=? code c) && (code c <=? 90))%N.
Definition is_alpha (c : ascii) : bool := is_lower c || is_upper c.
Definition is_digit (c : ascii) : bool := ((48 <=? code c) && (code c <=? 57))%N.

(** [str.isspace] on ASCII, which is also the class [\s] of [re]:
    tab, line feed, vertical tab, form feed, carriage return, the four
    separators 0x1c..0x1f, and the space. *)
Definition is_space (c : ascii) : bool :=
  (((9 <=? code c) && (code c <=? 13)) || ((28 <=? code c) && (code c <=? 32)))%N.

Definition to_upper (c : ascii) : ascii :=
  if is_lower c then ascii_of_N (code c - 32) else c.
Definition to_lower (c : ascii) : ascii :=
  if is_upper c then ascii_of_N (code c + 32) else c.

Fixpoint smap (f : ascii -> ascii) (s : string) : string :=
  match s with
  | EmptyString => EmptyString
  | String c s' => String (f c) (smap f s')
  end.

(** [s.upper()], [s.lower()] *)
Definition upper (s : string) : string := smap to_upper s.
Definition lower (s : string) : string := smap to_lower s.

Fixpoint sforall (p : ascii -> bool) (s : string) : bool :=
  match s with
  | EmptyString => true
  | String c s' => p c && sforall p s'
  end.

(** No lower-case letter occurs in [s]. *)
Definition upper_case (s : string) : bool := sforall (fun c => negb (is_lower c)) s.

(** [s.startswith(p)] *)
Fixpoint startswith (s p : string) : bool :=
  match p, s with
  | EmptyString, _ => true
  | String a p', String b s' => if Ascii.eqb a b then startswith s' p' else false
  | String _ _, EmptyString => false
  end.

(** [p in s] *)
Fixpoint contains (s p : string) : bool :=
  startswith s p ||
  match s with
  | EmptyString => false
  | String _ s' => contains s' p
  end.

(** The longest prefix of [s] whose characters satisfy [p], and the rest. *)
Fixpoint span (p : ascii -> bool) (s : string) : string * string :=
  match s with
  | EmptyString => (EmptyString, EmptyString)
  | String c s' =>
      if p c then let '(a, b) := span p s' in (String c a, b)
      else (EmptyString, s)
  end.

Definition take_while (p : ascii -> bool) (s : string) : string := fst (span p s).
Definition drop_while (p : ascii -> bool) (s : string) : string := snd (span p s).

(** [s.split()[0]]: the first white-space delimited token; [s.split()] is
    empty when [s] holds white space only. *)
Definition first_token (s : string) : option string :=
  match take_while (fun c => negb (is_space c)) (drop_while is_space s) with
  | EmptyString => None
  | t => Some t
  end.

Fixpoint mem (c : ascii) (s : string) : bool :=
  match s with
  | EmptyString => false
  | String d s' => Ascii.eqb c d || mem c s'
  end.

Fixpoint concat_map (f : ascii -> string) (s : string) : string :=
  match s with
  | EmptyString => EmptyString
  | String c s' => f c ++ concat_map f s'
  end.

End Str.

(** ** The URL builder *)

Definition hex_digit (n : N) : ascii :=
  if (n <? 10)%N then ascii_of_N (48 + n) else ascii_of_N (55 + n).

(** [urllib.parse.quote] leaves letters, digits and [_.-~] as they are,
    and with its default [safe='/'] the slash too. *)
Definition always_safe (c : ascii) : bool :=
  Str.is_alpha c || Str.is_digit c || Str.mem c "_.-~".

Definition quote_safe (c : ascii) : bool := always_safe c || Ascii.eqb c "/".

Definition quote_char (c : ascii) : string :=
  if quote_safe c then String c EmptyString
  else String "%" (String (hex_digit (Str.code c / 16)) (String (hex_digit (Str.code c mod 16)) EmptyString)).

(** [urllib.parse.quote(s)] *)
Definition quote (s : string) : string := Str.concat_map quote_char s.

(** The value of a hexadecimal digit. *)
Definition hex_val (c : ascii) : N :=
  if Str.is_digit c then Str.code c - 48 else Str.code c - 55.

(** Percent-decoding, the inverse that makes [quote] an encoding: a
    percent sign and two hexadecimal digits stand for the character of
    that code. *)
Fixpoint percent_decode (s : string) : string :=
  match s with
  | String c (String h (String l rest as tl2) as tl1) =>
      if Ascii.eqb c "%" then String (ascii_of_N (16 * hex_val h + hex_val l)) (percent_decode rest)
      else String c (percent_decode tl1)
  | String c rest => String c (percent_decode rest)
  | EmptyString => EmptyString
  end.

Definition base_url : string :=
  "https://raw.githubusercontent.com/hoofpilot/models/master/recompiled/".

Definition make_model_url (recompiled_dir folder file_name : string) : string :=
  let base := base_url ++ recompiled_dir ++ "/" in
  let safe_folder := quote folder in
  let safe_file := quote file_name in
  base ++ safe_folder ++ "/" ++ safe_file.

(** The reserved characters of RFC 3986 (gen-delims and sub-delims). *)
Definition reserved (c : ascii) : bool := Str.mem c ":/?#[]@!$&'()*+,;=".

(** ** Date extraction and parsing *)

(** The tail of [\(([^)]+)\)] after the opening parenthesis: the characters
    up to the first closing parenthesis, if there is one. *)
Fixpoint until_close (s : string) : option string :=
  match s with
  | EmptyString => None
  | String c s' =>
      if Ascii.eqb c ")" then Some EmptyString
      else match until_close s' with
           | Some body => Some (String c body)
           | None => None
           end
  end.

(** A match of [\(([^)]+)\)] that starts at the first character of [s];
    the result is group 1. *)
Definition match_here (s : string) : option string :=
  match s with
  | String c s' =>
      if Ascii.eqb c "(" then
        match until_close s' with
        | Some (String b body) => Some (String b body)
        | _ => None
        end
      else None
  | EmptyString => None
  end.

(** [re.search(r'\(([^)]+)\)', s)]: the leftmost match. *)
Fixpoint re_search (s : string) : option string :=
  match match_here s with
  | Some body => Some body
  | None =>
      match s with
      | EmptyString => None
      | String _ s' => re_search s'
      end
  end.

Definition extract_date_from_display_name (display_name : string) : string :=
  match re_search display_name with
  | None => ""
  | Some date => date
  end.

(** The rightmost place where the same pattern matches: the text between
    the last pair of parentheses, as the specification words it. *)
Fixpoint last_parenthesized (s : string) : option string :=
  match s with
  | EmptyString => None
  | String _ s' =>
      match last_parenthesized s' with
      | Some body => Some body
      | None => match_here s
      end
  end.

(** [body] stands in [s] between an opening and a closing parenthesis,
    after [pre] and before [post]; it is not empty and holds no closing
    parenthesis. *)
Definition parenthesized (pre body post s : string) : Prop :=
  s = pre ++ "(" ++ body ++ ")" ++ post
  /\ body <> "" /\ Str.mem ")" body = false.

(** A [datetime.datetime] whose time of day is midnight, which is all that
    [strptime] gives for a format without time directives.  They compare
    as the triples (year, month, day). *)
Record datetime := { year : Z; month : Z; day : Z }.

(** [datetime.datetime.min] *)
Definition datetime_min : datetime := {| year := 1; month := 1; day := 1 |}.

Definition datetime_ltb (a b : datetime) : bool :=
  (year a <? year b)
  || ((year a =? year b) && ((month a <? month b)
      || ((month a =? month b) && (day a <? day b)))).

Definition datetime_leb (a b : datetime) : bool := negb (datetime_ltb b a).

#[global] Instance datetime_eq_dec : EqDecision datetime.
Proof. solve_decision. Defined.

Definition month_names : list string :=
  ["january"; "february"; "march"; "april"; "may"; "june"; "july";
   "august"; "september"; "october"; "november"; "december"].

(** [p] is a prefix of [s] up to the case of ASCII letters ([p] is in
    lower case); the result is what follows it. *)
Fixpoint strip_prefix_ci (p s : string) : option string :=
  match p, s with
  | EmptyString, _ => Some s
  | String a p', String b s' =>
      if Ascii.eqb a (Str.to_lower b) then strip_prefix_ci p' s' else None
  | String _ _, EmptyString => None
  end.

(** [%B]: a full month name, whatever its case. *)
Fixpoint match_month (names : list string) (n : Z) (s : string) : option (Z * string) :=
  match names with
  | [] => None
  | name :: rest =>
      match strip_prefix_ci name s with
      | Some r => Some (n, r)
      | None => match_month rest (n + 1) s
      end
  end.

(** [\s+], which a blank in the format stands for. *)
Definition skip_spaces (s : string) : option string :=
  match Str.span Str.is_space s with
  | (EmptyString, _) => None
  | (_, r) => Some r
  end.

Definition digit_val (c : ascii) : Z := Z.of_N (Str.code c) - 48.

Definition two_digit_day (a b : ascii) : bool :=
  (Ascii.eqb a "3" && (Ascii.eqb b "0" || Ascii.eqb b "1"))
  || ((Ascii.eqb a "1" || Ascii.eqb a "2") && Str.is_digit b)
  || (Ascii.eqb a "0" && Str.is_digit b && negb (Ascii.eqb b "0")).

Definition one_digit_day (a : ascii) : bool :=
  Str.is_digit a && negb (Ascii.eqb a "0").

(** [%d] followed by the comma of the format: the alternatives
    [3[0-1]|[1-2]\d|0[1-9]|[1-9]] in this order. *)
Definition match_day_comma (s : string) : option (Z * string) :=
  match s with
  | String a (String b r) =>
      if two_digit_day a b then
        match r with
        | String c r' =>
            if Ascii.eqb c "," then Some (10 * digit_val a + digit_val b, r') else None
        | EmptyString => None
        end
      else if one_digit_day a && Ascii.eqb b "," then Some (digit_val a, r)
      else None
  | _ => None
  end.

(** [%Y] at the end of the text: four digits and nothing after them. *)
Definition match_year_end (s : string) : option Z :=
  match s with
  | String a (String b (String c (String d EmptyString))) =>
      if Str.is_digit a && Str.is_digit b && Str.is_digit c && Str.is_digit d
      then Some (1000 * digit_val a + 100 * digit_val b + 10 * digit_val c + digit_val d)
      else None
  | _ => None
  end.

Definition is_leap (y : Z) : bool :=
  (y mod 4 =? 0) && (negb (y mod 100 =? 0) || (y mod 400 =? 0)).

Definition days_in_month (y m : Z) : Z :=
  if m =? 2 then (if is_leap y then 29 else 28)
  else if (m =? 4) || (m =? 6) || (m =? 9) || (m =? 11) then 30
  else 31.

(** [datetime.datetime.strptime(s, "%B %d, %Y")]; [None] stands for the
    [ValueError] it raises. *)
Definition strptime (s : string) : option datetime :=
  match match_month month_names 1 s with
  | None => None
  | Some (m, r1) =>
      match skip_spaces r1 with
      | None => None
      | Some r2 =>
          match match_day_comma r2 with
          | None => None
          | Some (d, r3) =>
              match skip_spaces r3 with
              | None => None
              | Some r4 =>
                  match match_year_end r4 with
                  | None => None
                  | Some y =>
                      if (1 <=? y) && (d <=? days_in_month y m)
                      then Some {| year := y; month := m; day := d |}
                      else None
                  end
              end
          end
      end
  end.

(** A date written as "Month Day, Year", as [strftime("%B %d, %Y")] writes
    it but for the leading zero of the day, which may stay or go. *)
Definition digit_char (n : Z) : ascii := ascii_of_N (48 + Z.to_N n).

Definition month_name (m : Z) : string :=
  nth (Z.to_nat (m - 1))
    ["January"; "February"; "March"; "April"; "May"; "June"; "July";
     "August"; "September"; "October"; "November"; "December"] "".

Definition render_day (pad : bool) (d : Z) : string :=
  if (d <? 10) && negb pad then String (digit_char d) EmptyString
  else String (digit_char (d / 10)) (String (digit_char (d mod 10)) EmptyString).

Definition render_year (y : Z) : string :=
  String (digit_char (y / 1000))
    (String (digit_char (y / 100 mod 10))
       (String (digit_char (y / 10 mod 10))
          (String (digit_char (y mod 10)) EmptyString))).

Definition render_date (pad : bool) (d : datetime) : string :=
  month_name (month d) ++ " " ++ render_day pad (day d) ++ ", " ++ render_year (year d).

(** A date of the calendar, in the years that [datetime] has. *)
Definition valid_date (d : datetime) : Prop :=
  1 <= year d <= 9999 /\ 1 <= month d <= 12
  /\ 1 <= day d <= days_in_month (year d) (month d).

Definition parse_date (date_str : string) : datetime :=
  match strptime date_str with
  | Some d => d
  | None => datetime_min
  end.

(** ** The data model *)

Record download_uri_t := { sha256 : string; url : string }.

(** The shape of a model's [artifact] and of its [metadata]. *)
Record file_t := { file_name : string; download_uri : download_uri_t }.

Record model := { type : string; artifact : file_t; metadata : file_t }.

Record overrides_t := { folder : string; lat : string; long : string }.

Record bundle := {
  short_name : string;
  display_name : option string;
  is_20hz : option bool;
  ref : string;
  environment : string;
  runner : string;
  index : option Z;
  minimum_selector_version : option string;
  generation : option string;
  build_time : option string;
  overrides : overrides_t;
  models : option (list model)
}.

(** A [metadata.json] descriptor. *)
Record descriptor := {
  meta_ref : option string;
  meta_short_name : option string;
  meta_display_name : option string;
  meta_is_20hz : option bool;
  meta_build_time : option string;
  meta_models : option (list model)
}.

(** The manifest document. *)
Record manifest := {
  tinygrad_ref : option string;
  bundles : option (list bundle)
}.

(** What [open] and [json.load] find at a path. *)
Inductive file (A : Type) : Type :=
  | Absent
  | Unreadable
  | NotJson
  | Json (doc : A).
Arguments Absent {A}.
Arguments Unreadable {A}.
Arguments NotJson {A}.
Arguments Json {A} doc.

(** A [metadata.json] that [find_metadata_files] yields: the name of the
    directory that holds it, and the file. *)
Record found := { meta_folder : string; meta_file : file descriptor }.

(** The command line, with [--recompiled-dir] already reduced to its base
    name. *)
Record args := {
  recompiled_dir_name : string;
  arg_model_folder : option string;
  arg_lat : string;
  arg_long : string;
  arg_generation : option string;
  arg_version : option string;
  arg_set_min_version : option string;
  arg_sort_by_date : bool;
  arg_tinygrad_ref : option string
}.

(** ** Exceptions *)

Inductive exn :=
  | KeyError (key : string)
  | IndexError
  | OSError
  | JSONDecodeError.

Inductive result (A : Type) : Type :=
  | Ok (a : A)
  | Raise (e : exn).
Arguments Ok {A} a.
Arguments Raise {A} e.

Definition rbind {A B : Type} (r : result A) (k : A -> result B) : result B :=
  match r with
  | Ok a => k a
  | Raise e => Raise e
  end.

Notation "'let*' x ':=' r 'in' k" := (rbind r (fun x => k))
  (at level 10, x pattern, r at level 200, k at level 200).

(** [d[k]] on a key that may be absent. *)
Definition getitem {A : Type} (key : string) (o : option A) : result A :=
  match o with
  | Some a => Ok a
  | None => Raise (KeyError key)
  end.

(** [open(path)] followed by [json.load]. *)
Definition json_load {A : Type} (f : file A) : result A :=
  match f with
  | Absent | Unreadable => Raise OSError
  | NotJson => Raise JSONDecodeError
  | Json doc => Ok doc
  end.

(** ** Replacing the files of a bundle's models *)

(** The artifact or the metadata file name holds "big", whatever the case
    of its letters. *)
Definition is_big (m : model) : bool :=
  Str.contains (Str.lower (file_name (artifact m))) "big"
  || Str.contains (Str.lower (file_name (metadata m))) "big".

(** The condition of both list comprehensions that drop the big models. *)
Definition not_big (m : model) : bool :=
  negb (Str.contains (Str.lower (file_name (artifact m))) "big")
  && negb (Str.contains (Str.lower (file_name (metadata m))) "big").

(** A place in a bundle's [models] list: a model object of its own, or the
    [k]-th object of the descriptor's [models] list. *)
Inductive slot :=
  | Own (m : model)
  | Shared (k : nat).

Definition deref (store : list model) (s : slot) : option model :=
  match s with
  | Own m => Some m
  | Shared k => store !! k
  end.

(** The positions of the descriptor's objects that are not big, from
    position [k] on. *)
Fixpoint filtered_refs (k : nat) (meta_models : list model) : list nat :=
  match meta_models with
  | [] => []
  | m :: rest =>
      if not_big m then k :: filtered_refs (S k) rest
      else filtered_refs (S k) rest
  end.

(** [next((m for m in filtered_meta_models if m["type"] == t), None)] *)
Fixpoint find_type (store : list model) (refs : list nat) (t : string) : option model :=
  match refs with
  | [] => None
  | k :: rest =>
      match store !! k with
      | Some m => if String.eqb (type m) t then Some m else find_type store rest t
      | None => find_type store rest t
      end
  end.

(** The six assignments of the loop body. *)
Definition assign (recompiled_dir folder : string) (m meta_model : model) : model :=
  {| type := type m;
     artifact :=
       {| file_name := file_name (artifact meta_model);
          download_uri :=
            {| sha256 := sha256 (download_uri (artifact meta_model));
               url := make_model_url recompiled_dir folder (file_name (artifact meta_model)) |} |};
     metadata :=
       {| file_name := file_name (metadata meta_model);
          download_uri :=
            {| sha256 := sha256 (download_uri (metadata meta_model));
               url := make_model_url recompiled_dir folder (file_name (metadata meta_model)) |} |} |}.

(** One turn of the loop over the bundle's models: the store and the slot
    after it. *)
Definition update_slot (recompiled_dir folder : string) (refs : list nat)
    (store : list model) (s : slot) : list model * slot :=
  match deref store s with
  | None => (store, s)
  | Some m =>
      match find_type store refs (type m) with
      | None => (store, s)
      | Some meta_model =>
          let m' := assign recompiled_dir folder m meta_model in
          match s with
          | Own _ => (store, Own m')
          | Shared k => (<[k := m']> store, s)
          end
      end
  end.

Fixpoint update_slots (recompiled_dir folder : string) (refs : list nat)
    (store : list model) (slots : list slot) : list model * list slot :=
  match slots with
  | [] => (store, [])
  | s :: rest =>
      let '(store1, s1) := update_slot recompiled_dir folder refs store s in
      let '(store2, rest') := update_slots recompiled_dir folder refs store1 rest in
      (store2, s1 :: rest')
  end.

(** [update_bundle_models(bundle, meta_models, folder, recompiled_dir)],
    on the slots of [bundle["models"]] and the store [meta_models]. *)
Definition update_bundle_models (bundle_models : option (list slot))
    (meta_models : list model) (folder recompiled_dir : string)
    : list model * option (list slot) :=
  let filtered_meta_models := filtered_refs 0 meta_models in
  match bundle_models with
  | None => (meta_models, None)
  | Some slots =>
      let '(store, slots') :=
        update_slots recompiled_dir folder filtered_meta_models meta_models slots in
      (store, Some slots')
  end.

(** The models a list of slots stands for. *)
Definition resolve (store : list model) (slots : list slot) : list model :=
  omap (deref store) slots.

(** What one turn of the loop makes of a model that shares nothing with
    the candidates [cands], the descriptor's models that are not big. *)
Definition replace_model (recompiled_dir folder : string) (cands : list model)
    (m : model) : model :=
  match List.find (fun c => String.eqb (type c) (type m)) cands with
  | Some meta_model => assign recompiled_dir folder m meta_model
  | None => m
  end.

(** The parts of a candidate that [assign] and [find_type] read. *)
Definition src_eq (c c' : model) : Prop :=
  type c = type c'
  /\ file_name (artifact c) = file_name (artifact c')
  /\ sha256 (download_uri (artifact c)) = sha256 (download_uri (artifact c'))
  /\ file_name (metadata c) = file_name (metadata c')
  /\ sha256 (download_uri (metadata c)) = sha256 (download_uri (metadata c')).

(** The position that [find_type] stops at. *)
Fixpoint find_ref (store : list model) (refs : list nat) (t : string) : option nat :=
  match refs with
  | [] => None
  | k :: rest =>
      match store !! k with
      | Some m => if String.eqb (type m) t then Some k else find_ref store rest t
      | None => find_ref store rest t
      end
  end.

(** What the loop makes of a model, by the candidates as they are in
    the store at the start. *)
Definition replace_in (recompiled_dir folder : string) (store : list model)
    (refs : list nat) (m : model) : model :=
  match find_type store refs (type m) with
  | Some c => assign recompiled_dir folder m c
  | None => m
  end.

(** ** Generation and selector version of a new bundle *)

(** [re.match(r"([A-Za-z]+)", s)] *)
Definition match_alpha (s : string) : option string :=
  match Str.take_while Str.is_alpha s with
  | EmptyString => None
  | p => Some p
  end.

(** [prefix.group(1) if prefix else short_name] *)
Definition alpha_prefix (short_name : string) : string :=
  match match_alpha short_name with
  | Some p => p
  | None => short_name
  end.

(** [max(first :: rest, key=key)]: the first of the greatest. *)
Fixpoint max_by {A : Type} (key : A -> Z) (best : A) (rest : list A) : A :=
  match rest with
  | [] => best
  | x :: rest' => max_by key (if key best <? key x then x else best) rest'
  end.

Definition index_or_0 (b : bundle) : Z := default 0 (index b).

Definition is_candidate (prefix : string) (b : bundle) : bool :=
  Str.startswith (short_name b) prefix
  && bool_decide (is_Some (generation b))
  && bool_decide (is_Some (minimum_selector_version b)).

Definition get_generation_and_selector (short_name : string) (bundles : list bundle)
    : result (string * string) :=
  let prefix := alpha_prefix short_name in
  let candidates := List.filter (is_candidate prefix) bundles in
  match candidates with
  | first :: rest =>
      let latest := max_by index_or_0 first rest in
      let* g := getitem "generation" (generation latest) in
      let* v := getitem "minimum_selector_version" (minimum_selector_version latest) in
      Ok (g, v)
  | [] => Ok ("12", "12")
  end.

(** ** The merge loop *)

Record state := {
  st_bundles : list bundle;
  ref_to_bundle : gmap string nat
}.

(** [{bundle["ref"]: bundle for bundle in bundles}], the bundles counted
    from position [i]. *)
Fixpoint ref_map_from (i : nat) (bs : list bundle) (m : gmap string nat) : gmap string nat :=
  match bs with
  | [] => m
  | b :: bs' => ref_map_from (S i) bs' (<[ref b := i]> m)
  end.

(** [args.model_folder or f"{short_name.split()[0].upper()} Models"] *)
Definition folder_key (a : args) (short_name : string) : result string :=
  match arg_model_folder a with
  | Some (String c s) => Ok (String c s)
  | _ =>
      match Str.first_token short_name with
      | Some token => Ok (Str.upper token ++ " Models")
      | None => Raise IndexError
      end
  end.

(** [max([...], default=0) + 1] over the indices of the bundles. *)
Definition next_index (bs : list bundle) : Z :=
  match List.map index_or_0 bs with
  | [] => 0
  | x :: xs => fold_left Z.max xs x
  end + 1.

Definition new_bundle (a : args) (meta : descriptor) (ref short_name folder_key : string)
    (index : Z) (generation version : string) (filtered_models : list model) : bundle :=
  {| short_name := short_name;
     display_name := Some (default short_name (meta_display_name meta));
     is_20hz := Some (default false (meta_is_20hz meta));
     ref := ref;
     environment := "development";
     runner := "tinygrad";
     index := Some index;
     minimum_selector_version := Some version;
     generation := Some generation;
     build_time := meta_build_time meta;
     overrides := {| folder := folder_key; lat := arg_lat a; long := arg_long a |};
     models := Some filtered_models |}.

(** Lines 101 to 129: the state after the [if], and whether the bundle of
    [ref] was made from this descriptor. *)
Definition add_if_new (a : args) (st : state) (meta : descriptor)
    (ref short_name : string) : result (state * bool) :=
  match ref_to_bundle st !! ref with
  | Some _ => Ok (st, false)
  | None =>
      let* fkey := folder_key a short_name in
      let index := next_index (st_bundles st) in
      let* fallback := get_generation_and_selector short_name (st_bundles st) in
      let generation := default (fst fallback) (arg_generation a) in
      let version := default (snd fallback) (arg_version a) in
      let* meta_models := getitem "models" (meta_models meta) in
      let filtered_models := List.filter not_big meta_models in
      let b := new_bundle a meta ref short_name fkey index generation version filtered_models in
      Ok ({| st_bundles := (st_bundles st ++ [b])%list;
             ref_to_bundle := <[ref := length (st_bundles st)]> (ref_to_bundle st) |},
          true)
  end.

(** Lines 131 to 136 on the bundle itself.  A bundle that line 128 has just
    appended holds, as its models, the objects of [meta["models"]] that are
    not big: its slots point into the store.  The models of any other
    bundle are objects of their own. *)
Definition update_bundle (a : args) (meta : descriptor) (folder : string)
    (is_new : bool) (b : bundle) : result bundle :=
  let short_name' := Str.upper (short_name b) in
  let* meta_models := getitem "models" (meta_models meta) in
  let slots :=
    if is_new then Some (List.map Shared (filtered_refs 0 meta_models))
    else List.map Own <$> models b in
  let '(store, slots') :=
    update_bundle_models slots meta_models folder (recompiled_dir_name a) in
  let* old_display_name := getitem "display_name" (display_name b) in
  let* old_is_20hz := getitem "is_20hz" (is_20hz b) in
  Ok {| short_name := short_name';
        display_name := Some (default old_display_name (meta_display_name meta));
        is_20hz := Some (default old_is_20hz (meta_is_20hz meta));
        ref := ref b;
        environment := environment b;
        runner := runner b;
        index := index b;
        minimum_selector_version := minimum_selector_version b;
        generation := generation b;
        build_time :=
          match meta_build_time meta with
          | Some t => Some t
          | None => build_time b
          end;
        overrides := overrides b;
        models := resolve store <$> slots' |}.

(** The body of the loop over the descriptors, lines 95 to 137. *)
Definition step (a : args) (st : state) (f : found) : result state :=
  let* meta := json_load (meta_file f) in
  let* ref := getitem "ref" (meta_ref meta) in
  let folder := meta_folder f in
  let short_name := Str.upper (default folder (meta_short_name meta)) in
  let* added := add_if_new a st meta ref short_name in
  let st1 := fst added in
  let* i := getitem ref (ref_to_bundle st1 !! ref) in
  let* b := getitem ref (st_bundles st1 !! i) in
  let* b' := update_bundle a meta folder (snd added) b in
  Ok {| st_bundles := <[i := b']> (st_bundles st1);
        ref_to_bundle := ref_to_bundle st1 |}.

Fixpoint loop (a : args) (D : list found) (st : state) : result state :=
  match D with
  | [] => Ok st
  | f :: D' => let* st' := step a st f in loop a D' st'
  end.

(** ** After the loop *)

Definition set_min_version (v : string) (b : bundle) : bundle :=
  {| short_name := short_name b; display_name := display_name b;
     is_20hz := is_20hz b; ref := ref b; environment := environment b;
     runner := runner b; index := index b;
     minimum_selector_version := Some v;
     generation := generation b; build_time := build_time b;
     overrides := overrides b; models := models b |}.

Definition set_index (idx : nat) (b : bundle) : bundle :=
  {| short_name := short_name b; display_name := display_name b;
     is_20hz := is_20hz b; ref := ref b; environment := environment b;
     runner := runner b; index := Some (Z.of_nat idx);
     minimum_selector_version := minimum_selector_version b;
     generation := generation b; build_time := build_time b;
     overrides := overrides b; models := models b |}.

Definition bundle_sort_key (b : bundle) : datetime :=
  let date_str := extract_date_from_display_name (default "" (display_name b)) in
  parse_date date_str.

(** [list.sort(key=...)] is stable; of the stable sorts, insertion from
    the right is the one written here. *)
Fixpoint insert_by {A : Type} (key : A -> datetime) (x : A) (l : list A) : list A :=
  match l with
  | [] => [x]
  | y :: l' =>
      if datetime_leb (key x) (key y) then x :: y :: l'
      else y :: insert_by key x l'
  end.

Definition sort_by {A : Type} (key : A -> datetime) (l : list A) : list A :=
  foldr (insert_by key) [] l.

(** The order of the sort. *)
Definition key_le {A : Type} (key : A -> datetime) (x y : A) : Prop :=
  datetime_leb (key x) (key y) = true.

(** Lines 143 to 150. *)
Definition sort_by_date (bs : list bundle) : list bundle :=
  imap set_index (sort_by bundle_sort_key bs).

(** The command line without [--sort-by-date]. *)
Definition without_sort (a : args) : args :=
  {| recompiled_dir_name := recompiled_dir_name a;
     arg_model_folder := arg_model_folder a;
     arg_lat := arg_lat a; arg_long := arg_long a;
     arg_generation := arg_generation a; arg_version := arg_version a;
     arg_set_min_version := arg_set_min_version a;
     arg_sort_by_date := false;
     arg_tinygrad_ref := arg_tinygrad_ref a |}.

(** Lines 139 to 150. *)
Definition post_process (a : args) (bs : list bundle) : list bundle :=
  let bs1 :=
    match arg_set_min_version a with
    | Some v => List.map (set_min_version v) bs
    | None => bs
    end in
  if arg_sort_by_date a then sort_by_date bs1 else bs1.

(** The state at the loop's start: the list and the dictionary of line 92. *)
Definition initial (bs : list bundle) : state :=
  {| st_bundles := bs; ref_to_bundle := ref_map_from 0 bs ∅ |}.

(** Lines 89 to 150 on the loaded manifest: what [json.dumps] is given. *)
Definition run (a : args) (M : manifest) (D : list found) : result manifest :=
  let tref :=
    match arg_tinygrad_ref a with
    | Some r => Some r
    | None => tinygrad_ref M
    end in
  let* bs := getitem "bundles" (bundles M) in
  let* st := loop a D (initial bs) in
  Ok {| tinygrad_ref := tref; bundles := Some (post_process a (st_bundles st)) |}.

(** ** The files *)

Record world := {
  manifest_file : file manifest;
  manifest_writable : bool;
  metadata_files : list found
}.

(** The whole of [main]: the exception it ends with, if any, and the files
    after it.  The manifest is written once, after everything else; the
    file is kept as the document that [json.dumps] is given, of which the
    written text is [collapse_overrides (json.dumps _)]. *)
Definition main (a : args) (w : world) : result unit * world :=
  match (let* M := json_load (manifest_file w) in run a M (metadata_files w)) with
  | Raise e => (Raise e, w)
  | Ok M' =>
      if manifest_writable w then
        (Ok tt, {| manifest_file := Json M';
                   manifest_writable := true;
                   metadata_files := metadata_files w |})
      else (Raise OSError, w)
  end.

(** ** The text pass over the written JSON

    [json.dumps] escapes every character that is not ASCII, so the text
    that [collapse_overrides] is given is a string of ASCII characters. *)

(** The double quote. *)
Definition dquote : ascii := ascii_of_N 34.

(** Group 1 of the pattern: the key, the colon and the blank that
    [json.dumps] writes after it. *)
Definition overrides_key : string :=
  String dquote ("overrides" ++ String dquote ": ").

(** [p] is a prefix of [s]; the result is what follows it. *)
Fixpoint strip_prefix (p s : string) : option string :=
  match p, s with
  | EmptyString, _ => Some s
  | String a p', String b s' =>
      if Ascii.eqb a b then strip_prefix p' s' else None
  | String _ _, EmptyString => None
  end.

(** [s.rstrip(...)] of the characters that [p] holds of. *)
Fixpoint rstrip (p : ascii -> bool) (s : string) : string :=
  match s with
  | EmptyString => EmptyString
  | String c s' =>
      match rstrip p s' with
      | EmptyString => if p c then EmptyString else String c EmptyString
      | r => String c r
      end
  end.

(** [s.strip()] *)
Definition strip (s : string) : string :=
  rstrip Str.is_space (Str.drop_while Str.is_space s).

(** The line boundaries of [str.splitlines] among the ASCII characters:
    line feed, vertical tab, form feed, carriage return and the file,
    group and record separators. *)
Definition is_linebreak (c : ascii) : bool :=
  (((10 <=? Str.code c) && (Str.code c <=? 13))
   || ((28 <=? Str.code c) && (Str.code c <=? 30)))%N.

(** [s.splitlines()]: a carriage return with the line feed after it is
    one boundary, and a boundary at the end opens no further line. *)
Fixpoint splitlines (s : string) : list string :=
  match s with
  | EmptyString => []
  | String c s' =>
      if is_linebreak c then
        match s' with
        | String d s'' =>
            if Ascii.eqb c "013" && Ascii.eqb d "010" then EmptyString :: splitlines s''
            else EmptyString :: splitlines s'
        | EmptyString => [EmptyString]
        end
      else
        match splitlines s' with
        | [] => [String c EmptyString]
        | line :: lines => String c line :: lines
        end
  end.

Definition is_comma (c : ascii) : bool := Ascii.eqb c ",".

(** [sep.join(items)] *)
Fixpoint join (sep : string) (items : list string) : string :=
  match items with
  | [] => EmptyString
  | [x] => x
  | x :: rest => x ++ sep ++ join sep rest
  end.

(** The items that [replacer] makes of group 2. *)
Definition items_of (group2 : string) : list string :=
  List.map (fun line => rstrip is_comma (strip line))
    (List.filter (fun line => negb (String.eqb (strip line) EmptyString))
       (splitlines group2)).

(** [replacer], on a match whose group 1 is the key and whose group 2 is
    [group2]. *)
Definition replacer (group2 : string) : string :=
  overrides_key ++ "{ " ++ join ", " (items_of group2) ++ " }".

(** A match of the pattern that starts at the first character of [s]:
    the key, an opening brace, white space, group 2 (characters other than
    the closing brace), white space, a closing brace.  The result is group
    2 and what follows the match.  The first run of white space takes all
    the white space after the brace, group 2 all that comes before the
    next closing brace, white space too, and the second run nothing; when
    no closing brace follows, nothing that these give back makes a
    match. *)
Definition match_overrides (s : string) : option (string * string) :=
  match strip_prefix overrides_key s with
  | Some (String c r2) =>
      if Ascii.eqb c "{" then
        let r3 := Str.drop_while Str.is_space r2 in
        let '(group2, r4) := Str.span (fun c => negb (Ascii.eqb c "}")) r3 in
        match r4 with
        | String _ rest => Some (group2, rest)
        | EmptyString => None
        end
      else None
  | _ => None
  end.

(** [re.sub(pattern, replacer, s)]: from left to right, a match is
    replaced and the search goes on after it, and a character at which no
    match starts is kept.  [skip] counts the characters of a match that
    are still to be passed over. *)
Fixpoint sub_overrides (skip : nat) (s : string) : string :=
  match s with
  | EmptyString => EmptyString
  | String c s' =>
      match skip with
      | S k => sub_overrides k s'
      | O =>
          match match_overrides s with
          | Some (group2, rest) =>
              replacer group2 ++ sub_overrides (String.length s' - String.length rest) s'
          | None => String c (sub_overrides 0 s')
          end
      end
  end.

Definition collapse_overrides (json_text : string) : string :=
  sub_overrides 0 json_text.

(** The characters of [s] that [p] holds of. *)
Fixpoint sfilter (p : ascii -> bool) (s : string) : string :=
  match s with
  | EmptyString => EmptyString
  | String c s' => if p c then String c (sfilter p s') else sfilter p s'
  end.

(** Neither white space nor a comma. *)
Definition is_ink (c : ascii) : bool := negb (Str.is_space c) && negb (is_comma c).

(** ** The scan of the recompiled directory *)

(** A directory that can be listed: its name, its files, each with what
    [json.load] makes of it, and its sub-directories in the order in which
    [os.walk] lists them.  A link to a directory is not walked into and
    stands in neither list. *)
Unset Elimination Schemes.
Inductive dir := Dir (dir_name : string)
                     (dir_files : list (string * file descriptor))
                     (subdirs : list dir).
Set Elimination Schemes.

Definition name_of (d : dir) : string :=
  match d with Dir name _ _ => name end.

Fixpoint last_char (s : string) : option ascii :=
  match s with
  | EmptyString => None
  | String c EmptyString => Some c
  | String _ s' => last_char s'
  end.

Definition is_slash (c : ascii) : bool := Ascii.eqb c "/".

Definition ends_with_slash (s : string) : bool :=
  match last_char s with
  | Some c => is_slash c
  | None => false
  end.

(** [os.path.join(a, b)] *)
Definition path_join (a b : string) : string :=
  if Str.startswith b "/" then b
  else if String.eqb a EmptyString || ends_with_slash a then a ++ b
  else a ++ "/" ++ b.

(** [(p[:i], p[i:])] for [i = p.rfind("/") + 1]: the path up to its last
    slash, and what follows it. *)
Fixpoint rsplit_slash (p : string) : string * string :=
  match p with
  | EmptyString => (EmptyString, EmptyString)
  | String c p' =>
      let '(head, tail) := rsplit_slash p' in
      match head with
      | EmptyString =>
          if is_slash c then (String c EmptyString, p') else (EmptyString, String c p')
      | _ => (String c head, tail)
      end
  end.

(** [os.path.basename(p)] *)
Definition basename (p : string) : string := snd (rsplit_slash p).

(** [os.path.dirname(p)] *)
Definition dirname (p : string) : string :=
  let head := fst (rsplit_slash p) in
  if negb (String.eqb head EmptyString) && negb (Str.sforall is_slash head)
  then rstrip is_slash head
  else head.

(** [p.split("/")] *)
Fixpoint split_slash (p : string) : list string :=
  match p with
  | EmptyString => [EmptyString]
  | String c p' =>
      if is_slash c then EmptyString :: split_slash p'
      else
        match split_slash p' with
        | x :: rest => String c x :: rest
        | [] => [String c EmptyString]
        end
  end.

(** One turn of the loop of [os.path.normpath] over the components; the
    list [new_comps] is kept with its last component first. *)
Definition norm_step (initial_slashes : nat) (new_comps : list string) (comp : string)
    : list string :=
  if String.eqb comp "" || String.eqb comp "." then new_comps
  else if negb (String.eqb comp "..")
          || (Nat.eqb initial_slashes 0 && match new_comps with [] => true | _ => false end)
          || match new_comps with x :: _ => String.eqb x ".." | [] => false end
       then comp :: new_comps
       else match new_comps with
            | _ :: rest => rest
            | [] => []
            end.

(** [os.path.normpath(path)] *)
Definition normpath (path : string) : string :=
  if String.eqb path "" then "."
  else
    let initial_slashes :=
      if Str.startswith path "/" then
        if Str.startswith path "//" && negb (Str.startswith path "///") then 2%nat
        else 1%nat
      else 0%nat in
    let comps := fold_left (norm_step initial_slashes) (split_slash path) [] in
    let joined := join "/" (rev comps) in
    let path' := match initial_slashes with
                 | O => joined
                 | 1%nat => "/" ++ joined
                 | _ => "//" ++ joined
                 end in
    if String.eqb path' "" then "." else path'.

(** Line 84: the name of the recompiled directory that the URLs carry. *)
Definition recompiled_dir_name_of (recompiled_dir : string) : string :=
  basename (normpath recompiled_dir).

(** What [os.walk(root)] yields, from the top down: the path of each
    directory, with the directory. *)
Fixpoint walk (root : string) (d : dir) : list (string * dir) :=
  match d with
  | Dir _ _ subs =>
      (root, d) :: flat_map (fun sub => walk (path_join root (name_of sub)) sub) subs
  end.

Definition file_names (d : dir) : list string :=
  match d with Dir _ files _ => List.map fst files end.

Definition metadata_json : string := "metadata.json".

(** [find_metadata_files(root)] *)
Definition find_metadata_files (root : string) (d : dir) : list string :=
  flat_map (fun '(dirpath, dir) =>
              if existsb (String.eqb metadata_json) (file_names dir)
              then [path_join dirpath metadata_json] else [])
    (walk root d).

(** The file of a name in a directory. *)
Definition file_of (name : string) (d : dir) : file descriptor :=
  match d with
  | Dir _ files _ =>
      match List.find (fun f => String.eqb name (fst f)) files with
      | Some f => snd f
      | None => Absent
      end
  end.

(** Lines 94 to 98: the descriptor files that the loop reads, each with
    the folder that line 98 takes from its path; [open(meta_path)] opens
    the file of the directory in which the walk has seen it. *)
Definition discovered (root : string) (d : dir) : list found :=
  flat_map (fun '(dirpath, dir) =>
              if existsb (String.eqb metadata_json) (file_names dir)
              then [{| meta_folder := basename (dirname (path_join dirpath metadata_json));
                       meta_file := file_of metadata_json dir |}]
              else [])
    (walk root d).

(** The directories of a tree from the top down, the top under the name
    [top]. *)
Fixpoint below (d : dir) : list dir :=
  match d with
  | Dir _ _ subs => flat_map (fun sub => sub :: below sub) subs
  end.

Definition named_dirs (top : string) (d : dir) : list (string * dir) :=
  (top, d) :: List.map (fun sub => (name_of sub, sub)) (below d).

(** The names of the directories below the top are file names: not
    empty, without a slash. *)
Definition is_name (n : string) : bool :=
  negb (String.eqb n EmptyString) && negb (Str.mem "/" n).

Fixpoint well_named (d : dir) : bool :=
  match d with
  | Dir _ _ subs => forallb (fun sub => is_name (name_of sub) && well_named sub) subs
  end.

(** ** What a descriptor does to its bundle

    The update of lines 131 to 136 as an overwrite: the fields the
    descriptor carries replace those of the bundle, the others stay. *)

Definition or_else {A : Type} (x y : option A) : option A :=
  match x with
  | Some a => Some a
  | None => y
  end.

Record effect := {
  e_upper : bool;
  e_display_name : option string;
  e_is_20hz : option bool;
  e_build_time : option string;
  e_replace : model -> model
}.

Definition apply_effect (e : effect) (b : bundle) : bundle :=
  {| short_name := if e_upper e then Str.upper (short_name b) else short_name b;
     display_name := or_else (e_display_name e) (display_name b);
     is_20hz := or_else (e_is_20hz e) (is_20hz b);
     ref := ref b;
     environment := environment b;
     runner := runner b;
     index := index b;
     minimum_selector_version := minimum_selector_version b;
     generation := generation b;
     build_time := or_else (e_build_time e) (build_time b);
     overrides := overrides b;
     models := List.map (e_replace e) <$> models b |}.

Definition descriptor_effect (a : args) (folder : string) (meta : descriptor) : effect :=
  {| e_upper := true;
     e_display_name := meta_display_name meta;
     e_is_20hz := meta_is_20hz meta;
     e_build_time := meta_build_time meta;
     e_replace :=
       replace_model (recompiled_dir_name a) folder
         (List.filter not_big (default [] (meta_models meta))) |}.

Definition unit_effect : effect :=
  {| e_upper := false; e_display_name := None; e_is_20hz := None;
     e_build_time := None; e_replace := fun m => m |}.

(** [e1], then [e2]. *)
Definition compose_effect (e2 e1 : effect) : effect :=
  {| e_upper := e_upper e2 || e_upper e1;
     e_display_name := or_else (e_display_name e2) (e_display_name e1);
     e_is_20hz := or_else (e_is_20hz e2) (e_is_20hz e1);
     e_build_time := or_else (e_build_time e2) (e_build_time e1);
     e_replace := fun m => e_replace e2 (e_replace e1 m) |}.

(** The ref of a descriptor file that can be read. *)
Definition found_ref (f : found) : option string :=
  match meta_file f with
  | Json meta => meta_ref meta
  | _ => None
  end.

Definition found_effect (a : args) (f : found) : effect :=
  match meta_file f with
  | Json meta => descriptor_effect a (meta_folder f) meta
  | _ => unit_effect
  end.

(** The descriptor is for the bundle at position [i]. *)
Definition targets (mp : gmap string nat) (f : found) (i : nat) : Prop :=
  found_ref f ≫= (mp !!.) = Some i.

#[global] Instance targets_dec mp f i : Decision (targets mp f i).
Proof. unfold targets. apply _. Defined.

(** What the descriptors [D], in their order, do to the bundle at
    position [i], by the dictionary [mp]. *)
Fixpoint effect_at (a : args) (mp : gmap string nat) (D : list found) (i : nat) : effect :=
  match D with
  | [] => unit_effect
  | f :: D' =>
      compose_effect (effect_at a mp D' i)
        (if decide (targets mp f i) then found_effect a f else unit_effect)
  end.

(** A replacement of models that keeps the type of a model, that on the
    models of one type is either the identity or a constant, and that
    makes no model big. *)
Definition good_replace (r : model -> model) : Prop :=
  (forall m, type (r m) = type m)
  /\ (forall t, (forall m, type m = t -> r m = m)
               \/ (exists K, forall m, type m = t -> r m = K))
  /\ (forall m, not_big m = true -> not_big (r m) = true).

(** The bundle has the two keys that lines 134 and 135 read. *)
Definition complete (b : bundle) : Prop :=
  is_Some (display_name b) /\ is_Some (is_20hz b).

Definition good_effect (e : effect) : Prop := good_replace (e_replace e).

(** The descriptor can be read, and the bundle of its ref is there with
    the keys the update reads. *)
Definition ready (st : state) (f : found) : Prop :=
  exists meta r mm i b,
    meta_file f = Json meta /\ meta_ref meta = Some r /\ meta_models meta = Some mm
    /\ ref_to_bundle st !! r = Some i /\ st_bundles st !! i = Some b /\ complete b.

(** The bundles [news] that a run over [D] appends to [bs0]: their refs
    differ from each other and from those of [bs0] and are refs of
    descriptors, their names are in upper case, their models are not big. *)
Definition fresh_news (bs0 : list bundle) (D : list found) (news : list bundle) : Prop :=
  NoDup (ref <$> news)
  /\ (forall nb, nb ∈ news -> ref nb ∉ ref <$> bs0)
  /\ (forall nb, nb ∈ news -> ref nb ∈ omap found_ref D)
  /\ Forall (fun nb =>
        Str.upper_case (short_name nb) = true
        /\ exists ms, models nb = Some ms /\ Forall (fun m => not_big m = true) ms) news.

(** The name that line 99 gives the descriptor. *)
Definition descriptor_short_name (f : found) (meta : descriptor) : string :=
  Str.upper (default (meta_folder f) (meta_short_name meta)).

(** [nb] is the bundle that lines 102 to 127 make of the descriptor at the
    state [st]. *)
Definition created (a : args) (st : state) (f : found) (meta : descriptor)
    (r : string) (nb : bundle) : Prop :=
  exists fkey fallback mm,
    folder_key a (descriptor_short_name f meta) = Ok fkey
    /\ get_generation_and_selector (descriptor_short_name f meta) (st_bundles st) = Ok fallback
    /\ meta_models meta = Some mm
    /\ nb = new_bundle a meta r (descriptor_short_name f meta) fkey
              (next_index (st_bundles st))
              (default (fst fallback) (arg_generation a))
              (default (snd fallback) (arg_version a))
              (List.filter not_big mm).

(** The dictionary and the list agree: [ref_to_bundle] is the dictionary
    that line 92 builds of the present list. *)
Definition inv (st : state) : Prop :=
  ref_to_bundle st = ref_map_from 0 (st_bundles st) ∅.

(** The position of the last bundle that carries the ref [r]. *)
Fixpoint last_index (r : string) (bs : list bundle) : option nat :=
  match bs with
  | [] => None
  | b :: bs' =>
      match last_index r bs' with
      | Some j => Some (S j)
      | None => if decide (ref b = r) then Some 0%nat else None
      end
  end.

(** What the post-processing keeps of a bundle. *)
Definition same_content (b' b : bundle) : Prop :=
  ref b' = ref b /\ short_name b' = short_name b
  /\ models b' = models b /\ display_name b' = display_name b.

(** The bundle that [get_generation_and_selector] reads: among the
    candidates, the first of those with the greatest index. *)
Definition latest_of (candidates : list bundle) (latest : bundle) : Prop :=
  exists l1 l2,
    candidates = (l1 ++ latest :: l2)%list
    /\ Forall (fun c => index_or_0 c < index_or_0 latest) l1
    /\ Forall (fun c => index_or_0 c <= index_or_0 latest) l2.

(** What lines 139 to 141 do to a bundle. *)
Definition min_version_of (a : args) (b : bundle) : bundle :=
  match arg_set_min_version a with
  | Some v => set_min_version v b
  | None => b
  end.

(** The bundle has no date that can be read in its display name. *)
Definition undated (b : bundle) : Prop :=
  strptime (extract_date_from_display_name (default "" (display_name b))) = None.

(** The manifest file cannot be loaded, or has no [bundles]. *)
Definition bad_manifest (w : world) : Prop :=
  manifest_file w = Absent \/ manifest_file w = Unreadable
  \/ manifest_file w = NotJson
  \/ exists M, manifest_file w = Json M /\ bundles M = None.

(** The descriptor file is not JSON, or lacks [ref] or [models]. *)
Definition bad_descriptor (f : found) : Prop :=
  meta_file f = NotJson
  \/ exists meta, meta_file f = Json meta
       /\ (meta_ref meta = None \/ meta_models meta = None).

(** The keys of a bundle that the loop never writes. *)
Definition frame_eq (b b' : bundle) : Prop :=
  ref b' = ref b /\ environment b' = environment b /\ runner b' = runner b
  /\ index b' = index b /\ generation b' = generation b
  /\ minimum_selector_version b' = minimum_selector_version b
  /\ overrides b' = overrides b.

(** The refs of the bundles that the loop appends, in the order of the
    descriptors: the refs that are not yet [known]. *)
Fixpoint new_refs (known : list string) (D : list found) : list string :=
  match D with
  | [] => []
  | f :: D' =>
      match found_ref f with
      | Some r =>
          if decide (r ∈ known) then new_refs known D'
          else r :: new_refs (known ++ [r])%list D'
      | None => new_refs known D'
      end
  end.

(** The URL of a file of a model is the URL that [make_model_url] gives
    its name in [folder]. *)
Definition url_of_file (recompiled_dir folder : string) (x : file_t) : Prop :=
  url (download_uri x) = make_model_url recompiled_dir folder (file_name x).

Definition urls_rewritten (recompiled_dir folder : string) (m : model) : Prop :=
  url_of_file recompiled_dir folder (artifact m)
  /\ url_of_file recompiled_dir folder (metadata m).

(** The keys of a bundle that the post-processing never writes: all but
    [index] and [minimum_selector_version]. *)
Definition content_eq (b' b : bundle) : Prop :=
  short_name b' = short_name b /\ display_name b' = display_name b
  /\ is_20hz b' = is_20hz b /\ ref b' = ref b
  /\ environment b' = environment b /\ runner b' = runner b
  /\ generation b' = generation b /\ build_time b' = build_time b
  /\ overrides b' = overrides b /\ models b' = models b.

(** The text between the braces of an object that [json.dumps] writes
    with an indent: each member on a line of its own, a comma after each
    but the last.  [ind0] stands before the first member, [ind] before
    the others. *)
Definition newline : string := String "010" EmptyString.

Fixpoint dumped_members (ind0 ind : string) (items : list string) : string :=
  match items with
  | [] => EmptyString
  | [x] => ind0 ++ x ++ newline
  | x :: rest => ind0 ++ x ++ "," ++ newline ++ dumped_members ind ind rest
  end.

(** The member [overrides] as [json.dumps] writes it, the closing brace
    after the indent [ind2]. *)
Definition dumped_overrides (ind ind2 : string) (items : list string) : string :=
  overrides_key ++ "{" ++ newline ++ dumped_members ind ind items ++ ind2 ++ "}".

(** White space that ends no line. *)
Definition is_blank (c : ascii) : bool := Str.is_space c && negb (is_linebreak c).

(** A member as it stands on its line: no white space at its ends, no
    comma at its end, no line boundary and no closing brace in it. *)
Definition is_item (x : string) : bool :=
  match x with
  | String c _ => negb (Str.is_space c)
  | EmptyString => false
  end
  && match last_char x with
     | Some c => negb (Str.is_space c) && negb (is_comma c)
     | None => false
     end
  && Str.sforall (fun c => negb (is_linebreak c) && negb (Ascii.eqb c "}")) x.

(** The descriptor that the loop reads in a directory of the name
    [name], if the directory has a [metadata.json]. *)
Definition descriptor_of (entry : string * dir) : list found :=
  if existsb (String.eqb metadata_json) (file_names (snd entry))
  then [{| meta_folder := fst entry; meta_file := file_of metadata_json (snd entry) |}]
  else [].

(** A text of ASCII characters.  On such a text [upper], [split], the
    white space of the regular expressions, of [strip] and of [splitlines]
    and the digits and letters of [strptime] are in Python what they are
    here; on other text Python works by Unicode classes (it upper-cases
    accented letters, splits at U+00A0, reads full-width digits), which
    the byte strings of this file do not follow. *)
Definition is_ascii (s : string) : bool :=
  Str.sforall (fun c => (Str.code c <? 128)%N) s.

(** The name of a descriptor as the descriptor has it: its [short_name],
    or the folder; line 99 puts it in upper case. *)
Definition stated_short_name (f : found) (meta : descriptor) : string :=
  default (meta_folder f) (meta_short_name meta).

(** The date that line 146 reads in a display name. *)
Definition date_of_display_name (display_name : string) : option datetime :=
  strptime (extract_date_from_display_name display_name).

(** The integers from [lo], [len] of them. *)
Fixpoint range (lo : Z) (len : nat) : list Z :=
  match len with
  | O => []
  | S len' => lo :: range (lo + 1) len'
  end.

(** ** A manifest and two descriptors to run the script on *)

Module Ex.

Definition file (name hash : string) : file_t :=
  {| file_name := name;
     download_uri := {| sha256 := hash; url := "https://example.org/" ++ name |} |}.

Definition a_model (t art meta : string) : model :=
  {| type := t; artifact := file art ("sha-" ++ art); metadata := file meta ("sha-" ++ meta) |}.

Definition a_bundle (name r : string) (g v : option string) (i : option Z)
    (ms : list model) : bundle :=
  {| short_name := name; display_name := Some name; is_20hz := Some false;
     ref := r; environment := "development"; runner := "tinygrad";
     index := i; minimum_selector_version := v; generation := g;
     build_time := None;
     overrides := {| folder := "RAV Models"; lat := ".0"; long := ".3" |};
     models := Some ms |}.

Definition args0 : args :=
  {| recompiled_dir_name := "recompiled3"; arg_model_folder := None;
     arg_lat := ".0"; arg_long := ".3"; arg_generation := None;
     arg_version := None; arg_set_min_version := None;
     arg_sort_by_date := false; arg_tinygrad_ref := None |}.

Definition args_sort : args :=
  {| recompiled_dir_name := "recompiled3"; arg_model_folder := None;
     arg_lat := ".0"; arg_long := ".3"; arg_generation := None;
     arg_version := None; arg_set_min_version := Some "13";
     arg_sort_by_date := true; arg_tinygrad_ref := Some "abc" |}.

(** A bundle of the manifest, with a name in lower case. *)
Definition rav1 : bundle :=
  a_bundle "rav1" "r1" (Some "11") (Some "11") (Some 2)
    [a_model "policy" "old_policy.pkl" "old_policy_meta.pkl"].

(** A bundle that no descriptor is for. *)
Definition rav0 : bundle :=
  a_bundle "rav0" "r0" (Some "10") (Some "10") (Some 1) [].

Definition M0 : manifest := {| tinygrad_ref := None; bundles := Some [rav0; rav1] |}.

(** The descriptor of [rav1]; its first model is big. *)
Definition meta1 : descriptor :=
  {| meta_ref := Some "r1"; meta_short_name := None;
     meta_display_name := Some "Rav One (June 1, 2024)";
     meta_is_20hz := Some true; meta_build_time := Some "t1";
     meta_models := Some [a_model "policy" "policy_BIG.pkl" "policy_meta.pkl";
                          a_model "policy" "policy.pkl" "policy_meta.pkl";
                          a_model "vision" "vision.pkl" "vision_meta.pkl"] |}.

(** The descriptor of a bundle that is not in the manifest. *)
Definition meta2 : descriptor :=
  {| meta_ref := Some "r2"; meta_short_name := Some "rav2 model";
     meta_display_name := Some "Rav Two (May 3, 2023)";
     meta_is_20hz := None; meta_build_time := None;
     meta_models := Some [a_model "vision" "vision.pkl" "Big_vision_meta.pkl";
                          a_model "vision" "vision a.pkl" "vision_meta a.pkl";
                          a_model "vision" "vision b.pkl" "vision_meta b.pkl"] |}.

Definition D0 : list found :=
  [ {| meta_folder := "rav1 dir"; meta_file := Json meta1 |};
    {| meta_folder := "rav2"; meta_file := Json meta2 |} ].

(** The bundles of the inheritance example, and a descriptor of a third. *)
Definition st_rav : state :=
  initial [a_bundle "RAV1" "r1" (Some "11") (Some "11") (Some 2) [];
           a_bundle "RAV2" "r2" (Some "12") (Some "12") (Some 5) []].

Definition meta3 : descriptor :=
  {| meta_ref := Some "r3"; meta_short_name := Some "rav3";
     meta_display_name := None; meta_is_20hz := None; meta_build_time := None;
     meta_models := Some [a_model "policy" "policy.pkl" "policy_meta.pkl"] |}.

Definition found3 : found := {| meta_folder := "rav3"; meta_file := Json meta3 |}.

Definition st_rav' : state :=
  Eval vm_compute in match step args0 st_rav found3 with Ok st => st | Raise _ => st_rav end.

(** The bundle at position [i] of a manifest. *)
Definition bundle_at (M : manifest) (i : nat) : bundle :=
  default rav0 (default [] (bundles M) !! i).

(** What the script makes of them, without and with [--sort-by-date]. *)
Definition M1 : manifest :=
  Eval vm_compute in match run args0 M0 D0 with Ok M => M | Raise _ => M0 end.

Definition M1_sorted : manifest :=
  Eval vm_compute in match run args_sort M0 D0 with Ok M => M | Raise _ => M0 end.

End Ex.

(** ** More inputs to run the script on *)

Module Ex2.

(** A bundle without [display_name]. *)
Definition rav_bare : bundle :=
  {| short_name := "RAV1"; display_name := None; is_20hz := Some false;
     ref := "r1"; environment := "development"; runner := "tinygrad";
     index := Some 2; minimum_selector_version := Some "11";
     generation := Some "11"; build_time := None;
     overrides := {| folder := "RAV Models"; lat := ".0"; long := ".3" |};
     models := Some [] |}.

Definition M_bare : manifest := {| tinygrad_ref := None; bundles := Some [rav_bare] |}.

(** The member [overrides] of a bundle, as [json.dumps] writes it. *)
Definition quoted (s : string) : string := String dquote (s ++ String dquote "").

Definition members : list string :=
  [quoted "folder" ++ ": " ++ quoted "RAV Models";
   quoted "lat" ++ ": " ++ quoted ".0";
   quoted "long" ++ ": " ++ quoted ".3"].

Definition dumped : string := dumped_overrides "      " "    " members ++ ",".

(** A recompiled directory: a descriptor in two of its three
    sub-directories, one of them two levels down. *)
Definition tree : dir :=
  Dir "recompiled3" [("README.md", NotJson)]
    [Dir "rav1 dir" [("metadata.json", Json Ex.meta1); ("policy.pkl", NotJson)] [];
     Dir "empty" [] [Dir "rav2" [("metadata.json", Json Ex.meta2)] []]].

(** A bundle dated as [datetime.min] before a bundle without a date. *)
Definition year_one : bundle :=
  {| short_name := "OLD"; display_name := Some "Old (January 1, 0001)";
     is_20hz := Some false; ref := "old"; environment := "development";
     runner := "tinygrad"; index := Some 7; minimum_selector_version := Some "10";
     generation := Some "10"; build_time := None;
     overrides := {| folder := "OLD Models"; lat := ".0"; long := ".3" |};
     models := Some [] |}.

Definition no_date : bundle :=
  {| short_name := "NEW"; display_name := Some "No date";
     is_20hz := Some false; ref := "new"; environment := "development";
     runner := "tinygrad"; index := Some 8; minimum_selector_version := Some "10";
     generation := Some "10"; build_time := None;
     overrides := {| folder := "NEW Models"; lat := ".0"; long := ".3" |};
     models := Some [] |}.

Definition M_year_one : manifest :=
  {| tinygrad_ref := None; bundles := Some [year_one; no_date] |}.

(** The descriptor "rav2 model" on its own, for a manifest whose bundles
    [rav0] and [rav1] have names in lower case. *)
Definition found2 : found := {| meta_folder := "rav2"; meta_file := Json Ex.meta2 |}.

Definition st_lower : state := initial [Ex.rav0; Ex.rav1].

Definition st_lower' : state :=
  Eval vm_compute in match step Ex.args0 st_lower found2 with Ok st => st | Raise _ => st_lower end.

(** The bundle of the highest index is not the last one, and its
    generation is not "12". *)
Definition st_rav5 : state :=
  initial [Ex.a_bundle "RAV1" "r1" (Some "11") (Some "11") (Some 5) [];
           Ex.a_bundle "RAV2" "r2" (Some "12") (Some "12") (Some 2) []].

Definition st_rav5' : state :=
  Eval vm_compute in
    match step Ex.args0 st_rav5 Ex.found3 with Ok st => st | Raise _ => st_rav5 end.

(** A second descriptor of the ref of [meta1], found after the others. *)
Definition meta1b : descriptor :=
  {| meta_ref := Some "r1"; meta_short_name := None;
     meta_display_name := Some "Rav One (July 2, 2024)";
     meta_is_20hz := Some false; meta_build_time := Some "t2";
     meta_models := Some [Ex.a_model "policy" "policy2.pkl" "policy2_meta.pkl"] |}.

Definition found1 : found := {| meta_folder := "rav1 dir"; meta_file := Json Ex.meta1 |}.

Definition found1b : found := {| meta_folder := "rav1 v2"; meta_file := Json meta1b |}.

Definition D_twice : list found := [found1; found2; found1b].

Definition M1_twice : manifest :=
  Eval vm_compute in match run Ex.args0 Ex.M0 D_twice with Ok M => M | Raise _ => Ex.M0 end.

End Ex2.

(** * Properties *)

#[local] Arguments Ascii.eqb : simpl never.
#[local] Arguments String.eqb : simpl never.

(** ** Strings *)

Ltac each_ascii c :=
  destruct c as [[] [] [] [] [] [] [] []]; vm_compute;
  first [ reflexivity | intro; first [ discriminate | reflexivity ] | idtac ].

Lemma to_upper_not_lower (c : ascii) : Str.is_lower (Str.to_upper c) = false.
Proof. each_ascii c. Qed.

Lemma upper_upper_case (s : string) : Str.upper_case (Str.upper s) = true.
Proof.
  unfold Str.upper_case, Str.upper.
  induction s as [|c s IH]; simpl; [reflexivity|].
  rewrite to_upper_not_lower. exact IH.
Qed.

Lemma to_upper_idem (c : ascii) : Str.to_upper (Str.to_upper c) = Str.to_upper c.
Proof. each_ascii c. Qed.

Lemma upper_idem (s : string) : Str.upper (Str.upper s) = Str.upper s.
Proof.
  unfold Str.upper. induction s as [|c s IH]; simpl; [reflexivity|].
  by rewrite to_upper_idem, IH.
Qed.

Lemma sforall_app (p : ascii -> bool) (s t : string) :
  Str.sforall p (s ++ t) = Str.sforall p s && Str.sforall p t.
Proof.
  induction s as [|c s IH]; simpl; [reflexivity|].
  by rewrite IH, andb_assoc.
Qed.

Lemma sforall_impl (p q : ascii -> bool) (s : string) :
  (forall c, p c = true -> q c = true) ->
  Str.sforall p s = true -> Str.sforall q s = true.
Proof.
  intros Hpq. induction s as [|c s IH]; simpl; [done|].
  intros [Hc Hs]%andb_true_iff. rewrite (Hpq _ Hc). by apply IH.
Qed.

Lemma string_app_cons (c : ascii) (s t : string) :
  String c s ++ t = String c (s ++ t).
Proof. reflexivity. Qed.

Lemma string_app_nil (t : string) : "" ++ t = t.
Proof. reflexivity. Qed.

Lemma string_app_assoc (s t u : string) : (s ++ t) ++ u = s ++ (t ++ u).
Proof.
  induction s as [|c s IH]; [reflexivity|].
  by rewrite !string_app_cons, IH.
Qed.

Lemma string_app_length (s t : string) :
  String.length (s ++ t) = (String.length s + String.length t)%nat.
Proof.
  induction s as [|c s IH]; [reflexivity|].
  rewrite string_app_cons. simpl. by rewrite IH.
Qed.

(** ** The URL builder *)

(** What [quote] gives is made of the characters it keeps and of the
    percent sign. *)
Lemma quote_char_alphabet (c : ascii) :
  Str.sforall (fun d => quote_safe d || Ascii.eqb d "%") (quote_char c) = true.
Proof. each_ascii c. Qed.

Lemma quote_alphabet (s : string) :
  Str.sforall (fun d => quote_safe d || Ascii.eqb d "%") (quote s) = true.
Proof.
  unfold quote. induction s as [|c s IH]; simpl; [reflexivity|].
  by rewrite sforall_app, quote_char_alphabet, IH.
Qed.

(** Of the reserved characters only the slash is kept. *)
Lemma reserved_kept_is_slash (c : ascii) :
  quote_safe c || Ascii.eqb c "%" = true ->
  negb (reserved c) || Ascii.eqb c "/" = true.
Proof. each_ascii c. Qed.

Lemma quote_reserved (s : string) :
  Str.sforall (fun d => negb (reserved d) || Ascii.eqb d "/") (quote s) = true.
Proof.
  eapply sforall_impl; [|apply quote_alphabet].
  intros c. apply reserved_kept_is_slash.
Qed.

Lemma percent_decode_keep (c : ascii) (t : string) :
  Ascii.eqb c "%" = false ->
  percent_decode (String c t) = String c (percent_decode t).
Proof. intros H. destruct t as [|h [|l r]]; simpl; by rewrite ?H. Qed.

Lemma quote_safe_not_percent (c : ascii) :
  quote_safe c = true -> Ascii.eqb c "%" = false.
Proof. each_ascii c. Qed.

Lemma hex_digits_value (c : ascii) :
  ascii_of_N (16 * hex_val (hex_digit (Str.code c / 16))
              + hex_val (hex_digit (Str.code c mod 16))) = c.
Proof. each_ascii c. Qed.

(** [quote] loses nothing: decoding gives the text back. *)
Lemma percent_decode_quote (s : string) : percent_decode (quote s) = s.
Proof.
  unfold quote. induction s as [|c s IH]; [reflexivity|].
  cbn [Str.concat_map]. unfold quote_char at 1.
  destruct (quote_safe c) eqn:E.
  - rewrite string_app_cons, string_app_nil.
    rewrite percent_decode_keep by by apply quote_safe_not_percent.
    by rewrite IH.
  - rewrite !string_app_cons, string_app_nil.
    cbn [percent_decode]. rewrite Ascii.eqb_refl, hex_digits_value. by rewrite IH.
Qed.

(** C7, as the claim states it, fails: the slash is a reserved character,
    and a slash in a folder or in a file name is not escaped. *)
Lemma make_model_url_keeps_slash :
  reserved "/" = true
  /\ quote "a/b" = "a/b"
  /\ make_model_url "recompiled3" "a/b" "x/y.onnx"
     = "https://raw.githubusercontent.com/hoofpilot/models/master/recompiled/recompiled3/a/b/x/y.onnx".
Proof. repeat split. Qed.

(** C7, amended: the URL is the fixed base path, the recompiled-directory
    name as it is, the quoted folder and the quoted file name, separated by
    slashes; quoting keeps letters, digits, [_.-~] and the slash and
    replaces every other character by an escape that decodes to it, so
    that of the reserved characters only the slash is left in the two
    components. *)
Theorem make_model_url_spec (recompiled_dir folder file_name : string) :
  make_model_url recompiled_dir folder file_name
    = base_url ++ recompiled_dir ++ "/" ++ quote folder ++ "/" ++ quote file_name
  /\ Str.sforall (fun d => quote_safe d || Ascii.eqb d "%")
       (quote folder ++ "/" ++ quote file_name) = true
  /\ Str.sforall (fun d => negb (reserved d) || Ascii.eqb d "/")
       (quote folder ++ "/" ++ quote file_name) = true
  /\ percent_decode (quote folder) = folder
  /\ percent_decode (quote file_name) = file_name
  /\ make_model_url "recompiled3" "My Model" "a b.onnx"
     = base_url ++ "recompiled3/My%20Model/a%20b.onnx".
Proof.
  split_and!.
  - unfold make_model_url. cbv zeta. by rewrite !string_app_assoc.
  - rewrite !sforall_app, !quote_alphabet. reflexivity.
  - rewrite !sforall_app, !quote_reserved. reflexivity.
  - apply percent_decode_quote.
  - apply percent_decode_quote.
  - reflexivity.
Qed.

(** ** Date extraction *)

Lemma until_close_sound (s body : string) :
  until_close s = Some body ->
  exists post, s = body ++ ")" ++ post /\ Str.mem ")" body = false.
Proof.
  revert body. induction s as [|c s IH]; intros body; simpl; [done|].
  destruct (Ascii.eqb_spec c ")") as [->|Hc].
  - intros [= <-]. by exists s.
  - destruct (until_close s) as [b|]; [|done].
    intros [= <-]. destruct (IH b eq_refl) as (post & -> & Hb).
    exists post. split; [reflexivity|]. simpl.
    destruct (Ascii.eqb_spec ")" c) as [E|_]; [congruence|exact Hb].
Qed.

Lemma until_close_complete (body post : string) :
  Str.mem ")" body = false -> until_close (body ++ ")" ++ post) = Some body.
Proof.
  induction body as [|c body IH]; [done|]. cbn [Str.mem].
  intros [Hc Hb]%orb_false_iff. rewrite string_app_cons. cbn [until_close].
  destruct (Ascii.eqb_spec c ")") as [->|_].
  - by rewrite Ascii.eqb_refl in Hc.
  - by rewrite (IH Hb).
Qed.

Lemma match_here_sound (s body : string) :
  match_here s = Some body -> exists post, parenthesized "" body post s.
Proof.
  intros H. destruct s as [|c s]; [done|]. simpl in H.
  destruct (Ascii.eqb_spec c "(") as [->|_]; [|done].
  destruct (until_close s) as [[|b body']|] eqn:E; try done.
  injection H as <-. destruct (until_close_sound _ _ E) as (post & -> & Hb).
  exists post. by repeat split.
Qed.

Lemma match_here_complete (body post : string) :
  body <> "" -> Str.mem ")" body = false ->
  match_here ("(" ++ body ++ ")" ++ post) = Some body.
Proof.
  intros Hne Hb. rewrite string_app_cons, string_app_nil. cbn [match_here].
  rewrite Ascii.eqb_refl, (until_close_complete _ _ Hb). by destruct body.
Qed.

Lemma re_search_unfold (s : string) :
  re_search s =
  match match_here s with
  | Some body => Some body
  | None => match s with EmptyString => None | String _ s' => re_search s' end
  end.
Proof. by destruct s. Qed.

Lemma re_search_leftmost (s body : string) :
  re_search s = Some body ->
  exists pre post,
    parenthesized pre body post s
    /\ forall pre' body' post', parenthesized pre' body' post' s ->
         (String.length pre <= String.length pre')%nat.
Proof.
  revert body. induction s as [|c s IH]; intros body; [done|].
  rewrite re_search_unfold. destruct (match_here (String c s)) as [b|] eqn:E.
  - intros [= <-]. destruct (match_here_sound _ _ E) as [post H].
    exists "", post. split; [exact H|]. intros. simpl. lia.
  - intros H. destruct (IH _ H) as (pre & post & (-> & Hne & Hb) & Hleft).
    exists (String c pre), post. split; [by repeat split|].
    intros pre' body' post' (Hs & Hne' & Hb').
    destruct pre' as [|c' pre'].
    + rewrite string_app_nil in Hs. rewrite Hs in E.
      by rewrite (match_here_complete _ _ Hne' Hb') in E.
    + rewrite string_app_cons in Hs. injection Hs as <- Hs. simpl.
      apply le_n_S, (Hleft pre' body' post'). by repeat split.
Qed.

Lemma re_search_none (s : string) :
  re_search s = None ->
  forall pre body post, ~ parenthesized pre body post s.
Proof.
  induction s as [|c s IH]; intros H pre body post (Hs & Hne & Hb).
  - destruct pre; discriminate.
  - rewrite re_search_unfold in H.
    destruct (match_here (String c s)) as [b|] eqn:E; [done|].
    destruct pre as [|c' pre].
    + rewrite string_app_nil in Hs. rewrite Hs in E.
      by rewrite (match_here_complete _ _ Hne Hb) in E.
    + rewrite string_app_cons in Hs. injection Hs as <- Hs.
      by apply (IH H pre body post).
Qed.

(** C3, as the claim states it, fails: with two parenthesized texts in the
    display name the extraction returns the first one, not the last. *)
Lemma extract_date_not_last :
  extract_date_from_display_name "A (x) (June 1, 2024)" = "x"
  /\ last_parenthesized "A (x) (June 1, 2024)" = Some "June 1, 2024".
Proof. split; reflexivity. Qed.


(** ** Prefixes and the choice of the latest bundle *)

Lemma span_app (p : ascii -> bool) (s : string) :
  s = Str.take_while p s ++ Str.drop_while p s.
Proof.
  unfold Str.take_while, Str.drop_while.
  induction s as [|c s IH]; [reflexivity|]. simpl.
  destruct (p c); [|reflexivity].
  destruct (Str.span p s) as [x y]. simpl in *.
  by rewrite string_app_cons, <- IH.
Qed.

Lemma take_while_all (p : ascii -> bool) (s : string) :
  Str.sforall p (Str.take_while p s) = true.
Proof.
  unfold Str.take_while. induction s as [|c s IH]; [reflexivity|]. simpl.
  destruct (p c) eqn:E; [|reflexivity].
  destruct (Str.span p s) as [x y]. simpl in *. by rewrite E, IH.
Qed.

(** What follows the longest prefix does not begin with a character of
    the class. *)
Lemma drop_while_head (p : ascii -> bool) (s : string) :
  match Str.drop_while p s with
  | EmptyString => True
  | String c _ => p c = false
  end.
Proof.
  unfold Str.drop_while. induction s as [|c s IH]; [done|]. simpl.
  destruct (p c) eqn:E; [|exact E].
  by destruct (Str.span p s) as [x y].
Qed.

Lemma startswith_spec (s p : string) :
  Str.startswith s p = true <-> exists r, s = p ++ r.
Proof.
  revert s. induction p as [|a p IH]; intros s.
  - split; [intros _; by exists s|intros _; by destruct s].
  - destruct s as [|b s]; simpl.
    + split; [done|intros [r Hr]; discriminate].
    + destruct (Ascii.eqb_spec a b) as [->|Hab].
      * rewrite IH. split; intros [r Hr]; exists r.
        -- by rewrite string_app_cons, Hr.
        -- rewrite string_app_cons in Hr. by injection Hr.
      * split; [done|]. intros [r Hr]. rewrite string_app_cons in Hr.
        injection Hr as ? ?. congruence.
Qed.

(** It is the longest leading run of letters, or the whole name when the
    name does not begin with a letter. *)
Lemma alpha_prefix_spec (sn : string) :
  (exists rest,
     sn = alpha_prefix sn ++ rest
     /\ alpha_prefix sn <> ""
     /\ Str.sforall Str.is_alpha (alpha_prefix sn) = true
     /\ match rest with EmptyString => True | String c _ => Str.is_alpha c = false end)
  \/ (alpha_prefix sn = sn
      /\ match sn with EmptyString => True | String c _ => Str.is_alpha c = false end).
Proof.
  unfold alpha_prefix, match_alpha.
  destruct (Str.take_while Str.is_alpha sn) as [|c p] eqn:E.
  - right. split; [reflexivity|].
    pose proof (drop_while_head Str.is_alpha sn) as H.
    pose proof (span_app Str.is_alpha sn) as Hs.
    rewrite E, string_app_nil in Hs. by rewrite <- Hs in H.
  - left. exists (Str.drop_while Str.is_alpha sn). repeat split.
    + rewrite <- E. apply span_app.
    + done.
    + rewrite <- E. apply take_while_all.
    + apply drop_while_head.
Qed.

Lemma max_by_first {A : Type} (key : A -> Z) (rest : list A) (best : A) :
  exists l1 l2,
    best :: rest = (l1 ++ max_by key best rest :: l2)%list
    /\ Forall (fun x => key x < key (max_by key best rest)) l1
    /\ Forall (fun x => key x <= key (max_by key best rest)) l2.
Proof.
  revert best. induction rest as [|x rest IH]; intros best.
  - exists [], []. by repeat split.
  - cbn [max_by]. destruct (Z.ltb_spec (key best) (key x)) as [Hlt|Hge].
    + destruct (IH x) as (l1 & l2 & Heq & H1 & H2).
      exists (best :: l1), l2. split; [by rewrite Heq|]. split; [|done].
      constructor; [|done].
      destruct l1 as [|y l1]; injection Heq as Hx Hrest.
      * rewrite <- Hx. lia.
      * subst y. apply Forall_cons in H1 as [? _]. lia.
    + destruct (IH best) as (l1 & l2 & Heq & H1 & H2).
      destruct l1 as [|y l1]; injection Heq as Hb Hrest.
      * exists [], (x :: l2). rewrite <- Hb. split; [by rewrite Hrest|].
        split; [done|]. constructor; [lia|]. by rewrite Hb.
      * subst y. exists (best :: x :: l1), l2.
        split; [simpl; by rewrite <- Hrest|]. split; [|done].
        apply Forall_cons in H1 as [Hy H1].
        repeat constructor; [done|lia|done].
Qed.

(** ** The update of the models: sharing is harmless *)

Section update_models.
Variables recompiled_dir folder : string.

Lemma src_eq_refl (c : model) : src_eq c c.
Proof. by repeat split. Qed.

Lemma src_eq_trans (c1 c2 c3 : model) : src_eq c1 c2 -> src_eq c2 c3 -> src_eq c1 c3.
Proof. unfold src_eq. intuition congruence. Qed.

Lemma assign_src_eq (m c c' : model) :
  src_eq c c' -> assign recompiled_dir folder m c = assign recompiled_dir folder m c'.
Proof. intros (_ & H1 & H2 & H3 & H4). unfold assign. by rewrite H1, H2, H3, H4. Qed.

Lemma assign_self (m : model) : src_eq (assign recompiled_dir folder m m) m.
Proof. by repeat split. Qed.

Lemma assign_type (m c : model) : type (assign recompiled_dir folder m c) = type m.
Proof. reflexivity. Qed.

Lemma assign_not_big (m c : model) :
  not_big (assign recompiled_dir folder m c) = not_big c.
Proof. reflexivity. Qed.

Lemma find_type_ref (store : list model) (refs : list nat) (t : string) :
  find_type store refs t = find_ref store refs t ≫= (store !!.).
Proof.
  induction refs as [|k refs IH]; [reflexivity|]. simpl.
  destruct (store !! k) as [m|] eqn:E; [|exact IH].
  destruct (String.eqb (type m) t); [by rewrite <- E|exact IH].
Qed.

Lemma find_ref_types (store store' : list model) (refs : list nat) (t : string) :
  Forall2 (fun m m' => type m = type m') store store' ->
  find_ref store refs t = find_ref store' refs t.
Proof.
  intros H. induction refs as [|k refs IH]; [reflexivity|]. simpl.
  destruct (store !! k) as [m|] eqn:E.
  - destruct (Forall2_lookup_l _ _ _ _ _ H E) as (m' & -> & ->).
    by rewrite IH.
  - destruct (store' !! k) as [m'|] eqn:E'; [|exact IH].
    destruct (Forall2_lookup_r _ _ _ _ _ H E') as (m & Hm & _). congruence.
Qed.

(** Slots that own their models: the store is not written. *)
Lemma update_slots_own (refs : list nat) (store : list model) (ms : list model) :
  update_slots recompiled_dir folder refs store (List.map Own ms)
  = (store, List.map Own (List.map (replace_in recompiled_dir folder store refs) ms)).
Proof.
  induction ms as [|m ms IH]; [reflexivity|].
  cbn [List.map update_slots]. rewrite (surjective_pairing (update_slot _ _ _ _ _)).
  unfold update_slot at 1 2, replace_in at 1. cbn [deref].
  destruct (find_type store refs (type m)) as [c|]; cbn [fst snd]; by rewrite IH.
Qed.

Lemma filtered_refs_bounds (l : list model) (k x : nat) :
  x ∈ filtered_refs k l -> (k <= x < k + length l)%nat.
Proof.
  revert k. induction l as [|m l IH]; intros k; simpl; [by intros ?%elem_of_nil|].
  destruct (not_big m).
  - intros [->|H%IH]%elem_of_cons; lia.
  - intros H%IH. lia.
Qed.

Lemma filtered_refs_NoDup (l : list model) (k : nat) : NoDup (filtered_refs k l).
Proof.
  revert k. induction l as [|m l IH]; intros k; simpl; [constructor|].
  destruct (not_big m); [|apply IH].
  constructor; [|apply IH]. intros H%filtered_refs_bounds. lia.
Qed.

Lemma filtered_refs_lookup (pre l : list model) :
  omap (fun k => (pre ++ l)%list !! k) (filtered_refs (length pre) l)
  = List.filter not_big l.
Proof.
  revert pre. induction l as [|m l IH]; intros pre; [reflexivity|]. simpl.
  assert (Hcons : (pre ++ m :: l)%list = ((pre ++ [m]) ++ l)%list) by by rewrite <- app_assoc.
  assert (Hlen : S (length pre) = length (pre ++ [m])%list) by (rewrite length_app; simpl; lia).
  destruct (not_big m).
  - simpl. rewrite list_lookup_middle by done. f_equal.
    rewrite Hcons, Hlen. apply IH.
  - rewrite Hcons, Hlen. apply IH.
Qed.

Lemma find_type_filtered (pre l : list model) (t : string) :
  find_type (pre ++ l)%list (filtered_refs (length pre) l) t
  = List.find (fun c => String.eqb (type c) t) (List.filter not_big l).
Proof.
  revert pre. induction l as [|m l IH]; intros pre; [reflexivity|]. simpl.
  assert (Hcons : (pre ++ m :: l)%list = ((pre ++ [m]) ++ l)%list) by by rewrite <- app_assoc.
  assert (Hlen : S (length pre) = length (pre ++ [m])%list) by (rewrite length_app; simpl; lia).
  destruct (not_big m).
  - simpl. rewrite list_lookup_middle by done.
    destruct (String.eqb (type m) t); [reflexivity|].
    rewrite Hcons, Hlen. apply IH.
  - rewrite Hcons, Hlen. apply IH.
Qed.

Lemma replace_in_filtered (store : list model) (m : model) :
  replace_in recompiled_dir folder store (filtered_refs 0 store) m
  = replace_model recompiled_dir folder (List.filter not_big store) m.
Proof.
  unfold replace_in, replace_model.
  by rewrite (find_type_filtered [] store).
Qed.

Lemma find_ref_Some (store : list model) (refs : list nat) (t : string) (j : nat) :
  find_ref store refs t = Some j ->
  exists m, store !! j = Some m /\ type m = t.
Proof.
  induction refs as [|k refs IH]; [done|]. simpl.
  destruct (store !! k) as [m|] eqn:E; [|exact IH].
  destruct (String.eqb_spec (type m) t) as [Ht|_]; [|exact IH].
  intros [= <-]. by exists m.
Qed.

Lemma find_type_insert (store : list model) (refs : list nat) (k : nat)
    (m m' : model) (t : string) :
  store !! k = Some m -> type m' = type m ->
  find_type (<[k := m']> store) refs t
  = match find_ref store refs t with
    | Some j => if decide (j = k) then Some m' else store !! j
    | None => None
    end.
Proof.
  intros Hk Ht. rewrite find_type_ref.
  rewrite (find_ref_types _ store).
  - destruct (find_ref store refs t) as [j|]; [|reflexivity]. simpl.
    destruct (decide (j = k)) as [->|Hne].
    + apply list_lookup_insert_eq. by eapply lookup_lt_Some.
    + by apply list_lookup_insert_ne.
  - rewrite <- (list_insert_id store k m) at 2 by done.
    apply Forall2_insert; [|done]. by apply Forall_Forall2_diag, Forall_forall.
Qed.

(** Slots that are the candidates themselves: each object is written
    once, from a candidate whose file names and checksums are still
    those of the start. *)
Lemma update_slots_shared (refs : list nat) (store0 : list model) (rest : list nat) :
  forall store : list model,
  NoDup rest ->
  Forall2 (fun m m0 => type m = type m0) store store0 ->
  (forall t, option_Forall2 src_eq (find_type store refs t) (find_type store0 refs t)) ->
  (forall k, k ∈ rest -> store !! k = store0 !! k) ->
  exists store',
    update_slots recompiled_dir folder refs store (List.map Shared rest)
    = (store', List.map Shared rest)
    /\ (forall k, k ∈ rest -> store' !! k = replace_in recompiled_dir folder store0 refs <$> store0 !! k)
    /\ (forall k, k ∉ rest -> store' !! k = store !! k).
Proof.
  induction rest as [|k rest IH]; intros store Hnd Hty Hfind Hsame.
  - exists store. split; [reflexivity|]. split; [by intros k ?%elem_of_nil|done].
  - apply NoDup_cons in Hnd as [Hk Hnd].
    cbn [List.map update_slots]. unfold update_slot. cbn [deref].
    assert (Hstay :
      (forall m, store0 !! k = Some m -> replace_in recompiled_dir folder store0 refs m = m) ->
      exists store',
        (let '(store2, rest') :=
           update_slots recompiled_dir folder refs store (List.map Shared rest) in
         (store2, Shared k :: rest')) = (store', Shared k :: List.map Shared rest)
        /\ (forall k0, k0 ∈ k :: rest -> store' !! k0 = replace_in recompiled_dir folder store0 refs <$> store0 !! k0)
        /\ (forall k0, k0 ∉ k :: rest -> store' !! k0 = store !! k0)).
    { intros Hrep.
      destruct (IH store Hnd Hty Hfind) as (store' & -> & Hin & Hout).
      { intros k0 Hk0. apply Hsame. by right. }
      exists store'. split; [reflexivity|]. split.
      - intros k0 [->|Hk0]%elem_of_cons; [|by apply Hin].
        rewrite (Hout _ Hk), (Hsame k) by by left.
        destruct (store0 !! k) as [m|] eqn:E; [|reflexivity]. simpl.
        by rewrite Hrep.
      - intros k0 Hk0. apply Hout. intros ?. apply Hk0. by right. }
    destruct (store !! k) as [m|] eqn:Em.
    2:{ apply Hstay. intros m Hm. rewrite <- (Hsame k) in Hm; [congruence|by left]. }
    assert (Hm0 : store0 !! k = Some m).
    { rewrite <- Em. symmetry. apply Hsame. by left. }
    pose proof (Hfind (type m)) as Hc.
    destruct (find_type store refs (type m)) as [c|] eqn:Ec.
    2:{ apply Hstay. intros m' Hm'. assert (m' = m) as -> by congruence.
        unfold replace_in. by inversion Hc. }
    inversion Hc as [c' c0 Hcc0 Heq1 Hc0|]; subst c'.
    destruct (IH (<[k := assign recompiled_dir folder m c]> store) Hnd)
      as (store' & -> & Hin & Hout).
    + rewrite <- (list_insert_id store0 k m) by done.
      by apply Forall2_insert.
    + intros t. rewrite (find_type_insert _ _ _ m) by done.
      pose proof (Hfind t) as Ht. rewrite find_type_ref in Ht.
      destruct (find_ref store refs t) as [j|] eqn:Ej; [|exact Ht].
      destruct (decide (j = k)) as [->|Hne]; [|exact Ht].
      destruct (find_ref_Some _ _ _ _ Ej) as (m' & Hm' & <-).
      assert (m' = m) as -> by congruence.
      assert (c = m) as ->.
      { rewrite find_type_ref, Ej in Ec. simpl in Ec. congruence. }
      simpl in Ht. rewrite Em in Ht.
      inversion Ht as [? c1 Hmc1 Heq2 Hc1|]; subst.
      constructor. eapply src_eq_trans; [apply assign_self|exact Hmc1].
    + intros k0 Hk0. rewrite list_lookup_insert_ne; [apply Hsame; by right|].
      intros ->. done.
    + exists store'. split; [reflexivity|]. split.
      * intros k0 [->|Hk0]%elem_of_cons; [|by apply Hin].
        rewrite (Hout _ Hk), list_lookup_insert_eq by by eapply lookup_lt_Some.
        rewrite Hm0. simpl. unfold replace_in. rewrite <- Hc0.
        f_equal. by apply assign_src_eq.
      * intros k0 Hk0. rewrite Hout by (intros ?; apply Hk0; by right).
        apply list_lookup_insert_ne. intros ->. apply Hk0. by left.
Qed.

Lemma resolve_own (store : list model) (ms : list model) :
  resolve store (List.map Own ms) = ms.
Proof.
  unfold resolve. induction ms as [|m ms IH]; [reflexivity|].
  cbn [List.map]. csimpl. by rewrite IH.
Qed.

Lemma update_bundle_models_own (meta_models ms : list model) :
  update_bundle_models (Some (List.map Own ms)) meta_models folder recompiled_dir
  = (meta_models,
     Some (List.map Own
             (List.map (replace_model recompiled_dir folder (List.filter not_big meta_models)) ms))).
Proof.
  unfold update_bundle_models. rewrite update_slots_own.
  do 3 f_equal. apply map_ext. intros m. apply replace_in_filtered.
Qed.

Lemma update_bundle_models_shared (meta_models : list model) :
  exists store',
    update_bundle_models (Some (List.map Shared (filtered_refs 0 meta_models)))
      meta_models folder recompiled_dir
    = (store', Some (List.map Shared (filtered_refs 0 meta_models)))
    /\ resolve store' (List.map Shared (filtered_refs 0 meta_models))
       = List.map (replace_model recompiled_dir folder (List.filter not_big meta_models))
           (List.filter not_big meta_models).
Proof.
  destruct (update_slots_shared (filtered_refs 0 meta_models) meta_models
              (filtered_refs 0 meta_models) meta_models)
    as (store' & Hup & Hin & _).
  - apply filtered_refs_NoDup.
  - by apply Forall_Forall2_diag, Forall_forall.
  - intros t. destruct (find_type _ _ t); constructor. apply src_eq_refl.
  - done.
  - exists store'. unfold update_bundle_models. rewrite Hup. split; [reflexivity|].
    unfold resolve.
    rewrite <- (filtered_refs_lookup [] meta_models) at 2.
    assert (Hin' : forall k, k ∈ filtered_refs 0 meta_models ->
              store' !! k
              = replace_model recompiled_dir folder (List.filter not_big meta_models)
                  <$> meta_models !! k).
    { intros k Hk. rewrite (Hin k Hk).
      destruct (meta_models !! k); [|reflexivity]. simpl.
      by rewrite replace_in_filtered. }
    clear Hin Hup. revert Hin'. cbn [app length].
    generalize (filtered_refs 0 meta_models) as refs.
    induction refs as [|k refs IH]; intros Hin; [reflexivity|].
    cbn [List.map]. csimpl. rewrite (Hin k) by (by left).
    destruct (meta_models !! k) as [m|]; csimpl;
      rewrite IH by (intros k0 Hk0; apply Hin; by right); reflexivity.
Qed.

End update_models.

(** ** One descriptor *)

Lemma rbind_Ok {A B : Type} (r : result A) (k : A -> result B) (b : B) :
  rbind r k = Ok b -> exists x, r = Ok x /\ k x = Ok b.
Proof. destruct r as [x|e]; [|done]. intros H. by exists x. Qed.

Lemma getitem_Ok {A : Type} (key : string) (o : option A) (x : A) :
  getitem key o = Ok x -> o = Some x.
Proof. destruct o; [|done]. by intros [= ->]. Qed.

Lemma json_load_Ok {A : Type} (f : file A) (x : A) :
  json_load f = Ok x -> f = Json x.
Proof. destruct f; try done. by intros [= ->]. Qed.

Lemma update_bundle_apply (a : args) (meta : descriptor) (folder : string)
    (is_new : bool) (b : bundle) (mm : list model) :
  meta_models meta = Some mm ->
  complete b ->
  (is_new = true -> models b = Some (List.filter not_big mm)) ->
  update_bundle a meta folder is_new b
  = Ok (apply_effect (descriptor_effect a folder meta) b).
Proof.
  intros Hmm [[dn Hdn] [hz Hhz]] Hnew.
  unfold update_bundle. rewrite Hmm. cbn [getitem rbind].
  assert (Hmodels :
    forall st_sl, st_sl = update_bundle_models
      (if is_new then Some (List.map Shared (filtered_refs 0 mm))
       else List.map Own <$> models b) mm folder (recompiled_dir_name a) ->
    resolve (fst st_sl) <$> snd st_sl
    = List.map (replace_model (recompiled_dir_name a) folder (List.filter not_big mm))
        <$> models b).
  { intros st_sl ->. destruct is_new.
    - rewrite (Hnew eq_refl).
      destruct (update_bundle_models_shared (recompiled_dir_name a) folder mm)
        as (store' & -> & Hres).
      simpl. by rewrite Hres.
    - destruct (models b) as [ms|]; [|reflexivity].
      change (List.map Own <$> Some ms) with (Some (List.map Own ms)).
      rewrite update_bundle_models_own. simpl. by rewrite resolve_own. }
  specialize (Hmodels _ eq_refl).
  destruct (update_bundle_models _ mm folder (recompiled_dir_name a)) as [store slots'].
  cbn [fst snd] in Hmodels. rewrite Hdn, Hhz. cbn [getitem rbind].
  unfold apply_effect, descriptor_effect. cbn [e_upper e_display_name e_is_20hz e_build_time e_replace].
  rewrite Hmodels, Hmm, Hdn, Hhz. f_equal. f_equal.
  - by destruct (meta_display_name meta).
  - by destruct (meta_is_20hz meta).
Qed.

Lemma update_bundle_inv (a : args) (meta : descriptor) (folder : string)
    (is_new : bool) (b b' : bundle) :
  update_bundle a meta folder is_new b = Ok b' ->
  is_Some (meta_models meta) /\ complete b.
Proof.
  unfold update_bundle. intros (mm & Hmm%getitem_Ok & H)%rbind_Ok.
  destruct (update_bundle_models _ mm folder (recompiled_dir_name a)) as [store slots'].
  apply rbind_Ok in H as (dn & Hdn%getitem_Ok & H).
  apply rbind_Ok in H as (hz & Hhz%getitem_Ok & H).
  unfold complete. eauto.
Qed.

(** ** The dictionary of refs *)

Lemma ref_map_from_snoc (bs : list bundle) (b : bundle) (i : nat) (m : gmap string nat) :
  ref_map_from i (bs ++ [b])%list m = <[ref b := (i + length bs)%nat]> (ref_map_from i bs m).
Proof.
  revert i m. induction bs as [|b0 bs IH]; intros i m; simpl.
  - by rewrite Nat.add_0_r.
  - rewrite IH. f_equal. lia.
Qed.

Lemma ref_map_from_refs (bs bs' : list bundle) (i : nat) (m : gmap string nat) :
  Forall2 (fun b b' => ref b = ref b') bs bs' ->
  ref_map_from i bs m = ref_map_from i bs' m.
Proof.
  intros H. revert i m. induction H as [|b b' bs bs' Hb _ IH]; intros i m; simpl; [done|].
  by rewrite Hb, IH.
Qed.

Lemma ref_map_from_insert (bs : list bundle) (k : nat) (b b' : bundle) :
  bs !! k = Some b -> ref b' = ref b ->
  ref_map_from 0 (<[k := b']> bs) ∅ = ref_map_from 0 bs ∅.
Proof.
  intros Hk Hr. apply ref_map_from_refs.
  rewrite <- (list_insert_id bs k b) at 2 by done.
  apply Forall2_insert; [|done]. by apply Forall_Forall2_diag, Forall_forall.
Qed.

Lemma ref_map_from_lookup (bs : list bundle) (i : nat) (m : gmap string nat) (r : string) :
  ref_map_from i bs m !! r
  = match last_index r bs with
    | Some j => Some (i + j)%nat
    | None => m !! r
    end.
Proof.
  revert i m. induction bs as [|b bs IH]; intros i m; simpl; [done|].
  rewrite IH. destruct (last_index r bs) as [j|].
  - f_equal. lia.
  - destruct (decide (ref b = r)) as [->|Hne].
    + by rewrite lookup_insert_eq, Nat.add_0_r.
    + by rewrite lookup_insert_ne.
Qed.

Lemma last_index_Some (r : string) (bs : list bundle) (j : nat) :
  last_index r bs = Some j ->
  exists b, bs !! j = Some b /\ ref b = r
    /\ forall j' b', (j < j')%nat -> bs !! j' = Some b' -> ref b' <> r.
Proof.
  revert j. induction bs as [|b bs IH]; intros j; simpl; [done|].
  destruct (last_index r bs) as [j0|] eqn:E.
  - intros [= <-]. destruct (IH j0 eq_refl) as (b0 & Hb0 & Hr & Hlast).
    exists b0. repeat split; [done..|].
    intros [|j'] b' Hlt; [lia|]. simpl. apply Hlast. lia.
  - destruct (decide (ref b = r)) as [Hr|_]; [|done]. intros [= <-].
    exists b. repeat split; [done|].
    intros [|j'] b' Hlt Hb'; [lia|]. simpl in Hb'. intros Hr'.
    clear IH Hlt. revert j' Hb' E. induction bs as [|b1 bs IH]; intros j' Hb' E; [done|].
    simpl in E. destruct (last_index r bs) eqn:E1; [done|].
    destruct (decide (ref b1 = r)); [done|].
    destruct j' as [|j']; simpl in Hb'; [congruence|]. by eapply IH.
Qed.

Lemma last_index_None (r : string) (bs : list bundle) :
  last_index r bs = None -> forall j b, bs !! j = Some b -> ref b <> r.
Proof.
  induction bs as [|b0 bs IH]; simpl; [done|].
  destruct (last_index r bs) as [j0|]; [done|].
  destruct (decide (ref b0 = r)) as [|Hne]; [done|]. intros _ [|j] b; simpl.
  - by intros [= <-].
  - by apply IH.
Qed.

Lemma inv_lookup (st : state) (r : string) (i : nat) :
  inv st -> ref_to_bundle st !! r = Some i ->
  exists b, st_bundles st !! i = Some b /\ ref b = r
    /\ forall j' b', (i < j')%nat -> st_bundles st !! j' = Some b' -> ref b' <> r.
Proof.
  intros Hinv. rewrite Hinv, ref_map_from_lookup, lookup_empty.
  destruct (last_index r (st_bundles st)) as [j|] eqn:E; [|done].
  intros [= <-]. by apply last_index_Some.
Qed.

Lemma inv_lookup_None (st : state) (r : string) :
  inv st -> ref_to_bundle st !! r = None ->
  forall j b, st_bundles st !! j = Some b -> ref b <> r.
Proof.
  intros Hinv. rewrite Hinv, ref_map_from_lookup, lookup_empty.
  destruct (last_index r (st_bundles st)) as [j|] eqn:E; [done|].
  intros _. by apply last_index_None.
Qed.

Lemma apply_effect_ref (e : effect) (b : bundle) : ref (apply_effect e b) = ref b.
Proof. reflexivity. Qed.

Lemma apply_effect_complete (e : effect) (b : bundle) :
  complete b -> complete (apply_effect e b).
Proof.
  intros [[dn Hdn] [hz Hhz]]. unfold complete, apply_effect. simpl.
  rewrite Hdn, Hhz. split; [destruct (e_display_name e)|destruct (e_is_20hz e)]; eauto.
Qed.

Lemma new_bundle_complete a meta r sn fkey idx g v ms :
  complete (new_bundle a meta r sn fkey idx g v ms).
Proof. split; simpl; eauto. Qed.

(** A step that succeeds: the descriptor is well formed, its bundle is the
    bundle the dictionary holds for its ref or a bundle made of it, and
    the bundle takes the effect of the descriptor. *)
Lemma step_inv (a : args) (st st' : state) (f : found) :
  step a st f = Ok st' -> inv st ->
  exists meta r mm base i b,
    meta_file f = Json meta /\ meta_ref meta = Some r /\ meta_models meta = Some mm
    /\ ((ref_to_bundle st !! r = Some i /\ base = st_bundles st)
        \/ (ref_to_bundle st !! r = None /\ i = length (st_bundles st)
            /\ base = (st_bundles st ++ [b])%list /\ created a st f meta r b))
    /\ base !! i = Some b /\ ref b = r /\ complete b
    /\ st_bundles st' = <[i := apply_effect (descriptor_effect a (meta_folder f) meta) b]> base
    /\ ref_to_bundle st' = <[r := i]> (ref_to_bundle st)
    /\ inv st'.
Proof.
  unfold step. intros H Hinv.
  apply rbind_Ok in H as (meta & Hmeta%json_load_Ok & H).
  apply rbind_Ok in H as (r & Hr%getitem_Ok & H).
  apply rbind_Ok in H as ([st1 is_new] & Hadd & H). cbn [fst snd] in H.
  apply rbind_Ok in H as (i & Hi%getitem_Ok & H).
  apply rbind_Ok in H as (b & Hb%getitem_Ok & H).
  apply rbind_Ok in H as (b' & Hb' & [= <-]).
  destruct (update_bundle_inv _ _ _ _ _ _ Hb') as [[mm Hmm] Hcomplete].
  exists meta, r, mm, (st_bundles st1), i, b.
  unfold add_if_new in Hadd. fold (descriptor_short_name f meta) in Hadd.
  destruct (ref_to_bundle st !! r) as [i0|] eqn:Elook.
  - injection Hadd as <- <-. assert (i0 = i) as -> by congruence.
    destruct (inv_lookup _ _ _ Hinv Elook) as (b0 & Hb0 & Hrb & _).
    assert (b0 = b) as -> by congruence.
    rewrite (update_bundle_apply _ _ _ _ _ mm) in Hb' by done.
    injection Hb' as <-. cbn [st_bundles ref_to_bundle].
    split_and!; try done.
    + left. by split.
    + by rewrite insert_id.
    + unfold inv. cbn [st_bundles ref_to_bundle].
      by rewrite (ref_map_from_insert _ _ b).
  - apply rbind_Ok in Hadd as (fkey & Hfkey & Hadd).
    apply rbind_Ok in Hadd as (fallback & Hfb & Hadd).
    apply rbind_Ok in Hadd as (mm' & Hmm'%getitem_Ok & Hadd).
    assert (mm' = mm) as -> by congruence.
    injection Hadd as <- <-. cbn [st_bundles ref_to_bundle] in *.
    rewrite lookup_insert_eq in Hi. injection Hi as <-.
    rewrite lookup_app_r, Nat.sub_diag in Hb by done. injection Hb as <-.
    rewrite (update_bundle_apply _ _ _ _ _ mm) in Hb'
      by (done || apply new_bundle_complete).
    injection Hb' as <-.
    split_and!; try done.
    + right. split_and!; try done. by exists fkey, fallback, mm.
    + by rewrite lookup_app_r, Nat.sub_diag.
    + unfold inv. cbn [st_bundles ref_to_bundle].
      erewrite ref_map_from_insert;
        [|by rewrite lookup_app_r, Nat.sub_diag|reflexivity].
      by rewrite ref_map_from_snoc, Hinv.
Qed.

(** A well-formed descriptor whose bundle is there and complete: the step
    succeeds and writes the effect. *)
Lemma step_existing (a : args) (st : state) (f : found) (meta : descriptor)
    (r : string) (mm : list model) (i : nat) (b : bundle) :
  meta_file f = Json meta -> meta_ref meta = Some r -> meta_models meta = Some mm ->
  ref_to_bundle st !! r = Some i -> st_bundles st !! i = Some b -> complete b ->
  step a st f
  = Ok {| st_bundles :=
            <[i := apply_effect (descriptor_effect a (meta_folder f) meta) b]> (st_bundles st);
          ref_to_bundle := ref_to_bundle st |}.
Proof.
  intros Hf Hr Hmm Hi Hb Hc. unfold step, add_if_new.
  rewrite Hf. cbn [json_load rbind]. rewrite Hr. cbn [getitem rbind]. rewrite Hi.
  cbn [getitem rbind fst snd]. rewrite Hi. cbn [getitem rbind]. rewrite Hb.
  cbn [getitem rbind]. by rewrite (update_bundle_apply _ _ _ _ _ mm).
Qed.

(** ** Effects *)

Lemma or_else_assoc {A : Type} (x y z : option A) :
  or_else (or_else x y) z = or_else x (or_else y z).
Proof. by destruct x. Qed.

Lemma or_else_idem {A : Type} (x y : option A) :
  or_else x (or_else x y) = or_else x y.
Proof. by destruct x. Qed.

Lemma apply_unit_effect (b : bundle) : apply_effect unit_effect b = b.
Proof.
  destruct b as [sn dn hz r env rn idx msv g bt ov ms].
  unfold apply_effect. simpl. f_equal.
  destruct ms as [ms|]; [|reflexivity]. simpl. by rewrite map_id.
Qed.

Lemma apply_compose_effect (e2 e1 : effect) (b : bundle) :
  apply_effect (compose_effect e2 e1) b = apply_effect e2 (apply_effect e1 b).
Proof.
  unfold apply_effect, compose_effect. simpl. f_equal.
  - destruct (e_upper e2), (e_upper e1); simpl; try reflexivity.
    by rewrite upper_idem.
  - apply or_else_assoc.
  - apply or_else_assoc.
  - apply or_else_assoc.
  - destruct (models b) as [ms|]; [|reflexivity]. simpl. by rewrite map_map.
Qed.

Lemma good_replace_id : good_replace (fun m => m).
Proof. split_and!; auto. Qed.

Lemma good_replace_compose (r2 r1 : model -> model) :
  good_replace r2 -> good_replace r1 -> good_replace (fun m => r2 (r1 m)).
Proof.
  intros (Ht2 & Hc2 & Hb2) (Ht1 & Hc1 & Hb1). split_and!.
  - intros m. by rewrite Ht2, Ht1.
  - intros t. destruct (Hc2 t) as [Hid2|[K2 HK2]].
    + destruct (Hc1 t) as [Hid1|[K1 HK1]].
      * left. intros m Hm. by rewrite (Hid1 m Hm), (Hid2 m Hm).
      * right. exists K1. intros m Hm. rewrite Hid2; [by apply HK1|].
        by rewrite Ht1.
    + right. exists K2. intros m Hm. apply HK2. by rewrite Ht1.
  - intros m Hm. by apply Hb2, Hb1.
Qed.

Lemma good_replace_idem (r : model -> model) (m : model) :
  good_replace r -> r (r m) = r m.
Proof.
  intros (Ht & Hc & _). destruct (Hc (type m)) as [Hid|[K HK]].
  - by rewrite !Hid.
  - rewrite (HK m eq_refl). rewrite <- (HK m eq_refl) at 1.
    rewrite (HK (r m)); [done|apply Ht].
Qed.

Lemma good_replace_model (rd folder : string) (ms : list model) :
  good_replace (replace_model rd folder (List.filter not_big ms)).
Proof.
  unfold replace_model. split_and!.
  - intros m. by destruct (List.find _ _).
  - intros t.
    destruct (List.find (fun c => String.eqb (type c) t) (List.filter not_big ms))
      as [c|] eqn:E.
    + right.
      exists (assign rd folder {| type := t; artifact := artifact c; metadata := metadata c |} c).
      intros m <-. by rewrite E.
    + left. intros m <-. by rewrite E.
  - intros m Hm. destruct (List.find _ _) as [c|] eqn:E; [|done].
    apply find_some in E as [Hc _]. apply filter_In in Hc as [_ Hc].
    by rewrite assign_not_big.
Qed.

Lemma good_found_effect (a : args) (f : found) : good_effect (found_effect a f).
Proof.
  unfold good_effect, found_effect.
  destruct (meta_file f); try apply good_replace_id.
  apply good_replace_model.
Qed.

Lemma good_effect_at (a : args) (mp : gmap string nat) (D : list found) (i : nat) :
  good_effect (effect_at a mp D i).
Proof.
  induction D as [|f D IH]; [apply good_replace_id|].
  unfold good_effect. simpl. apply good_replace_compose; [exact IH|].
  destruct (decide _); [apply good_found_effect|apply good_replace_id].
Qed.

Lemma apply_effect_idem (e : effect) (b : bundle) :
  good_effect e -> apply_effect e (apply_effect e b) = apply_effect e b.
Proof.
  intros He. unfold apply_effect. simpl. f_equal.
  - destruct (e_upper e); [apply upper_idem|reflexivity].
  - apply or_else_idem.
  - apply or_else_idem.
  - apply or_else_idem.
  - destruct (models b) as [ms|]; [|reflexivity]. simpl. f_equal.
    rewrite map_map. apply map_ext. intros m. by apply good_replace_idem.
Qed.

(** ** The loop *)

Lemma effect_at_cons_lookup (a : args) (mp : gmap string nat) (f : found)
    (D : list found) (bs : list bundle) (i : nat) (b : bundle) :
  targets mp f i -> bs !! i = Some b ->
  forall j,
    apply_effect (effect_at a mp (f :: D) j) <$> bs !! j
    = apply_effect (effect_at a mp D j)
        <$> (<[i := apply_effect (found_effect a f) b]> bs) !! j.
Proof.
  intros Hi Hb j. cbn [effect_at].
  destruct (decide (j = i)) as [->|Hne].
  - rewrite list_lookup_insert_eq by by eapply lookup_lt_Some.
    rewrite Hb. simpl. rewrite decide_True by done.
    by rewrite apply_compose_effect.
  - rewrite list_lookup_insert_ne by done.
    rewrite decide_False.
    + destruct (bs !! j) as [bj|]; [|reflexivity]. simpl.
      by rewrite apply_compose_effect, apply_unit_effect.
    + unfold targets in *. congruence.
Qed.

Lemma targets_found (mp : gmap string nat) (f : found) (meta : descriptor)
    (r : string) (i : nat) :
  meta_file f = Json meta -> meta_ref meta = Some r -> mp !! r = Some i ->
  targets mp f i /\ found_ref f = Some r.
Proof. intros Hf Hr Hi. unfold targets, found_ref. by rewrite Hf, Hr. Qed.

Lemma found_effect_json (a : args) (f : found) (meta : descriptor) :
  meta_file f = Json meta ->
  found_effect a f = descriptor_effect a (meta_folder f) meta.
Proof. intros Hf. unfold found_effect. by rewrite Hf. Qed.

(** When every descriptor finds its bundle, the loop makes no bundle and
    gives each bundle the effects of its descriptors. *)
Lemma loop_ready (a : args) (D : list found) (st : state) :
  Forall (ready st) D ->
  loop a D st
  = Ok {| st_bundles :=
            imap (fun i => apply_effect (effect_at a (ref_to_bundle st) D i)) (st_bundles st);
          ref_to_bundle := ref_to_bundle st |}.
Proof.
  revert st. induction D as [|f D IH]; intros st HD.
  - simpl. destruct st as [bs mp]. simpl. do 2 f_equal.
    apply list_eq. intros j. rewrite list_lookup_imap.
    destruct (bs !! j) as [b|]; [|reflexivity]. simpl. by rewrite apply_unit_effect.
  - apply Forall_cons in HD as [(meta & r & mm & i & b & Hf & Hr & Hmm & Hi & Hb & Hc) HD].
    cbn [loop]. rewrite (step_existing a st f meta r mm i b) by done.
    cbn [rbind]. rewrite IH.
    + cbn [st_bundles ref_to_bundle]. do 2 f_equal.
      apply list_eq. intros j. rewrite !list_lookup_imap.
      rewrite <- (found_effect_json a f meta Hf). symmetry.
      apply effect_at_cons_lookup; [|done].
      by eapply targets_found.
    + eapply Forall_impl; [exact HD|].
      intros f' (meta' & r' & mm' & i' & b' & ? & ? & ? & Hi' & Hb' & Hc').
      cbn [st_bundles ref_to_bundle].
      destruct (decide (i' = i)) as [->|Hne].
      * exists meta', r', mm', i, (apply_effect (descriptor_effect a (meta_folder f) meta) b).
        split_and!; try done.
        -- cbn [st_bundles]. apply list_lookup_insert_eq. by eapply lookup_lt_Some.
        -- by apply apply_effect_complete.
      * exists meta', r', mm', i', b'. split_and!; try done.
        cbn [st_bundles]. by rewrite list_lookup_insert_ne.
Qed.

Lemma created_fresh (a : args) (st : state) (f : found) (meta : descriptor)
    (r : string) (nb : bundle) :
  created a st f meta r nb ->
  ref nb = r
  /\ Str.upper_case (short_name nb) = true
  /\ exists ms, models nb = Some ms /\ Forall (fun m => not_big m = true) ms.
Proof.
  intros (fkey & fallback & mm & _ & _ & _ & ->). split_and!.
  - reflexivity.
  - apply upper_upper_case.
  - eexists. split; [reflexivity|].
    apply Forall_forall. intros m Hm%list_elem_of_In. by apply filter_In in Hm as [_ Hm].
Qed.

Lemma fmap_ref_insert (bs : list bundle) (i : nat) (b b' : bundle) :
  bs !! i = Some b -> ref b' = ref b -> ref <$> <[i := b']> bs = ref <$> bs.
Proof.
  intros Hb Hr. rewrite list_fmap_insert, Hr.
  apply list_insert_id. by rewrite list_lookup_fmap, Hb.
Qed.

(** A loop that succeeds: what it appends is fresh, every descriptor has
    its bundle at the end, and each bundle, old or appended, has taken the
    effects of its descriptors. *)
Lemma loop_inv (a : args) (D : list found) :
  forall st st' : state,
  loop a D st = Ok st' -> inv st ->
  inv st'
  /\ ref_to_bundle st ⊆ ref_to_bundle st'
  /\ Forall (ready st') D
  /\ exists news,
       fresh_news (st_bundles st) D news
       /\ forall j,
            st_bundles st' !! j
            = apply_effect (effect_at a (ref_to_bundle st') D j)
                <$> (st_bundles st ++ news)%list !! j.
Proof.
  induction D as [|f D IH]; intros st st' Hloop Hinv.
  - injection Hloop as <-. split_and!; try done.
    exists []. split.
    + split_and!; [constructor|by intros nb ?%elem_of_nil..|constructor].
    + intros j. rewrite app_nil_r.
      destruct (st_bundles st !! j) as [b|]; [|reflexivity]. simpl.
      by rewrite apply_unit_effect.
  - cbn [loop] in Hloop. apply rbind_Ok in Hloop as (st1 & Hstep & Hloop).
    destruct (step_inv _ _ _ _ Hstep Hinv)
      as (meta & r & mm & base & i & b & Hf & Hr & Hmm & Hcase & Hb & Hrb & Hc
          & Hbs1 & Hmp1 & Hinv1).
    destruct (IH _ _ Hloop Hinv1) as (Hinv' & Hsub & Hready & news' & Hfresh & Hclosed).
    assert (Hi1 : ref_to_bundle st1 !! r = Some i) by by rewrite Hmp1, lookup_insert_eq.
    assert (Hi' : ref_to_bundle st' !! r = Some i) by by eapply lookup_weaken.
    assert (Hlt : (i < length base)%nat) by by eapply lookup_lt_Some.
    assert (Hrefs1 : ref <$> st_bundles st1 = ref <$> base).
    { rewrite Hbs1. by apply (fmap_ref_insert _ _ b). }
    assert (Hclosed' : forall j,
      st_bundles st' !! j
      = apply_effect (effect_at a (ref_to_bundle st') (f :: D) j)
          <$> (base ++ news')%list !! j).
    { intros j. rewrite Hclosed, Hbs1.
      rewrite <- insert_app_l by done.
      rewrite <- (found_effect_json a f meta Hf). symmetry.
      apply effect_at_cons_lookup; [by eapply targets_found|].
      by rewrite lookup_app_l. }
    split_and!.
    + done.
    + etrans; [|exact Hsub]. rewrite Hmp1.
      destruct Hcase as [[Hi _]|[Hi _]].
      * by rewrite insert_id.
      * by apply insert_subseteq.
    + constructor; [|done].
      exists meta, r, mm, i,
        (apply_effect (effect_at a (ref_to_bundle st') D i)
           (apply_effect (descriptor_effect a (meta_folder f) meta) b)).
      split_and!; try done.
      * rewrite Hclosed, Hbs1, lookup_app_l by by rewrite length_insert.
        rewrite list_lookup_insert_eq by done. reflexivity.
      * by do 2 apply apply_effect_complete.
    + destruct Hfresh as (Hnd & Hout & HinD & Hall).
      assert (HinD' : forall nb, nb ∈ news' -> ref nb ∈ omap found_ref (f :: D)).
      { intros nb Hnb. specialize (HinD nb Hnb).
        apply list_elem_of_omap in HinD as (f' & Hf'D & Hf'r).
        apply list_elem_of_omap. exists f'. split; [by right|done]. }
      destruct Hcase as [[Hi ->]|(Hi & -> & -> & Hcr)].
      * exists news'. split; [|done]. split_and!; try done.
        intros nb Hnb. rewrite <- Hrefs1. by apply Hout.
      * exists (b :: news'). split.
        -- destruct (created_fresh _ _ _ _ _ _ Hcr) as (_ & Hup & Hms).
           rewrite fmap_app in Hrefs1. split_and!.
           ++ rewrite fmap_cons. constructor; [|done].
              intros (nb & Hnbr & Hnb)%list_elem_of_fmap.
              apply (Hout nb Hnb). rewrite Hrefs1, <- Hnbr.
              apply elem_of_app. right. apply list_elem_of_singleton. reflexivity.
           ++ intros nb [->|Hnb]%elem_of_cons.
              ** intros (b0 & Hb0r & (j & Hj)%list_elem_of_lookup)%list_elem_of_fmap.
                 apply (inv_lookup_None _ _ Hinv Hi j b0 Hj). congruence.
              ** intros Hin. apply (Hout nb Hnb). rewrite Hrefs1.
                 apply elem_of_app. by left.
           ++ intros nb [->|Hnb]%elem_of_cons; [|by apply HinD'].
              apply list_elem_of_omap. exists f. split; [by left|].
              rewrite Hrb. by eapply targets_found.
           ++ by constructor.
        -- intros j. rewrite Hclosed'. by rewrite <- app_assoc.
Qed.

(** ** Sorting *)

Lemma datetime_leb_refl (x : datetime) : datetime_leb x x = true.
Proof. unfold datetime_leb, datetime_ltb. destruct x as [y m d]. simpl. lia. Qed.

Lemma datetime_leb_total (x y : datetime) :
  datetime_leb x y = false -> datetime_leb y x = true.
Proof.
  unfold datetime_leb, datetime_ltb. destruct x as [y1 m1 d1], y as [y2 m2 d2]. simpl. lia.
Qed.

Lemma datetime_leb_trans (x y z : datetime) :
  datetime_leb x y = true -> datetime_leb y z = true -> datetime_leb x z = true.
Proof.
  unfold datetime_leb, datetime_ltb.
  destruct x as [y1 m1 d1], y as [y2 m2 d2], z as [y3 m3 d3]. simpl. lia.
Qed.

Lemma datetime_leb_antisym (x y : datetime) :
  datetime_leb x y = true -> datetime_leb y x = true -> x = y.
Proof.
  unfold datetime_leb, datetime_ltb. destruct x as [y1 m1 d1], y as [y2 m2 d2]. simpl.
  intros H1 H2. f_equal; lia.
Qed.

Section sorting.
Context {A : Type} (key : A -> datetime).

Lemma insert_by_perm (x : A) (l : list A) : insert_by key x l ≡ₚ x :: l.
Proof.
  induction l as [|y l IH]; simpl; [done|].
  destruct (datetime_leb (key x) (key y)); [done|].
  rewrite IH. apply Permutation_swap.
Qed.

Lemma sort_by_perm (l : list A) : sort_by key l ≡ₚ l.
Proof.
  unfold sort_by. induction l as [|x l IH]; simpl; [done|].
  by rewrite insert_by_perm, IH.
Qed.

Lemma insert_by_sorted (x : A) (l : list A) :
  StronglySorted (key_le key) l -> StronglySorted (key_le key) (insert_by key x l).
Proof.
  induction 1 as [|y l Hl IH Hy]; simpl.
  - repeat constructor.
  - destruct (datetime_leb (key x) (key y)) eqn:E.
    + constructor; [by constructor|]. constructor; [exact E|].
      eapply Forall_impl; [exact Hy|]. intros z Hz.
      by eapply datetime_leb_trans.
    + constructor; [exact IH|].
      rewrite insert_by_perm. constructor; [|exact Hy].
      by apply datetime_leb_total.
Qed.

Lemma sort_by_sorted (l : list A) : StronglySorted (key_le key) (sort_by key l).
Proof.
  unfold sort_by. induction l as [|x l IH]; simpl; [constructor|].
  by apply insert_by_sorted.
Qed.

(** Equal keys keep their order: the elements of one key are, in the
    sorted list, the sequence they were. *)
Lemma insert_by_stable (k : datetime) (x : A) (l : list A) :
  filter (fun y => key y = k) (insert_by key x l)
  = filter (fun y => key y = k) (x :: l).
Proof.
  induction l as [|y l IH]; simpl; [done|].
  destruct (datetime_leb (key x) (key y)) eqn:E; [done|].
  rewrite (filter_cons _ y (insert_by key x l)), IH.
  rewrite !filter_cons.
  destruct (decide (key y = k)) as [Hy|Hy]; [|done].
  destruct (decide (key x = k)) as [Hx|Hx]; [|done].
  rewrite Hx, Hy, datetime_leb_refl in E. discriminate.
Qed.

Lemma sort_by_stable (k : datetime) (l : list A) :
  filter (fun y => key y = k) (sort_by key l) = filter (fun y => key y = k) l.
Proof.
  unfold sort_by. induction l as [|x l IH]; simpl; [done|].
  rewrite insert_by_stable, !filter_cons, IH. done.
Qed.

Lemma sorted_lookup (l : list A) (i j : nat) (x y : A) :
  StronglySorted (key_le key) l -> (i <= j)%nat ->
  l !! i = Some x -> l !! j = Some y -> (key_le key) x y.
Proof.
  intros Hs. revert i j. induction Hs as [|z l Hl IH Hz]; intros i j Hij Hi Hj; [done|].
  destruct i as [|i], j as [|j]; simpl in *; try lia.
  - simplify_eq. apply datetime_leb_refl.
  - simplify_eq. rewrite Forall_forall in Hz. apply Hz.
    by eapply list_elem_of_lookup_2.
  - eapply (IH i j); [lia|done..].
Qed.

Lemma sorted_head_le (x z : A) (l : list A) :
  StronglySorted (key_le key) (x :: l) -> z ∈ x :: l -> key_le key x z.
Proof.
  intros Hs [->|Hz]%elem_of_cons; [apply datetime_leb_refl|].
  apply StronglySorted_inv in Hs as [_ Hx]. rewrite Forall_forall in Hx. by apply Hx.
Qed.

Lemma filter_head_elem (k : datetime) (y : A) (l l' : list A) :
  filter (fun z => key z = k) l = y :: l' -> y ∈ l /\ key y = k.
Proof.
  intros H.
  assert (Hy : y ∈ filter (fun z => key z = k) l) by (rewrite H; by left).
  apply list_elem_of_filter in Hy as [? ?]. by split.
Qed.

(** The sorted list is the only one: whatever stable sort is run, a list
    in ascending order of keys that keeps the sequence of every key is
    the list that [sort_by] gives. *)
Lemma stable_sort_unique (l1 l2 : list A) :
  StronglySorted (key_le key) l1 -> StronglySorted (key_le key) l2 ->
  (forall k, filter (fun y => key y = k) l1 = filter (fun y => key y = k) l2) ->
  l1 = l2.
Proof.
  revert l2. induction l1 as [|x l1 IH]; intros l2 Hs1 Hs2 H.
  - destruct l2 as [|y l2]; [done|]. specialize (H (key y)).
    rewrite filter_nil, filter_cons_True in H by done. discriminate.
  - destruct l2 as [|y l2].
    { specialize (H (key x)). rewrite filter_nil, filter_cons_True in H by done.
      discriminate. }
    assert (Hkey : key y = key x).
    { pose proof (H (key y)) as Hy. rewrite (filter_cons_True _ y l2) in Hy by done.
      apply filter_head_elem in Hy as [Hy1 Hy2].
      pose proof (H (key x)) as Hx. rewrite (filter_cons_True _ x l1) in Hx by done.
      symmetry in Hx. apply filter_head_elem in Hx as [Hx1 Hx2].
      apply datetime_leb_antisym.
      - by apply (sorted_head_le y x l2).
      - by apply (sorted_head_le x y l1). }
    pose proof (H (key x)) as Hx.
    rewrite (filter_cons_True _ x l1), (filter_cons_True _ y l2) in Hx by done.
    injection Hx as -> Hx. f_equal.
    apply StronglySorted_inv in Hs1 as [Hs1 _]. apply StronglySorted_inv in Hs2 as [Hs2 _].
    apply IH; [done..|]. intros k. destruct (decide (key y = k)) as [<-|Hne]; [done|].
    specialize (H k). by rewrite !filter_cons_False in H by done.
Qed.

Lemma sort_by_unique (l s : list A) :
  StronglySorted (key_le key) s ->
  (forall k, filter (fun y => key y = k) s = filter (fun y => key y = k) l) ->
  s = sort_by key l.
Proof.
  intros Hs H. apply stable_sort_unique; [done|apply sort_by_sorted|].
  intros k. by rewrite H, sort_by_stable.
Qed.

End sorting.

(** ** Dates *)

Lemma match_month_range (names : list string) (n : Z) (s r : string) (m : Z) :
  match_month names n s = Some (m, r) -> n <= m < n + Z.of_nat (length names).
Proof.
  revert n. induction names as [|name names IH]; intros n; simpl; [done|].
  destruct (strip_prefix_ci name s).
  - intros [= <- _]. lia.
  - intros H%IH. lia.
Qed.

Lemma digit_val_range (c : ascii) :
  Str.is_digit c = true -> 0 <= digit_val c <= 9.
Proof.
  unfold Str.is_digit, digit_val. intros [H1 H2]%andb_true_iff.
  apply N.leb_le in H1, H2. lia.
Qed.

Lemma digit_val_positive (c : ascii) :
  Str.is_digit c && negb (Ascii.eqb c "0") = true ->
  (1 <=? digit_val c) && (digit_val c <=? 9) = true.
Proof. each_ascii c. Qed.

Lemma two_digit_day_range (a b : ascii) :
  two_digit_day a b = true -> 1 <= 10 * digit_val a + digit_val b <= 31.
Proof.
  unfold two_digit_day. intros H.
  apply orb_true_iff in H as [H|H]; [apply orb_true_iff in H as [H|H]|].
  - apply andb_true_iff in H as [->%Ascii.eqb_eq H].
    apply orb_true_iff in H as [->%Ascii.eqb_eq| ->%Ascii.eqb_eq]; by vm_compute.
  - apply andb_true_iff in H as [H Hb%digit_val_range].
    apply orb_true_iff in H as [->%Ascii.eqb_eq| ->%Ascii.eqb_eq].
    + change (digit_val "1") with 1. lia.
    + change (digit_val "2") with 2. lia.
  - rewrite <- andb_assoc in H. apply andb_true_iff in H as [->%Ascii.eqb_eq H].
    apply digit_val_positive in H. change (digit_val "0") with 0. lia.
Qed.

Lemma match_day_comma_range (s r : string) (d : Z) :
  match_day_comma s = Some (d, r) -> 1 <= d <= 31.
Proof.
  unfold match_day_comma. destruct s as [|a [|b s]]; try done.
  destruct (two_digit_day a b) eqn:E2.
  - destruct s as [|c s]; [done|]. destruct (Ascii.eqb c ","); [|done].
    intros [= <- _]. by apply two_digit_day_range.
  - destruct (one_digit_day a && Ascii.eqb b ",") eqn:E1; [|done].
    intros [= <- _]. apply andb_true_iff in E1 as [E1 _].
    apply digit_val_positive in E1. lia.
Qed.

Lemma strptime_range (s : string) (d : datetime) :
  strptime s = Some d ->
  1 <= year d /\ 1 <= month d <= 12 /\ 1 <= day d <= days_in_month (year d) (month d).
Proof.
  unfold strptime.
  destruct (match_month month_names 1 s) as [[m r1]|] eqn:Em; [|done].
  destruct (skip_spaces r1) as [r2|]; [|done].
  destruct (match_day_comma r2) as [[dd r3]|] eqn:Ed; [|done].
  destruct (skip_spaces r3) as [r4|]; [|done].
  destruct (match_year_end r4) as [y|]; [|done].
  destruct ((1 <=? y) && (dd <=? days_in_month y m)) eqn:E; [|done].
  intros [= <-]. simpl.
  apply match_month_range in Em. apply match_day_comma_range in Ed.
  simpl in Em. lia.
Qed.

Lemma range_cases (P : Z -> Prop) (len : nat) :
  forall lo, foldr (fun k acc => P k /\ acc) True (range lo len) ->
  forall n, lo <= n < lo + Z.of_nat len -> P n.
Proof.
  induction len as [|len IH]; intros lo H n Hn; [lia|].
  destruct H as [Hlo H]. destruct (decide (n = lo)) as [->|Hne]; [done|].
  apply (IH (lo + 1) H). lia.
Qed.

Lemma match_month_name (m : Z) (rest : string) :
  1 <= m <= 12 ->
  match_month month_names 1 (month_name m ++ rest) = Some (m, rest).
Proof.
  intros Hm. revert rest.
  apply (range_cases (fun m => forall rest,
           match_month month_names 1 (month_name m ++ rest) = Some (m, rest)) 12 1);
    [|lia].
  cbn [range foldr Z.add Pos.add Pos.succ].
  repeat match goal with |- _ /\ _ => split end; try exact I; intros rest; reflexivity.
Qed.

Lemma digit_char_spec (n : Z) :
  0 <= n <= 9 ->
  Str.is_digit (digit_char n) = true /\ digit_val (digit_char n) = n
  /\ Str.is_space (digit_char n) = false.
Proof.
  intros Hn.
  apply (range_cases (fun n => Str.is_digit (digit_char n) = true
           /\ digit_val (digit_char n) = n
           /\ Str.is_space (digit_char n) = false) 10 0); [|lia].
  by vm_compute.
Qed.

Lemma skip_spaces_one (c : ascii) (r : string) :
  Str.is_space c = false ->
  skip_spaces (String " " (String c r)) = Some (String c r).
Proof. intros H. unfold skip_spaces. simpl. by rewrite H. Qed.

Lemma match_day_comma_render (pad : bool) (d : Z) (rest : string) :
  1 <= d <= 31 ->
  match_day_comma (render_day pad d ++ "," ++ rest) = Some (d, rest)
  /\ exists c r, render_day pad d ++ "," ++ rest = String c r /\ Str.is_space c = false.
Proof.
  intros Hd. revert pad rest.
  apply (range_cases (fun d => forall pad rest,
           match_day_comma (render_day pad d ++ "," ++ rest) = Some (d, rest)
           /\ exists c r, render_day pad d ++ "," ++ rest = String c r
                /\ Str.is_space c = false) 31 1); [|lia].
  cbn [range foldr Z.add Pos.add Pos.succ Pos.add_carry].
  repeat match goal with |- _ /\ _ => split end; try exact I;
    intros [] rest; (split; [reflexivity|by eexists _, _]).
Qed.

Lemma match_year_end_render (y : Z) :
  0 <= y <= 9999 ->
  match_year_end (render_year y) = Some y
  /\ exists c r, render_year y = String c r /\ Str.is_space c = false.
Proof.
  intros Hy. unfold render_year, match_year_end.
  destruct (digit_char_spec (y / 1000)) as (-> & -> & Hs);
    [Z.div_mod_to_equations; lia|].
  destruct (digit_char_spec (y / 100 mod 10)) as (-> & -> & _);
    [Z.div_mod_to_equations; lia|].
  destruct (digit_char_spec (y / 10 mod 10)) as (-> & -> & _);
    [Z.div_mod_to_equations; lia|].
  destruct (digit_char_spec (y mod 10)) as (-> & -> & _);
    [Z.div_mod_to_equations; lia|].
  split; [simpl; f_equal; Z.div_mod_to_equations; lia|]. by eexists _, _.
Qed.

(** [strptime] reads what is written as "Month Day, Year". *)
Lemma strptime_render (pad : bool) (d : datetime) :
  valid_date d -> strptime (render_date pad d) = Some d.
Proof.
  intros (Hy & Hm & Hd). destruct d as [y m dd]. simpl in *.
  assert (Hdd : 1 <= dd <= 31).
  { unfold days_in_month in Hd. repeat case_match; lia. }
  unfold strptime, render_date. cbn [year month day].
  rewrite match_month_name by done.
  destruct (match_day_comma_render pad dd (" " ++ render_year y) Hdd)
    as (Hday & c & r & Hc & Hsp).
  change (" " ++ render_day pad dd ++ ", " ++ render_year y)
    with (String " " (render_day pad dd ++ "," ++ " " ++ render_year y)).
  rewrite Hc, (skip_spaces_one c r Hsp), <- Hc, Hday.
  destruct (match_year_end_render y) as (Hyear & c' & r' & Hc' & Hsp'); [lia|].
  change (" " ++ render_year y) with (String " " (render_year y)).
  rewrite Hc', (skip_spaces_one c' r' Hsp'), <- Hc', Hyear.
  assert ((1 <=? y) && (dd <=? days_in_month y m) = true) as -> by lia.
  reflexivity.
Qed.

(** No date is before [datetime.min]. *)
Lemma parse_date_min (s : string) : datetime_leb datetime_min (parse_date s) = true.
Proof.
  unfold parse_date. destruct (strptime s) as [d|] eqn:E; [|reflexivity].
  apply strptime_range in E. unfold datetime_leb, datetime_ltb, datetime_min.
  destruct d as [y m dd]. simpl in *. lia.
Qed.

(** C3, amended: the date-extraction step returns the text between the
    first pair of parentheses that encloses a non-empty text without a
    closing parenthesis, and the empty string when the display name has
    none; the sort key is that text parsed as "Month Day, Year", which
    reads every date of the calendar written so. *)
Theorem extract_date_leftmost (b : bundle) (s : string) :
  ((exists pre body post,
      parenthesized pre body post s
      /\ (forall pre' body' post', parenthesized pre' body' post' s ->
            (String.length pre <= String.length pre')%nat)
      /\ extract_date_from_display_name s = body)
   \/ ((forall pre body post, ~ parenthesized pre body post s)
       /\ extract_date_from_display_name s = ""))
  /\ bundle_sort_key b
     = parse_date (extract_date_from_display_name (default "" (display_name b)))
  /\ (forall pad d, valid_date d -> parse_date (render_date pad d) = d)
  /\ extract_date_from_display_name "Foo (June 1, 2024)" = "June 1, 2024"
  /\ parse_date "June 1, 2024" = {| year := 2024; month := 6; day := 1 |}.
Proof.
  split_and!; try reflexivity.
  - unfold extract_date_from_display_name.
    destruct (re_search s) as [body|] eqn:E.
    + left. destruct (re_search_leftmost _ _ E) as (pre & post & H & Hleft).
      by exists pre, body, post.
    + right. split; [|reflexivity]. by apply re_search_none.
  - intros pad d Hd. unfold parse_date. by rewrite strptime_render.
Qed.

(** ** The run *)

Lemma run_inv (a : args) (M M' : manifest) (D : list found) :
  run a M D = Ok M' ->
  exists bs st,
    bundles M = Some bs
    /\ loop a D (initial bs) = Ok st
    /\ M' = {| tinygrad_ref := or_else (arg_tinygrad_ref a) (tinygrad_ref M);
               bundles := Some (post_process a (st_bundles st)) |}.
Proof.
  unfold run. intros (bs & Hbs%getitem_Ok & H)%rbind_Ok.
  apply rbind_Ok in H as (st & Hloop & [= <-]). by exists bs, st.
Qed.

Lemma inv_initial (bs : list bundle) : inv (initial bs).
Proof. reflexivity. Qed.

(** Without [--sort-by-date] the bundles stay where they are. *)
Lemma post_process_lookup (a : args) (bs : list bundle) (i : nat) :
  arg_sort_by_date a = false ->
  post_process a bs !! i
  = (fun b => match arg_set_min_version a with
              | Some v => set_min_version v b
              | None => b
              end) <$> bs !! i.
Proof.
  intros Hs. unfold post_process. rewrite Hs.
  destruct (arg_set_min_version a) as [v|].
  - change (List.map ?f ?l) with (f <$> l). by rewrite list_lookup_fmap.
  - by destruct (bs !! i).
Qed.

(** C8: when [--sort-by-date] is not given, every bundle of the loaded
    manifest is at its place in the written manifest and has the index it
    had, whatever the other flags and the descriptors are. *)
Theorem index_unchanged_without_sort (a : args) (M M' : manifest) (D : list found)
    (bs bs' : list bundle) (i : nat) (b : bundle) :
  arg_sort_by_date a = false ->
  run a M D = Ok M' ->
  bundles M = Some bs -> bundles M' = Some bs' ->
  bs !! i = Some b ->
  exists b', bs' !! i = Some b' /\ index b' = index b /\ ref b' = ref b.
Proof.
  intros Hsort (bs0 & st & Hbs0 & Hloop & ->)%run_inv Hbs [= <-] Hb.
  assert (bs0 = bs) as -> by congruence.
  destruct (loop_inv _ _ _ _ Hloop (inv_initial bs)) as (_ & _ & _ & news & _ & Hclosed).
  rewrite post_process_lookup, Hclosed by done.
  cbn [initial st_bundles]. rewrite lookup_app_l by by eapply lookup_lt_Some.
  rewrite Hb. simpl. eexists. split; [reflexivity|].
  by destruct (arg_set_min_version a).
Qed.

Lemma index_unchanged_without_sort_witness :
  run Ex.args0 Ex.M0 Ex.D0 = Ok Ex.M1
  /\ exists b', default [] (bundles Ex.M1) !! 1%nat = Some b'
       /\ index b' = Some 2 /\ ref b' = "r1".
Proof.
  assert (Hrun : run Ex.args0 Ex.M0 Ex.D0 = Ok Ex.M1) by (vm_compute; reflexivity).
  split; [exact Hrun|].
  exact (index_unchanged_without_sort Ex.args0 Ex.M0 Ex.M1 Ex.D0
           [Ex.rav0; Ex.rav1] (default [] (bundles Ex.M1)) 1 Ex.rav1
           eq_refl Hrun eq_refl eq_refl eq_refl).
Defined.

Lemma post_process_elem (a : args) (l : list bundle) (b' : bundle) :
  b' ∈ post_process a l -> exists b, b ∈ l /\ same_content b' b.
Proof.
  unfold post_process.
  assert (H1 : forall x, x ∈ match arg_set_min_version a with
                             | Some v => List.map (set_min_version v) l
                             | None => l
                             end -> exists b, b ∈ l /\ same_content x b).
  { intros x. destruct (arg_set_min_version a) as [v|].
    - change (List.map ?f ?l) with (f <$> l).
      intros (b & -> & Hb)%list_elem_of_fmap. by exists b.
    - intros Hx. by exists x. }
  destruct (arg_sort_by_date a); [|apply H1].
  unfold sort_by_date. intros (i & x & -> & Hx)%elem_of_lookup_imap.
  apply list_elem_of_lookup_2 in Hx. rewrite sort_by_perm in Hx.
  destruct (H1 x Hx) as (b & Hb & Hsame). by exists b.
Qed.

Lemma not_big_is_big (m : model) : not_big m = negb (is_big m).
Proof. unfold not_big, is_big. by rewrite negb_orb. Qed.

Lemma effect_at_not_big (a : args) (mp : gmap string nat) (D : list found) (i : nat)
    (ms : list model) :
  Forall (fun m => not_big m = true) ms ->
  Forall (fun m => not_big m = true) (List.map (e_replace (effect_at a mp D i)) ms).
Proof.
  intros H. destruct (good_effect_at a mp D i) as (_ & _ & Hnb).
  change (List.map ?f ?l) with (f <$> l). apply Forall_fmap.
  eapply Forall_impl; [exact H|]. intros m Hm. by apply Hnb.
Qed.

(** The models of the bundles that a run appends are not big. *)
Lemma run_new_bundles_not_big (a : args) (M M' : manifest) (D : list found)
    (bs bs' : list bundle) (b' : bundle) (ms : list model) :
  run a M D = Ok M' ->
  bundles M = Some bs -> bundles M' = Some bs' ->
  b' ∈ bs' -> ref b' ∉ ref <$> bs ->
  models b' = Some ms ->
  Forall (fun m => is_big m = false) ms.
Proof.
  intros (bs0 & st & Hbs0 & Hloop & ->)%run_inv Hbs [= <-] Hb' Hnew Hms.
  assert (bs0 = bs) as -> by congruence.
  destruct (loop_inv _ _ _ _ Hloop (inv_initial bs))
    as (_ & _ & _ & news & (_ & _ & _ & Hnews) & Hclosed).
  apply post_process_elem in Hb' as (b1 & (j & Hj)%list_elem_of_lookup & Hr & _ & Hm & _).
  rewrite Hclosed in Hj. cbn [initial st_bundles] in Hj.
  destruct ((bs ++ news)%list !! j) as [b0|] eqn:Eb0; [|done].
  injection Hj as <-.
  assert (Hgoal : Forall (fun m => not_big m = true) ms).
  { apply lookup_app_Some in Eb0 as [Hold|[_ Hn]].
    - exfalso. apply Hnew. rewrite Hr. cbn [apply_effect ref].
      apply list_elem_of_fmap. exists b0. split; [done|].
      by eapply list_elem_of_lookup_2.
    - rewrite Forall_forall in Hnews.
      destruct (Hnews b0) as (_ & ms0 & Hms0 & Hall).
      { by eapply list_elem_of_lookup_2. }
      rewrite Hm in Hms. cbn [apply_effect models] in Hms. rewrite Hms0 in Hms.
      injection Hms as <-. by apply effect_at_not_big. }
  eapply Forall_impl; [exact Hgoal|]. intros m Hm'. cbv beta in Hm'.
  rewrite not_big_is_big in Hm'. by destruct (is_big m).
Qed.

(** The update of a bundle takes the files of a model only from a model of
    the descriptor that is not big. *)
Lemma update_bundle_sources (a : args) (meta : descriptor) (folder : string)
    (is_new : bool) (b b' : bundle) (mm ms : list model) :
  update_bundle a meta folder is_new b = Ok b' ->
  (is_new = true -> models b = Some (List.filter not_big mm)) ->
  meta_models meta = Some mm -> models b = Some ms ->
  exists ms',
    models b' = Some ms'
    /\ Forall2 (fun m m' =>
         m' = m
         \/ exists c, c ∈ mm /\ is_big c = false
              /\ type c = type m
              /\ m' = assign (recompiled_dir_name a) folder m c) ms ms'.
Proof.
  intros Hup Hnew Hmm Hms.
  destruct (update_bundle_inv _ _ _ _ _ _ Hup) as [_ Hc].
  rewrite (update_bundle_apply _ _ _ _ _ mm) in Hup by done.
  injection Hup as <-. cbn [apply_effect descriptor_effect e_replace models].
  rewrite Hms, Hmm. eexists. split; [reflexivity|]. simpl.
  clear Hms Hnew. induction ms as [|m ms IH]; simpl; constructor; [|exact IH].
  unfold replace_model.
  destruct (List.find _ _) as [c|] eqn:E; [|by left].
  right. exists c. apply find_some in E as [Hin Ht].
  apply filter_In in Hin as [Hin Hnb].
  rewrite not_big_is_big in Hnb. split_and!.
  - by apply list_elem_of_In.
  - by destruct (is_big c).
  - by apply String.eqb_eq.
  - done.
Qed.

(** C1: a model with "big" in its artifact or metadata file name, in any
    case, is in the models of no bundle that a run appends to the manifest,
    and the update phase takes the fields it writes into a model of a
    bundle from no such model. *)
Theorem big_models_excluded (a : args) (M M' : manifest) (D : list found)
    (bs bs' : list bundle) (b' : bundle) (ms : list model)
    (meta : descriptor) (folder : string) (is_new : bool) (b1 b1' : bundle)
    (mm ms1 : list model) :
  (run a M D = Ok M' ->
   bundles M = Some bs -> bundles M' = Some bs' ->
   b' ∈ bs' -> ref b' ∉ ref <$> bs ->
   models b' = Some ms ->
   Forall (fun m => is_big m = false) ms)
  /\ (update_bundle a meta folder is_new b1 = Ok b1' ->
      (is_new = true -> models b1 = Some (List.filter not_big mm)) ->
      meta_models meta = Some mm -> models b1 = Some ms1 ->
      exists ms1',
        models b1' = Some ms1'
        /\ Forall2 (fun m m' =>
             m' = m
             \/ exists c, c ∈ mm /\ is_big c = false
                  /\ type c = type m
                  /\ m' = assign (recompiled_dir_name a) folder m c) ms1 ms1').
Proof.
  split; [apply run_new_bundles_not_big|apply update_bundle_sources].
Qed.

Lemma big_models_excluded_witness :
  run Ex.args0 Ex.M0 Ex.D0 = Ok Ex.M1
  /\ Forall (fun m => is_big m = false) (default [] (models (Ex.bundle_at Ex.M1 2)))
  /\ exists ms1',
       models (Ex.bundle_at Ex.M1 1) = Some ms1'
       /\ Forall2 (fun m m' =>
            m' = m
            \/ exists c, c ∈ default [] (meta_models Ex.meta1) /\ is_big c = false
                 /\ type c = type m
                 /\ m' = assign "recompiled3" "rav1 dir" m c)
            (default [] (models Ex.rav1)) ms1'.
Proof.
  assert (Hrun : run Ex.args0 Ex.M0 Ex.D0 = Ok Ex.M1) by (vm_compute; reflexivity).
  pose proof (big_models_excluded Ex.args0 Ex.M0 Ex.M1 Ex.D0
    [Ex.rav0; Ex.rav1] (default [] (bundles Ex.M1))
    (Ex.bundle_at Ex.M1 2) (default [] (models (Ex.bundle_at Ex.M1 2)))
    Ex.meta1 "rav1 dir" false Ex.rav1 (Ex.bundle_at Ex.M1 1)
    (default [] (meta_models Ex.meta1)) (default [] (models Ex.rav1))) as [H1 H2].
  split; [exact Hrun|]. split.
  - apply (H1 Hrun eq_refl eq_refl).
    + apply (list_elem_of_lookup_2 _ 2%nat). vm_compute. reflexivity.
    + refine (bool_decide_unpack _ _). vm_compute. exact I.
    + vm_compute. reflexivity.
  - apply H2.
    + vm_compute. reflexivity.
    + intros [=].
    + reflexivity.
    + reflexivity.
Defined.

(** ** Generation and selector version *)

Lemma is_candidate_spec (prefix : string) (b : bundle) :
  is_candidate prefix b = true
  <-> (exists rest, short_name b = prefix ++ rest)
      /\ is_Some (generation b) /\ is_Some (minimum_selector_version b).
Proof.
  unfold is_candidate. rewrite !andb_true_iff, !bool_decide_eq_true, startswith_spec.
  tauto.
Qed.

Lemma get_generation_and_selector_spec (sn : string) (bs : list bundle) :
  let candidates := List.filter (is_candidate (alpha_prefix sn)) bs in
  exists g v,
    get_generation_and_selector sn bs = Ok (g, v)
    /\ ((candidates = [] /\ g = "12" /\ v = "12")
        \/ exists latest,
             latest_of candidates latest
             /\ generation latest = Some g
             /\ minimum_selector_version latest = Some v).
Proof.
  intros candidates. unfold get_generation_and_selector. fold candidates.
  destruct candidates as [|c cs] eqn:E.
  - exists "12", "12". split; [reflexivity|]. by left.
  - destruct (max_by_first index_or_0 cs c) as (l1 & l2 & Heq & H1 & H2).
    assert (Hin : In (max_by index_or_0 c cs) (List.filter (is_candidate (alpha_prefix sn)) bs)).
    { fold candidates. rewrite E, Heq. apply in_or_app. right. by left. }
    apply filter_In in Hin as [_ Hc]. apply is_candidate_spec in Hc as (_ & [g Hg] & [v Hv]).
    exists g, v. rewrite Hg, Hv. split; [reflexivity|]. right.
    exists (max_by index_or_0 c cs). split; [|done]. by exists l1, l2.
Qed.

(** C6, as the claim states it, fails: the letters are taken of the
    descriptor's short name after line 99 has put it in upper case, and
    the short names of the manifest are compared as they are.  The
    leading letters of "rav2 model" are "rav", the bundles rav0 and rav1
    start with them and have both keys, rav1 has the highest index and
    the generation "11"; the new bundle gets "12". *)
Lemma lower_case_names_not_inherited :
  stated_short_name Ex2.found2 Ex.meta2 = "rav2 model"
  /\ alpha_prefix "rav2 model" = "rav"
  /\ List.filter (is_candidate "rav") (st_bundles Ex2.st_lower) = [Ex.rav0; Ex.rav1]
  /\ latest_of [Ex.rav0; Ex.rav1] Ex.rav1
  /\ generation Ex.rav1 = Some "11" /\ minimum_selector_version Ex.rav1 = Some "11"
  /\ arg_generation Ex.args0 = None /\ arg_version Ex.args0 = None
  /\ step Ex.args0 Ex2.st_lower Ex2.found2 = Ok Ex2.st_lower'
  /\ exists nb,
       st_bundles Ex2.st_lower' !! 2%nat = Some nb
       /\ ref nb = "r2"
       /\ generation nb = Some "12" /\ minimum_selector_version nb = Some "12".
Proof.
  split_and!; try reflexivity.
  - exists [Ex.rav0], []. split_and!; [reflexivity| |constructor].
    repeat constructor.
  - eexists. split; [reflexivity|]. by split_and!.
Qed.

(** C6, amended: a bundle made without [--generation] and [--version]
    of a descriptor with a name of ASCII characters takes its generation
    and its minimum selector version from the first bundle of the highest
    index (no index counting as 0) among the bundles whose short name, as
    it stands, starts with the leading letters of the descriptor's short
    name in upper case (with the whole name in upper case, when it does
    not start with a letter) and that have both keys, and takes "12" for
    both when there is no such bundle; RAV3 takes those of RAV2 of index
    5, not those of RAV1 of index 2, and those of RAV1 when RAV1 has the
    index 5. *)
Theorem new_bundle_inherits (a : args) (st st' : state) (f : found)
    (meta : descriptor) (r : string) :
  (inv st -> step a st f = Ok st' ->
   meta_file f = Json meta -> meta_ref meta = Some r ->
   is_ascii (stated_short_name f meta) = true ->
   ref_to_bundle st !! r = None ->
   arg_generation a = None -> arg_version a = None ->
   exists nb g v,
     let prefix := alpha_prefix (Str.upper (stated_short_name f meta)) in
     let candidates := List.filter (is_candidate prefix) (st_bundles st) in
     st_bundles st' !! length (st_bundles st) = Some nb
     /\ length (st_bundles st') = S (length (st_bundles st))
     /\ ref nb = r
     /\ short_name nb = Str.upper (stated_short_name f meta)
     /\ generation nb = Some g /\ minimum_selector_version nb = Some v
     /\ ((candidates = [] /\ g = "12" /\ v = "12")
         \/ exists latest,
              latest_of candidates latest
              /\ generation latest = Some g
              /\ minimum_selector_version latest = Some v))
  /\ (forall prefix b, is_candidate prefix b = true
        <-> (exists rest, short_name b = prefix ++ rest)
            /\ is_Some (generation b) /\ is_Some (minimum_selector_version b))
  /\ (forall sn,
        (exists rest,
           sn = alpha_prefix sn ++ rest
           /\ alpha_prefix sn <> ""
           /\ Str.sforall Str.is_alpha (alpha_prefix sn) = true
           /\ match rest with EmptyString => True | String c _ => Str.is_alpha c = false end)
        \/ (alpha_prefix sn = sn
            /\ match sn with EmptyString => True | String c _ => Str.is_alpha c = false end))
  /\ get_generation_and_selector "RAV3"
       [Ex.a_bundle "RAV1" "r1" (Some "11") (Some "11") (Some 2) [];
        Ex.a_bundle "RAV2" "r2" (Some "12") (Some "12") (Some 5) []]
     = Ok ("12", "12")
  /\ get_generation_and_selector "RAV3"
       [Ex.a_bundle "RAV1" "r1" (Some "11") (Some "11") (Some 5) [];
        Ex.a_bundle "RAV2" "r2" (Some "12") (Some "12") (Some 2) []]
     = Ok ("11", "11").
Proof.
  split_and!; [|apply is_candidate_spec|apply alpha_prefix_spec|done..].
  intros Hinv Hstep Hf Hr _ Hnone Hg Hv.
  destruct (step_inv _ _ _ _ Hstep Hinv)
    as (meta' & r' & mm & base & i & b & Hf' & Hr' & Hmm & Hcase & Hb & Hrb & Hc
        & Hbs1 & Hmp1 & Hinv1).
  assert (meta' = meta) as -> by congruence. assert (r' = r) as -> by congruence.
  destruct Hcase as [[Hi _]|(_ & -> & -> & Hcr)]; [congruence|].
  destruct Hcr as (fkey & fallback & mm' & _ & Hfb & _ & Hnb).
  unfold descriptor_short_name in Hfb, Hnb. fold (stated_short_name f meta) in Hfb, Hnb.
  destruct (get_generation_and_selector_spec (Str.upper (stated_short_name f meta))
              (st_bundles st)) as (g & v & Hgv & Hcases).
  rewrite Hgv in Hfb. injection Hfb as <-.
  eexists _, g, v. cbv zeta. rewrite Hbs1. split_and!.
  - apply list_lookup_insert_eq. rewrite length_app. simpl. lia.
  - rewrite length_insert, length_app. simpl. lia.
  - done.
  - rewrite Hnb. cbn [apply_effect descriptor_effect e_upper new_bundle short_name].
    apply upper_idem.
  - rewrite Hnb, Hg. reflexivity.
  - rewrite Hnb, Hv. reflexivity.
  - exact Hcases.
Qed.

Lemma new_bundle_inherits_witness :
  inv Ex2.st_rav5 /\ step Ex.args0 Ex2.st_rav5 Ex.found3 = Ok Ex2.st_rav5'
  /\ stated_short_name Ex.found3 Ex.meta3 = "rav3"
  /\ exists nb,
       st_bundles Ex2.st_rav5' !! 2%nat = Some nb
       /\ ref nb = "r3" /\ short_name nb = "RAV3"
       /\ generation nb = Some "11" /\ minimum_selector_version nb = Some "11".
Proof.
  assert (Hstep : step Ex.args0 Ex2.st_rav5 Ex.found3 = Ok Ex2.st_rav5')
    by (vm_compute; reflexivity).
  split; [reflexivity|]. split; [exact Hstep|]. split; [reflexivity|].
  destruct (proj1 (new_bundle_inherits Ex.args0 Ex2.st_rav5 Ex2.st_rav5' Ex.found3
                     Ex.meta3 "r3") eq_refl Hstep eq_refl eq_refl eq_refl eq_refl
              eq_refl eq_refl)
    as (nb & g & v & Hnb & _ & Hr & Hsn & Hg & Hv & Hcases).
  exists nb. split; [exact Hnb|]. split; [exact Hr|]. split; [exact Hsn|].
  destruct Hcases as [(Hnil & _)|(latest & (l1 & l2 & Heq & Hl1 & Hl2) & Hlg & Hlv)].
  - vm_compute in Hnil. discriminate.
  - assert (latest = Ex.a_bundle "RAV1" "r1" (Some "11") (Some "11") (Some 5) []) as ->.
    { vm_compute in Heq. destruct l1 as [|x [|y l1]].
      - by injection Heq as <- _.
      - injection Heq as <- <- _. apply Forall_cons in Hl1 as [Hlt _].
        vm_compute in Hlt. discriminate.
      - injection Heq as _ _ Heq. by destruct l1. }
    vm_compute in Hlg, Hlv. injection Hlg as <-. injection Hlv as <-.
    split; [exact Hg|exact Hv].
Defined.

(** ** The update keeps the models of a bundle in place *)

Lemma replace_model_type (rd folder : string) (cands : list model) (m : model) :
  type (replace_model rd folder cands m) = type m.
Proof. unfold replace_model. by destruct (List.find _ _). Qed.



(** ** Short names *)

Lemma effect_at_upper (a : args) (mp : gmap string nat) (D : list found)
    (f : found) (meta : descriptor) (j : nat) :
  f ∈ D -> meta_file f = Json meta -> targets mp f j ->
  e_upper (effect_at a mp D j) = true.
Proof.
  intros Hin Hf Ht. induction D as [|f' D IH]; [by apply elem_of_nil in Hin|].
  cbn [effect_at compose_effect e_upper].
  apply elem_of_cons in Hin as [<-|Hin].
  - rewrite decide_True by done. rewrite (found_effect_json a f meta Hf).
    cbn [descriptor_effect e_upper]. apply orb_true_r.
  - by rewrite IH.
Qed.

Lemma effect_at_untargeted (a : args) (mp : gmap string nat) (D : list found)
    (j : nat) (b : bundle) :
  (forall f, f ∈ D -> ~ targets mp f j) ->
  apply_effect (effect_at a mp D j) b = b.
Proof.
  induction D as [|f D IH]; intros H; [apply apply_unit_effect|].
  cbn [effect_at]. rewrite apply_compose_effect.
  rewrite decide_False by (apply H; by left).
  rewrite apply_unit_effect. apply IH. intros f' Hf'. apply H. by right.
Qed.

Lemma sort_by_date_refs (bs : list bundle) : ref <$> sort_by_date bs ≡ₚ ref <$> bs.
Proof.
  unfold sort_by_date. rewrite <- (sort_by_perm bundle_sort_key bs) at 2.
  assert (ref <$> imap set_index (sort_by bundle_sort_key bs)
          = ref <$> sort_by bundle_sort_key bs) as ->; [|done].
  apply list_eq. intros i.
  rewrite !list_lookup_fmap, list_lookup_imap.
  by destruct (sort_by bundle_sort_key bs !! i).
Qed.

Lemma post_process_refs (a : args) (bs : list bundle) :
  ref <$> post_process a bs ≡ₚ ref <$> bs.
Proof.
  unfold post_process.
  assert (H : ref <$> match arg_set_min_version a with
                      | Some v => List.map (set_min_version v) bs
                      | None => bs
                      end = ref <$> bs).
  { destruct (arg_set_min_version a) as [v|]; [|done].
    change (List.map ?f ?l) with (f <$> l). by rewrite <- list_fmap_compose. }
  destruct (arg_sort_by_date a); [|by rewrite H].
  by rewrite sort_by_date_refs, H.
Qed.

(** The refs of the bundles after the loop. *)
Lemma loop_refs (a : args) (D : list found) (bs : list bundle) (st : state) :
  loop a D (initial bs) = Ok st ->
  exists news,
    fresh_news bs D news
    /\ ref <$> st_bundles st = ref <$> (bs ++ news)%list
    /\ forall j,
         st_bundles st !! j
         = apply_effect (effect_at a (ref_to_bundle st) D j) <$> (bs ++ news)%list !! j.
Proof.
  intros Hloop.
  destruct (loop_inv _ _ _ _ Hloop (inv_initial bs)) as (_ & _ & _ & news & Hfresh & Hclosed).
  exists news. split_and!; [done| |done].
  apply list_eq. intros j. rewrite !list_lookup_fmap, Hclosed.
  cbn [initial st_bundles]. by destruct ((bs ++ news)%list !! j).
Qed.

Lemma fresh_news_NoDup (bs : list bundle) (D : list found) (news : list bundle) :
  NoDup (ref <$> bs) -> fresh_news bs D news -> NoDup (ref <$> (bs ++ news)%list).
Proof.
  intros Hbs (Hnd & Hout & _). rewrite fmap_app. apply NoDup_app. split_and!; [done| |done].
  intros r Hr (nb & -> & Hnb)%list_elem_of_fmap. by apply (Hout nb Hnb).
Qed.

(** C2, as the claim states it, fails: a bundle whose ref no descriptor
    has keeps the short name it had, in lower case if it was. *)
Lemma untouched_short_name_stays_lower :
  exists M',
    run Ex.args0 Ex.M0 Ex.D0 = Ok M'
    /\ exists b', default [] (bundles M') !! 0%nat = Some b'
         /\ short_name b' = "rav0" /\ Str.upper_case (short_name b') = false.
Proof.
  exists Ex.M1. split; [vm_compute; reflexivity|].
  eexists. split; [vm_compute; reflexivity|]. split; reflexivity.
Qed.

(** C2, amended: when the bundles of the loaded manifest have different
    refs, so have those of the written one; a bundle whose ref is the ref
    of a descriptor has a short name in upper case, and a bundle whose ref
    no descriptor has is a bundle of the loaded manifest and keeps its
    short name. *)
Theorem short_names_upper_when_touched (a : args) (M M' : manifest) (D : list found)
    (bs bs' : list bundle) :
  run a M D = Ok M' ->
  bundles M = Some bs -> bundles M' = Some bs' ->
  NoDup (ref <$> bs) ->
  NoDup (ref <$> bs')
  /\ forall b', b' ∈ bs' ->
       (ref b' ∈ omap found_ref D -> Str.upper_case (short_name b') = true)
       /\ (ref b' ∉ omap found_ref D ->
           exists b, b ∈ bs /\ ref b = ref b' /\ short_name b = short_name b').
Proof.
  intros (bs0 & st & Hbs0 & Hloop & ->)%run_inv Hbs [= <-] Hnd.
  assert (bs0 = bs) as -> by congruence.
  destruct (loop_inv _ _ _ _ Hloop (inv_initial bs)) as (Hinv & _ & Hready & _).
  destruct (loop_refs _ _ _ _ Hloop) as (news & Hfresh & Hrefs & Hclosed).
  assert (Hnd' : NoDup (ref <$> st_bundles st)).
  { rewrite Hrefs. by eapply fresh_news_NoDup. }
  split; [by rewrite post_process_refs|].
  intros b' (b1 & (j & Hj)%list_elem_of_lookup & Hr & Hsn & _)%post_process_elem.
  rewrite Hr, Hsn. clear b' Hr Hsn.
  assert (Htarget : forall f, f ∈ D ->
            (targets (ref_to_bundle st) f j <-> found_ref f = Some (ref b1))).
  { intros f Hf. rewrite Forall_forall in Hready.
    destruct (Hready f Hf) as (meta & r & mm & i & bi & Hfm & Hfr & _ & Hi & _).
    destruct (targets_found _ _ _ _ _ Hfm Hfr Hi) as [Ht Hfound].
    destruct (inv_lookup _ _ _ Hinv Hi) as (bi' & Hbi' & Hrbi & _).
    rewrite Hfound. unfold targets in *. split.
    - intros Hj'. assert (j = i) as -> by congruence. congruence.
    - intros [= ->]. assert (i = j) as ->; [|done].
      eapply (NoDup_lookup _ _ _ _ Hnd'); rewrite list_lookup_fmap.
      + by rewrite Hbi'.
      + rewrite Hj. simpl. by rewrite Hrbi. }
  rewrite Hclosed in Hj.
  destruct ((bs ++ news)%list !! j) as [b0|] eqn:Eb0; [|done]. injection Hj as <-.
  split.
  - intros (f & Hf & Hfr)%list_elem_of_omap.
    assert (Hfm : exists meta, meta_file f = Json meta).
    { rewrite Forall_forall in Hready. destruct (Hready f Hf) as (meta & ? & ? & ? & ? & ? & _).
      by exists meta. }
    destruct Hfm as [meta Hfm].
    apply Htarget in Hfr; [|done]. cbn [apply_effect short_name].
    rewrite (effect_at_upper a _ D f meta j) by done. apply upper_upper_case.
  - intros Hnot. rewrite effect_at_untargeted.
    + apply lookup_app_Some in Eb0 as [Hold|[_ Hn]].
      * exists b0. split; [by eapply list_elem_of_lookup_2|done].
      * exfalso. apply Hnot. destruct Hfresh as (_ & _ & HinD & _).
        cbn [apply_effect ref]. apply HinD. by eapply list_elem_of_lookup_2.
    + intros f Hf Ht. apply Hnot. apply (Htarget f Hf) in Ht.
      apply list_elem_of_omap. by exists f.
Qed.

Lemma short_names_upper_when_touched_witness :
  run Ex.args_sort Ex.M0 Ex.D0 = Ok Ex.M1_sorted
  /\ NoDup (ref <$> [Ex.rav0; Ex.rav1])
  /\ NoDup (ref <$> default [] (bundles Ex.M1_sorted))
  /\ forall b', b' ∈ default [] (bundles Ex.M1_sorted) ->
       (ref b' ∈ omap found_ref Ex.D0 -> Str.upper_case (short_name b') = true)
       /\ (ref b' ∉ omap found_ref Ex.D0 ->
           exists b, b ∈ [Ex.rav0; Ex.rav1] /\ ref b = ref b' /\ short_name b = short_name b').
Proof.
  assert (Hrun : run Ex.args_sort Ex.M0 Ex.D0 = Ok Ex.M1_sorted) by (vm_compute; reflexivity).
  assert (Hnd : NoDup (ref <$> [Ex.rav0; Ex.rav1])).
  { refine (bool_decide_unpack _ _). vm_compute. exact I. }
  split; [exact Hrun|]. split; [exact Hnd|].
  exact (short_names_upper_when_touched Ex.args_sort Ex.M0 Ex.M1_sorted Ex.D0
           [Ex.rav0; Ex.rav1] (default [] (bundles Ex.M1_sorted)) Hrun eq_refl eq_refl Hnd).
Defined.

(** ** Running twice *)

Lemma post_process_unsorted (a : args) (bs : list bundle) :
  arg_sort_by_date a = false -> post_process a bs = min_version_of a <$> bs.
Proof.
  intros Hs. apply list_eq. intros i.
  by rewrite post_process_lookup, list_lookup_fmap.
Qed.

Lemma min_version_of_ref (a : args) (b : bundle) : ref (min_version_of a b) = ref b.
Proof. unfold min_version_of. by destruct (arg_set_min_version a). Qed.

Lemma min_version_of_complete (a : args) (b : bundle) :
  complete b -> complete (min_version_of a b).
Proof. unfold min_version_of. by destruct (arg_set_min_version a). Qed.

Lemma min_version_of_idem (a : args) (b : bundle) :
  min_version_of a (min_version_of a b) = min_version_of a b.
Proof. unfold min_version_of. by destruct (arg_set_min_version a). Qed.

Lemma min_version_of_apply (a : args) (e : effect) (b : bundle) :
  apply_effect e (min_version_of a b) = min_version_of a (apply_effect e b).
Proof. unfold min_version_of. by destruct (arg_set_min_version a). Qed.

(** C4: without [--sort-by-date], a second run on the manifest that a run
    has made, with the same descriptors and flags, succeeds and makes the
    same manifest. *)
Theorem run_idempotent (a : args) (M M1 : manifest) (D : list found) :
  arg_sort_by_date a = false ->
  run a M D = Ok M1 ->
  run a M1 D = Ok M1.
Proof.
  intros Hsort (bs & st & Hbs & Hloop & ->)%run_inv.
  destruct (loop_inv _ _ _ _ Hloop (inv_initial bs))
    as (Hinv & _ & Hready & news & _ & Hclosed).
  cbn [initial st_bundles] in Hclosed.
  unfold run. cbn [bundles tinygrad_ref getitem rbind].
  rewrite post_process_unsorted by done.
  set (bs1 := min_version_of a <$> st_bundles st).
  assert (Hmap : ref_to_bundle (initial bs1) = ref_to_bundle st).
  { rewrite Hinv. cbn [initial ref_to_bundle]. apply ref_map_from_refs.
    subst bs1. apply Forall2_fmap_l, Forall_Forall2_diag, Forall_forall.
    intros b _. apply min_version_of_ref. }
  rewrite loop_ready.
  - cbn [rbind st_bundles]. rewrite Hmap. f_equal. f_equal.
    + by destruct (arg_tinygrad_ref a).
    + f_equal. rewrite post_process_unsorted by done.
      apply list_eq. intros j. subst bs1. cbn [initial st_bundles].
      rewrite !list_lookup_fmap, list_lookup_imap, list_lookup_fmap, Hclosed.
      destruct ((bs ++ news)%list !! j) as [b|]; [|reflexivity]. simpl. f_equal.
      rewrite min_version_of_apply, min_version_of_idem.
      by rewrite apply_effect_idem by apply good_effect_at.
  - eapply Forall_impl; [exact Hready|].
    intros f (meta & r & mm & i & b & ? & ? & ? & Hi & Hb & Hc).
    exists meta, r, mm, i, (min_version_of a b). split_and!; try done.
    + by rewrite Hmap.
    + cbn [initial st_bundles]. subst bs1. by rewrite list_lookup_fmap, Hb.
    + by apply min_version_of_complete.
Qed.

Lemma run_idempotent_witness :
  run Ex.args0 Ex.M0 Ex.D0 = Ok Ex.M1 /\ run Ex.args0 Ex.M1 Ex.D0 = Ok Ex.M1.
Proof.
  assert (Hrun : run Ex.args0 Ex.M0 Ex.D0 = Ok Ex.M1) by (vm_compute; reflexivity).
  split; [exact Hrun|].
  exact (run_idempotent Ex.args0 Ex.M0 Ex.M1 Ex.D0 eq_refl Hrun).
Defined.

(** ** Sorting by date *)

Lemma step_without_sort (a : args) (st : state) (f : found) :
  step (without_sort a) st f = step a st f.
Proof. by destruct a. Qed.

Lemma loop_without_sort (a : args) (D : list found) (st : state) :
  loop (without_sort a) D st = loop a D st.
Proof.
  revert st. induction D as [|f D IH]; intros st; [reflexivity|].
  cbn [loop]. rewrite step_without_sort.
  destruct (step a st f) as [st'|e]; [|reflexivity]. apply IH.
Qed.

Lemma run_without_sort (a : args) (M M' : manifest) (D : list found) (bs' : list bundle) :
  arg_sort_by_date a = true ->
  run a M D = Ok M' -> bundles M' = Some bs' ->
  exists pre,
    run (without_sort a) M D = Ok {| tinygrad_ref := tinygrad_ref M'; bundles := Some pre |}
    /\ bs' = sort_by_date pre.
Proof.
  intros Hs (bs & st & Hbs & Hloop & ->)%run_inv [= <-].
  unfold run. rewrite Hbs. cbn [getitem rbind]. rewrite loop_without_sort, Hloop.
  cbn [rbind]. eexists. split; [reflexivity|].
  unfold post_process. rewrite Hs. by destruct a.
Qed.

Lemma mem_app (c : ascii) (s t : string) :
  Str.mem c (s ++ t) = Str.mem c s || Str.mem c t.
Proof.
  induction s as [|a s IH]; [reflexivity|].
  rewrite string_app_cons. cbn [Str.mem]. by rewrite IH, orb_assoc.
Qed.

Lemma re_search_first (pre body post : string) :
  Str.mem "(" pre = false -> body <> "" -> Str.mem ")" body = false ->
  re_search (pre ++ "(" ++ body ++ ")" ++ post) = Some body.
Proof.
  intros Hpre Hne Hb. induction pre as [|c pre IH].
  - rewrite string_app_nil, re_search_unfold. by rewrite match_here_complete.
  - cbn [Str.mem] in Hpre. apply orb_false_iff in Hpre as [Hc Hpre].
    rewrite string_app_cons, re_search_unfold. cbn [match_here].
    rewrite Ascii.eqb_sym, Hc. by apply IH.
Qed.

Lemma digit_not_paren (c : ascii) :
  Str.is_digit c = true -> Ascii.eqb ")" c = false.
Proof. each_ascii c. Qed.

Lemma render_date_plain (pad : bool) (d : datetime) :
  valid_date d ->
  render_date pad d <> "" /\ Str.mem ")" (render_date pad d) = false.
Proof.
  intros (Hy & Hm & Hd). destruct d as [y m dd]. cbn [year month day] in *.
  assert (Hdd : 1 <= dd <= 31).
  { unfold days_in_month in Hd. repeat case_match; lia. }
  assert (Hmonth : month_name m <> "" /\ Str.mem ")" (month_name m) = false).
  { apply (range_cases (fun m => month_name m <> ""
                          /\ Str.mem ")" (month_name m) = false) 12 1); [|lia].
    by vm_compute. }
  assert (Hday : Str.mem ")" (render_day pad dd) = false).
  { revert pad.
    apply (range_cases (fun dd => forall pad, Str.mem ")" (render_day pad dd) = false) 31 1);
      [|lia].
    cbn [range foldr Z.add Pos.add Pos.succ Pos.add_carry].
    repeat match goal with |- _ /\ _ => split end; try exact I; by intros []. }
  assert (Hyear : Str.mem ")" (render_year y) = false).
  { unfold render_year. cbn [Str.mem].
    destruct (digit_char_spec (y / 1000)) as (H1%digit_not_paren & _);
      [Z.div_mod_to_equations; lia|].
    destruct (digit_char_spec (y / 100 mod 10)) as (H2%digit_not_paren & _);
      [Z.div_mod_to_equations; lia|].
    destruct (digit_char_spec (y / 10 mod 10)) as (H3%digit_not_paren & _);
      [Z.div_mod_to_equations; lia|].
    destruct (digit_char_spec (y mod 10)) as (H4%digit_not_paren & _);
      [Z.div_mod_to_equations; lia|].
    by rewrite H1, H2, H3, H4. }
  destruct Hmonth as [Hne Hmem]. unfold render_date. cbn [year month day]. split.
  - by destruct (month_name m).
  - by rewrite !mem_app, Hmem, Hday, Hyear.
Qed.

(** The date of a display name whose first parenthesis opens a date
    written as "Month Day, Year". *)
Lemma date_of_rendered (pre post : string) (pad : bool) (d : datetime) :
  Str.mem "(" pre = false -> valid_date d ->
  date_of_display_name (pre ++ "(" ++ render_date pad d ++ ")" ++ post) = Some d.
Proof.
  intros Hpre Hd. destruct (render_date_plain pad d Hd) as [Hne Hmem].
  unfold date_of_display_name, extract_date_from_display_name.
  rewrite re_search_first by done. by apply strptime_render.
Qed.

(** C5, as the claim states it, fails: a bundle without a date that can
    be read is not before every dated bundle.  It sorts as
    [datetime.min], the first of January of the year 1, and a bundle of
    that date stays before it when it was before it. *)
Lemma year_one_before_undated :
  exists M' b0 b1,
    run Ex.args_sort Ex2.M_year_one [] = Ok M'
    /\ default [] (bundles M') !! 0%nat = Some b0
    /\ default [] (bundles M') !! 1%nat = Some b1
    /\ ref b0 = "old" /\ display_name b0 = Some "Old (January 1, 0001)"
    /\ date_of_display_name "Old (January 1, 0001)" = Some datetime_min
    /\ ref b1 = "new" /\ display_name b1 = Some "No date"
    /\ date_of_display_name "No date" = None.
Proof.
  eexists _, _, _. split; [vm_compute; reflexivity|].
  split; [reflexivity|]. split; [reflexivity|]. by split_and!.
Qed.

(** C5, amended: for display names of ASCII characters, with
    [--sort-by-date] the written bundles are those of the run without it
    in ascending order of the date read in the display name (the text of
    its first pair of parentheses, read as "Month Day, Year"), a bundle
    without a date that can be read counting as dated [datetime.min]: a
    bundle of an earlier date is before every bundle of a later one, what
    is before a bundle without a date has no date or the date
    [datetime.min], and bundles of equal dates keep their order; the
    indices are 0 to N-1 in the order of the sequence. *)
Theorem sort_by_date_spec (a : args) (M M' : manifest) (D : list found)
    (bs' : list bundle) :
  arg_sort_by_date a = true ->
  run a M D = Ok M' -> bundles M' = Some bs' ->
  Forall (fun b => is_ascii (default "" (display_name b)) = true) bs' ->
  let date := fun b : bundle => date_of_display_name (default "" (display_name b)) in
  let key := fun b : bundle =>
    match date b with
    | Some d => d
    | None => datetime_min
    end in
  exists pre s,
    run (without_sort a) M D = Ok {| tinygrad_ref := tinygrad_ref M'; bundles := Some pre |}
    /\ bs' = imap set_index s
    /\ s ≡ₚ pre
    /\ (forall k, filter (fun b => key b = k) s = filter (fun b => key b = k) pre)
    /\ (forall i j bi bj, (i <= j)%nat -> bs' !! i = Some bi -> bs' !! j = Some bj ->
          datetime_leb (key bi) (key bj) = true)
    /\ (forall i j bi bj di dj, bs' !! i = Some bi -> bs' !! j = Some bj ->
          date bi = Some di -> date bj = Some dj -> datetime_ltb di dj = true ->
          (i < j)%nat)
    /\ (forall pre' post pad d, Str.mem "(" pre' = false -> valid_date d ->
          date_of_display_name (pre' ++ "(" ++ render_date pad d ++ ")" ++ post) = Some d)
    /\ length bs' = length pre
    /\ (forall i b, bs' !! i = Some b -> index b = Some (Z.of_nat i))
    /\ (forall b, datetime_leb datetime_min (key b) = true)
    /\ (forall i j bi bj, (i < j)%nat -> bs' !! i = Some bi -> bs' !! j = Some bj ->
          date bj = None -> date bi = None \/ date bi = Some datetime_min).
Proof.
  intros Hs Hrun Hbs' _ date key.
  assert (Hkey : key = bundle_sort_key) by reflexivity.
  destruct (run_without_sort _ _ _ _ _ Hs Hrun Hbs') as (pre & Hpre & ->).
  exists pre, (sort_by bundle_sort_key pre).
  assert (Hsorted : forall i j bi bj, (i <= j)%nat ->
            sort_by_date pre !! i = Some bi -> sort_by_date pre !! j = Some bj ->
            datetime_leb (key bi) (key bj) = true).
  { rewrite Hkey. unfold sort_by_date. intros i j bi bj Hij.
    rewrite !list_lookup_imap.
    destruct (sort_by bundle_sort_key pre !! i) as [xi|] eqn:Ei; [|done].
    destruct (sort_by bundle_sort_key pre !! j) as [xj|] eqn:Ej; [|done].
    intros [= <-] [= <-].
    exact (sorted_lookup bundle_sort_key _ i j xi xj (sort_by_sorted _ _) Hij Ei Ej). }
  split_and!.
  - exact Hpre.
  - reflexivity.
  - apply sort_by_perm.
  - intros k. rewrite Hkey. apply sort_by_stable.
  - exact Hsorted.
  - intros i j bi bj di dj Hi Hj Hdi Hdj Hlt.
    destruct (decide (i < j)%nat) as [|Hge]; [done|]. exfalso.
    assert (Hle : datetime_leb (key bj) (key bi) = true).
    { apply (Hsorted j i); [lia|done..]. }
    unfold key in Hle. rewrite Hdi, Hdj in Hle. unfold datetime_leb in Hle.
    by rewrite Hlt in Hle.
  - intros pre' post pad d. apply date_of_rendered.
  - unfold sort_by_date. by rewrite length_imap, sort_by_perm.
  - unfold sort_by_date. intros i b. rewrite list_lookup_imap.
    destruct (sort_by bundle_sort_key pre !! i); [|done]. by intros [= <-].
  - intros b. rewrite Hkey. apply parse_date_min.
  - intros i j bi bj Hij Hi Hj Hu.
    assert (Hmin : key bi = datetime_min).
    { apply datetime_leb_antisym; [|rewrite Hkey; apply parse_date_min].
      assert (key bj = datetime_min) as <- by (unfold key; by rewrite Hu).
      apply (Hsorted i j); [lia|done..]. }
    unfold key in Hmin. destruct (date bi) as [di|]; [right; by f_equal|by left].
Qed.

Lemma sort_by_date_spec_witness :
  run Ex.args_sort Ex.M0 Ex.D0 = Ok Ex.M1_sorted
  /\ ref <$> default [] (bundles Ex.M0) = ["r0"; "r1"]
  /\ ref <$> default [] (bundles Ex.M1_sorted) = ["r0"; "r2"; "r1"]
  /\ (forall i j bi bj di dj,
        default [] (bundles Ex.M1_sorted) !! i = Some bi ->
        default [] (bundles Ex.M1_sorted) !! j = Some bj ->
        date_of_display_name (default "" (display_name bi)) = Some di ->
        date_of_display_name (default "" (display_name bj)) = Some dj ->
        datetime_ltb di dj = true -> (i < j)%nat)
  /\ (forall i b, default [] (bundles Ex.M1_sorted) !! i = Some b ->
        index b = Some (Z.of_nat i)).
Proof.
  assert (Hrun : run Ex.args_sort Ex.M0 Ex.D0 = Ok Ex.M1_sorted) by (vm_compute; reflexivity).
  split; [exact Hrun|]. split; [reflexivity|]. split; [reflexivity|].
  destruct (sort_by_date_spec Ex.args_sort Ex.M0 Ex.M1_sorted Ex.D0
              (default [] (bundles Ex.M1_sorted)) eq_refl Hrun eq_refl)
    as (pre & s & _ & _ & _ & _ & _ & Hlt & _ & _ & Hidx & _).
  - repeat (constructor; [reflexivity|]). constructor.
  - split; [exact Hlt|exact Hidx].
Defined.

(** ** Errors *)

Lemma loop_Ok_ready (a : args) (D : list found) (bs : list bundle) (st : state) (f : found) :
  loop a D (initial bs) = Ok st -> f ∈ D ->
  exists meta, meta_file f = Json meta
    /\ is_Some (meta_ref meta) /\ is_Some (meta_models meta).
Proof.
  intros Hloop Hf.
  destruct (loop_inv _ _ _ _ Hloop (inv_initial bs)) as (_ & _ & Hready & _).
  rewrite Forall_forall in Hready.
  destruct (Hready f Hf) as (meta & r & mm & _ & _ & ? & ? & ? & _).
  exists meta. eauto.
Qed.

(** C9: when the manifest file is absent, unreadable, not JSON or without
    [bundles], or when one of the descriptor files found is not JSON or
    lacks [ref] or [models], the run ends with an exception and the
    manifest file is as it was; and no run that ends with an exception has
    written it. *)
Theorem bad_input_is_fatal (a : args) (w : world) :
  (bad_manifest w \/ (exists f, f ∈ metadata_files w /\ bad_descriptor f) ->
   exists e, main a w = (Raise e, w))
  /\ (forall e w', main a w = (Raise e, w') -> w' = w)
  /\ (manifest_file w = Absent -> main a w = (Raise OSError, w))
  /\ (manifest_file w = Unreadable -> main a w = (Raise OSError, w))
  /\ (manifest_file w = NotJson -> main a w = (Raise JSONDecodeError, w))
  /\ (forall M, manifest_file w = Json M -> bundles M = None ->
        main a w = (Raise (KeyError "bundles"), w)).
Proof.
  assert (Hkeep : forall e w', main a w = (Raise e, w') -> w' = w).
  { unfold main. intros e w'.
    destruct (rbind _ _) as [M'|e']; [|by intros [= _ <-]].
    destruct (manifest_writable w); [done|by intros [= _ <-]]. }
  split_and!; try done.
  - intros Hbad. unfold main.
    destruct (rbind (json_load (manifest_file w)) _) as [M'|e] eqn:E; [|by exists e].
    exfalso. apply rbind_Ok in E as (M & HM%json_load_Ok & Hrun).
    apply run_inv in Hrun as (bs & st & Hbs & Hloop & _).
    destruct Hbad as [Hbad|(f & Hf & Hbad)].
    + destruct Hbad as [H|[H|[H|(M0 & H & Hnone)]]]; congruence.
    + destruct (loop_Ok_ready _ _ _ _ _ Hloop Hf) as (meta & Hmeta & [r Hr] & [mm Hmm]).
      destruct Hbad as [H|(meta0 & H & [Hnone|Hnone])]; congruence.
  - intros H. unfold main. by rewrite H.
  - intros H. unfold main. by rewrite H.
  - intros H. unfold main. by rewrite H.
  - intros M H Hnone. unfold main, run. rewrite H. cbn [json_load rbind]. by rewrite Hnone.
Qed.

Lemma bad_input_is_fatal_witness :
  let w := {| manifest_file := Json Ex.M0; manifest_writable := true;
              metadata_files :=
                Ex.D0 ++ [ {| meta_folder := "broken"; meta_file := NotJson |} ] |} in
  (exists f, f ∈ metadata_files w /\ bad_descriptor f)
  /\ exists e, main Ex.args0 w = (Raise e, w).
Proof.
  intros w.
  assert (Hbad : exists f, f ∈ metadata_files w /\ bad_descriptor f).
  { exists {| meta_folder := "broken"; meta_file := NotJson |}. split.
    - apply (list_elem_of_lookup_2 _ 2%nat). reflexivity.
    - by left. }
  split; [exact Hbad|].
  exact (proj1 (bad_input_is_fatal Ex.args0 w) (or_intror Hbad)).
Defined.

(** * More of the script *)

(** ** The flags that act on every bundle *)

(** X1: with [--set-min-version V] every bundle of the written manifest,
    old or new, touched or not, sorted or not, has the minimum selector
    version [V]. *)
Theorem set_min_version_everywhere (a : args) (M M' : manifest) (D : list found)
    (bs' : list bundle) (v : string) (b' : bundle) :
  arg_set_min_version a = Some v ->
  run a M D = Ok M' -> bundles M' = Some bs' ->
  b' ∈ bs' ->
  minimum_selector_version b' = Some v.
Proof.
  intros Hv (bs & st & _ & _ & ->)%run_inv [= <-].
  unfold post_process. rewrite Hv.
  assert (H1 : forall x, x ∈ List.map (set_min_version v) (st_bundles st) ->
                minimum_selector_version x = Some v).
  { intros x. change (List.map ?f ?l) with (f <$> l).
    by intros (b & -> & _)%list_elem_of_fmap. }
  destruct (arg_sort_by_date a); [|apply H1].
  unfold sort_by_date. intros (i & x & -> & Hx)%elem_of_lookup_imap.
  apply list_elem_of_lookup_2 in Hx. rewrite sort_by_perm in Hx.
  exact (H1 x Hx).
Qed.

Lemma set_min_version_everywhere_witness :
  run Ex.args_sort Ex.M0 Ex.D0 = Ok Ex.M1_sorted
  /\ minimum_selector_version (Ex.bundle_at Ex.M1_sorted 2) = Some "13".
Proof.
  assert (Hrun : run Ex.args_sort Ex.M0 Ex.D0 = Ok Ex.M1_sorted) by (vm_compute; reflexivity).
  split; [exact Hrun|].
  apply (set_min_version_everywhere Ex.args_sort Ex.M0 Ex.M1_sorted Ex.D0
           (default [] (bundles Ex.M1_sorted)) "13"); [reflexivity|exact Hrun|reflexivity|].
  apply (list_elem_of_lookup_2 _ 2%nat). vm_compute. reflexivity.
Defined.

(** ** What the loop leaves alone *)

Lemma apply_effect_frame (e : effect) (b : bundle) : frame_eq b (apply_effect e b).
Proof. by repeat split. Qed.

Lemma apply_effect_types (e : effect) (b : bundle) :
  good_effect e ->
  (List.map type <$> models (apply_effect e b)) = (List.map type <$> models b).
Proof.
  intros (Ht & _). cbn [apply_effect models].
  destruct (models b) as [ms|]; [|reflexivity]. simpl. f_equal.
  rewrite map_map. by apply map_ext.
Qed.

(** X2: without [--sort-by-date], in the document that lines 89 to 150
    make of the loaded manifest and that [json.dumps] is given, a bundle
    of the loaded manifest stands at its place with the ref, environment,
    runner, index, generation and overrides it had, with its minimum
    selector version unless [--set-min-version] is given, and with models
    of the same types in the same order, however many descriptors are for
    it.  The text pass of lines 152 to 156 is no part of this statement
    (it can change an [overrides] string that holds a closing brace). *)
Theorem run_frame (a : args) (M M' : manifest) (D : list found)
    (bs bs' : list bundle) (i : nat) (b : bundle) :
  arg_sort_by_date a = false ->
  run a M D = Ok M' ->
  bundles M = Some bs -> bundles M' = Some bs' ->
  bs !! i = Some b ->
  exists b',
    bs' !! i = Some b'
    /\ ref b' = ref b /\ environment b' = environment b /\ runner b' = runner b
    /\ index b' = index b /\ generation b' = generation b
    /\ overrides b' = overrides b
    /\ minimum_selector_version b'
       = or_else (arg_set_min_version a) (minimum_selector_version b)
    /\ (List.map type <$> models b') = (List.map type <$> models b).
Proof.
  intros Hsort (bs0 & st & Hbs0 & Hloop & ->)%run_inv Hbs [= <-] Hb.
  assert (bs0 = bs) as -> by congruence.
  destruct (loop_inv _ _ _ _ Hloop (inv_initial bs)) as (_ & _ & _ & news & _ & Hclosed).
  rewrite post_process_lookup, Hclosed by done.
  cbn [initial st_bundles]. rewrite lookup_app_l by by eapply lookup_lt_Some.
  rewrite Hb. simpl. eexists. split; [reflexivity|].
  pose proof (apply_effect_types (effect_at a (ref_to_bundle st) D i) b
                (good_effect_at _ _ _ _)) as Ht.
  destruct (arg_set_min_version a); by split_and!.
Qed.

Lemma run_frame_witness :
  run Ex.args0 Ex.M0 Ex.D0 = Ok Ex.M1
  /\ exists b',
       default [] (bundles Ex.M1) !! 1%nat = Some b'
       /\ ref b' = "r1" /\ environment b' = "development" /\ runner b' = "tinygrad"
       /\ index b' = Some 2 /\ generation b' = Some "11"
       /\ overrides b' = {| folder := "RAV Models"; lat := ".0"; long := ".3" |}
       /\ minimum_selector_version b' = Some "11"
       /\ (List.map type <$> models b') = Some ["policy"].
Proof.
  assert (Hrun : run Ex.args0 Ex.M0 Ex.D0 = Ok Ex.M1) by (vm_compute; reflexivity).
  split; [exact Hrun|].
  exact (run_frame Ex.args0 Ex.M0 Ex.M1 Ex.D0 [Ex.rav0; Ex.rav1]
           (default [] (bundles Ex.M1)) 1 Ex.rav1 eq_refl Hrun eq_refl eq_refl eq_refl).
Defined.

(** X3: without [--sort-by-date], a bundle of the loaded manifest whose
    ref no descriptor has, or whose ref a later bundle of the manifest has
    too (the dictionary of line 92 keeps the last bundle of a ref), is in
    the document that lines 89 to 150 make, and that [json.dumps] is
    given, the bundle that was loaded, but for [--set-min-version]: the
    loop and the post-processing write no key of it.  The text pass of
    lines 152 to 156 is no part of this statement. *)
Theorem untouched_bundle_unchanged (a : args) (M M' : manifest) (D : list found)
    (bs bs' : list bundle) (i : nat) (b : bundle) :
  arg_sort_by_date a = false ->
  run a M D = Ok M' ->
  bundles M = Some bs -> bundles M' = Some bs' ->
  bs !! i = Some b ->
  (ref b ∉ omap found_ref D
   \/ exists j b2, (i < j)%nat /\ bs !! j = Some b2 /\ ref b2 = ref b) ->
  bs' !! i = Some (min_version_of a b).
Proof.
  intros Hsort (bs0 & st & Hbs0 & Hloop & ->)%run_inv Hbs [= <-] Hb Hcase.
  assert (bs0 = bs) as -> by congruence.
  destruct (loop_inv _ _ _ _ Hloop (inv_initial bs)) as (Hinv & _ & _ & news & _ & Hclosed).
  cbn [initial st_bundles] in Hclosed.
  rewrite post_process_lookup, Hclosed by done.
  rewrite lookup_app_l by by eapply lookup_lt_Some.
  rewrite Hb. simpl. unfold min_version_of.
  rewrite effect_at_untargeted; [done|]. intros f Hf Ht. unfold targets in Ht.
  destruct (found_ref f) as [r|] eqn:Er; [|done]. simpl in Ht.
  destruct (inv_lookup _ _ _ Hinv Ht) as (bi & Hbi & Hrbi & Hlater).
  rewrite Hclosed, lookup_app_l, Hb in Hbi by by eapply lookup_lt_Some.
  injection Hbi as <-. cbn [apply_effect ref] in Hrbi.
  destruct Hcase as [Hnot|(j & b2 & Hlt & Hb2 & Hr2)].
  - apply Hnot. rewrite Hrbi. apply list_elem_of_omap. by exists f.
  - apply (Hlater j (apply_effect (effect_at a (ref_to_bundle st) D j) b2) Hlt).
    + rewrite Hclosed, lookup_app_l, Hb2 by by eapply lookup_lt_Some. done.
    + cbn [apply_effect ref]. congruence.
Qed.

Lemma untouched_bundle_unchanged_witness :
  run Ex.args0 Ex.M0 Ex.D0 = Ok Ex.M1
  /\ default [] (bundles Ex.M1) !! 0%nat = Some Ex.rav0.
Proof.
  assert (Hrun : run Ex.args0 Ex.M0 Ex.D0 = Ok Ex.M1) by (vm_compute; reflexivity).
  split; [exact Hrun|].
  apply (untouched_bundle_unchanged Ex.args0 Ex.M0 Ex.M1 Ex.D0 [Ex.rav0; Ex.rav1]
           (default [] (bundles Ex.M1)) 0 Ex.rav0 eq_refl Hrun eq_refl eq_refl eq_refl).
  left. vm_compute. intros H. repeat (apply elem_of_cons in H as [H|H]; [discriminate|]).
  by apply elem_of_nil in H.
Defined.

(** ** The bundles a run appends *)

Lemma new_refs_spec (D : list found) :
  forall known : list string,
    NoDup (new_refs known D)
    /\ forall r, r ∈ new_refs known D <-> r ∈ omap found_ref D /\ r ∉ known.
Proof.
  induction D as [|f D IH]; intros known; cbn [new_refs omap list_omap].
  - split; [constructor|]. intros r. split; [by intros ?%elem_of_nil|].
    by intros [?%elem_of_nil _].
  - destruct (found_ref f) as [r0|]; [|apply IH].
    destruct (decide (r0 ∈ known)) as [Hin|Hout].
    + destruct (IH known) as [Hnd Hmem]. split; [done|]. intros r. rewrite Hmem.
      rewrite elem_of_cons. split; [intros [? ?]; split; [by right|done]|].
      intros [[->|?] ?]; [done|by split].
    + destruct (IH (known ++ [r0])%list) as [Hnd Hmem]. split.
      * constructor; [|done]. rewrite Hmem. intros [_ Hn]. apply Hn.
        apply elem_of_app. right. by left.
      * intros r. rewrite !elem_of_cons, Hmem, elem_of_app, list_elem_of_singleton.
        destruct (decide (r = r0)) as [->|Hne].
        -- split; [intros _; split; [by left|done]|intros _; by left].
        -- split.
           ++ intros [?|[? Hn]]; [done|].
              split; [by right|]. intros ?. apply Hn. by left.
           ++ intros [[?|?] ?]; [done|]. right. split; [done|]. by intros [?|?].
Qed.

Lemma loop_new_refs (a : args) (D : list found) :
  forall st st' : state,
  loop a D st = Ok st' -> inv st ->
  ref <$> st_bundles st'
  = ((ref <$> st_bundles st) ++ new_refs (ref <$> st_bundles st) D)%list.
Proof.
  induction D as [|f D IH]; intros st st' Hloop Hinv.
  - injection Hloop as <-. cbn [new_refs]. by rewrite app_nil_r.
  - cbn [loop] in Hloop. apply rbind_Ok in Hloop as (st1 & Hstep & Hloop).
    destruct (step_inv _ _ _ _ Hstep Hinv)
      as (meta & r & mm & base & i & b & Hf & Hr & Hmm & Hcase & Hb & Hrb & Hc
          & Hbs1 & Hmp1 & Hinv1).
    assert (Hrefs1 : ref <$> st_bundles st1 = ref <$> base).
    { rewrite Hbs1. by apply (fmap_ref_insert _ _ b). }
    assert (Hfr : found_ref f = Some r) by (unfold found_ref; by rewrite Hf).
    rewrite (IH _ _ Hloop Hinv1), Hrefs1. cbn [new_refs]. rewrite Hfr.
    destruct Hcase as [[Hi ->]|(Hnone & -> & -> & _)].
    + rewrite decide_True; [done|].
      apply list_elem_of_fmap. exists b. split; [done|]. by eapply list_elem_of_lookup_2.
    + rewrite decide_False.
      * rewrite fmap_app. cbn [fmap list_fmap]. rewrite Hrb. by rewrite <- app_assoc.
      * intros (b0 & -> & (j & Hj)%list_elem_of_lookup)%list_elem_of_fmap.
        by apply (inv_lookup_None _ _ Hinv Hnone j b0).
Qed.

(** X4: the bundles of the written manifest are those of the loaded one
    and one new bundle for each ref of a descriptor that the manifest does
    not have: without [--sort-by-date] the refs of the written bundles are
    the loaded refs, in their order, followed by the new refs in the order
    in which the descriptors are found, each once; with it they are a
    permutation of that list. *)
Theorem written_refs (a : args) (M M' : manifest) (D : list found)
    (bs bs' : list bundle) :
  run a M D = Ok M' ->
  bundles M = Some bs -> bundles M' = Some bs' ->
  ref <$> bs' ≡ₚ ((ref <$> bs) ++ new_refs (ref <$> bs) D)%list
  /\ (arg_sort_by_date a = false ->
      ref <$> bs' = ((ref <$> bs) ++ new_refs (ref <$> bs) D)%list)
  /\ NoDup (new_refs (ref <$> bs) D)
  /\ (forall r, r ∈ new_refs (ref <$> bs) D <-> r ∈ omap found_ref D /\ r ∉ ref <$> bs)
  /\ length bs' = (length bs + length (new_refs (ref <$> bs) D))%nat.
Proof.
  intros (bs0 & st & Hbs0 & Hloop & ->)%run_inv Hbs [= <-].
  assert (bs0 = bs) as -> by congruence.
  pose proof (loop_new_refs _ _ _ _ Hloop (inv_initial bs)) as Hrefs.
  cbn [initial st_bundles] in Hrefs.
  assert (Hperm : ref <$> post_process a (st_bundles st)
                  ≡ₚ ((ref <$> bs) ++ new_refs (ref <$> bs) D)%list).
  { by rewrite post_process_refs, Hrefs. }
  split_and!.
  - done.
  - intros Hsort. rewrite <- Hrefs. apply list_eq. intros j.
    rewrite !list_lookup_fmap, post_process_lookup by done.
    destruct (st_bundles st !! j) as [b|]; [|done]. simpl.
    by destruct (arg_set_min_version a).
  - apply new_refs_spec.
  - apply new_refs_spec.
  - apply Permutation_length in Hperm.
    by rewrite length_fmap, length_app, length_fmap in Hperm.
Qed.

Lemma written_refs_witness :
  run Ex.args_sort Ex.M0 Ex.D0 = Ok Ex.M1_sorted
  /\ ref <$> default [] (bundles Ex.M1_sorted) ≡ₚ ["r0"; "r1"; "r2"]
  /\ length (default [] (bundles Ex.M1_sorted)) = 3%nat.
Proof.
  assert (Hrun : run Ex.args_sort Ex.M0 Ex.D0 = Ok Ex.M1_sorted) by (vm_compute; reflexivity).
  split; [exact Hrun|].
  destruct (written_refs Ex.args_sort Ex.M0 Ex.M1_sorted Ex.D0 [Ex.rav0; Ex.rav1]
              (default [] (bundles Ex.M1_sorted)) Hrun eq_refl eq_refl)
    as (Hperm & _ & _ & _ & Hlen).
  split; [exact Hperm|exact Hlen].
Defined.

Lemma frame_eq_trans (b1 b2 b3 : bundle) :
  frame_eq b1 b2 -> frame_eq b2 b3 -> frame_eq b1 b3.
Proof.
  unfold frame_eq. intros (?&?&?&?&?&?&?) (?&?&?&?&?&?&?). split_and!; congruence.
Qed.

Lemma loop_frame (a : args) (D : list found) (st st' : state) (i : nat) (b : bundle) :
  loop a D st = Ok st' -> inv st ->
  st_bundles st !! i = Some b ->
  exists b', st_bundles st' !! i = Some b' /\ frame_eq b b'
    /\ (short_name b' = short_name b \/ short_name b' = Str.upper (short_name b))
    /\ (List.map type <$> models b') = (List.map type <$> models b).
Proof.
  intros Hloop Hinv Hb.
  destruct (loop_inv _ _ _ _ Hloop Hinv) as (_ & _ & _ & news & _ & Hclosed).
  eexists. rewrite Hclosed, lookup_app_l, Hb by by eapply lookup_lt_Some.
  split_and!; [reflexivity|apply apply_effect_frame| |].
  - cbn [apply_effect short_name]. destruct (e_upper _); [by right|by left].
  - apply apply_effect_types, good_effect_at.
Qed.

(** A bundle that the loop has appended: the descriptor it was made of,
    the state it was made at, and what is left of both at the end. *)
Lemma loop_new (a : args) (D : list found) :
  forall st st' : state,
  loop a D st = Ok st' -> inv st ->
  forall j nb', st_bundles st' !! j = Some nb' -> (length (st_bundles st) <= j)%nat ->
  exists st0 f meta nb,
    f ∈ D /\ meta_file f = Json meta /\ meta_ref meta = Some (ref nb')
    /\ created a st0 f meta (ref nb') nb
    /\ length (st_bundles st0) = j /\ frame_eq nb nb'
    /\ short_name nb' = short_name nb
    /\ (List.map type <$> models nb') = (List.map type <$> models nb)
    /\ forall i b, st_bundles st0 !! i = Some b ->
         exists b', st_bundles st' !! i = Some b' /\ frame_eq b b'.
Proof.
  induction D as [|f D IH]; intros st st' Hloop Hinv j nb' Hj Hle.
  - injection Hloop as <-. apply lookup_lt_Some in Hj. lia.
  - cbn [loop] in Hloop. apply rbind_Ok in Hloop as (st1 & Hstep & Hloop).
    destruct (step_inv _ _ _ _ Hstep Hinv)
      as (meta & r & mm & base & i & b & Hf & Hr & Hmm & Hcase & Hb & Hrb & Hc
          & Hbs1 & Hmp1 & Hinv1).
    assert (Hlen1 : length (st_bundles st1) = length base).
    { by rewrite Hbs1, length_insert. }
    destruct (decide (length (st_bundles st1) <= j)%nat) as [Hge|Hlt].
    + destruct (IH _ _ Hloop Hinv1 j nb' Hj Hge)
        as (st0 & f' & meta' & nb & Hin & Hrest).
      exists st0, f', meta', nb. split; [by right|done].
    + destruct Hcase as [[Hi ->]|(Hnone & -> & -> & Hcr)]; [lia|].
      rewrite length_app in Hlen1. cbn [length] in Hlen1.
      assert (j = length (st_bundles st)) as -> by lia.
      assert (Hj1 : st_bundles st1 !! length (st_bundles st)
                    = Some (apply_effect (descriptor_effect a (meta_folder f) meta) b)).
      { rewrite Hbs1. apply list_lookup_insert_eq. rewrite length_app. simpl. lia. }
      destruct (loop_frame _ _ _ _ _ _ Hloop Hinv1 Hj1) as (b' & Hb' & Hfr & Hsn & Hty).
      assert (b' = nb') as -> by congruence.
      assert (Hfr' : frame_eq b nb').
      { eapply frame_eq_trans; [apply apply_effect_frame|exact Hfr]. }
      assert (Hrnb : ref nb' = r) by (destruct Hfr' as (-> & _); done).
      exists st, f, meta, b. split_and!; try done.
      * by left.
      * by rewrite Hrnb.
      * by rewrite Hrnb.
      * destruct Hcr as (fkey & fallback & mm' & _ & _ & _ & ->).
        cbn [apply_effect short_name descriptor_effect e_upper new_bundle] in Hsn |- *.
        unfold descriptor_short_name in *. rewrite !upper_idem in Hsn. by destruct Hsn.
      * rewrite Hty. apply apply_effect_types.
        rewrite <- (found_effect_json a f meta Hf). apply good_found_effect.
      * intros i0 b0 Hb0.
        assert (Hb01 : st_bundles st1 !! i0 = Some b0).
        { pose proof (lookup_lt_Some _ _ _ Hb0).
          rewrite Hbs1, list_lookup_insert_ne, lookup_app_l by lia. done. }
        destruct (loop_frame _ _ _ _ _ _ Hloop Hinv1 Hb01) as (b0' & ? & ? & _).
        by exists b0'.
Qed.

Lemma fold_left_max_ge (xs : list Z) (x : Z) :
  x <= fold_left Z.max xs x /\ forall y, y ∈ xs -> y <= fold_left Z.max xs x.
Proof.
  revert x. induction xs as [|x0 xs IH]; intros x; simpl.
  - split; [lia|]. by intros y ?%elem_of_nil.
  - destruct (IH (Z.max x x0)) as [H1 H2]. split; [lia|].
    intros y [->|Hy]%elem_of_cons; [lia|by apply H2].
Qed.

Lemma next_index_gt (bs : list bundle) (b : bundle) :
  b ∈ bs -> index_or_0 b < next_index bs.
Proof.
  intros Hb. unfold next_index.
  assert (Hin : index_or_0 b ∈ List.map index_or_0 bs).
  { change (List.map ?f ?l) with (f <$> l). apply list_elem_of_fmap. by exists b. }
  destruct (List.map index_or_0 bs) as [|x xs]; [by apply elem_of_nil in Hin|].
  destruct (fold_left_max_ge xs x) as [H1 H2].
  apply elem_of_cons in Hin as [->|Hin]; [lia|]. specialize (H2 _ Hin). lia.
Qed.

Lemma NoDup_above (l : list Z) (n : nat) :
  NoDup (take n l) ->
  (forall j x, l !! j = Some x -> (n <= j)%nat ->
     forall i y, (i < j)%nat -> l !! i = Some y -> y < x) ->
  NoDup l.
Proof.
  induction l as [|x l IH] using rev_ind; intros Hnd Habove; [constructor|].
  destruct (decide (n <= length l)%nat) as [Hle|Hgt].
  - apply NoDup_app. split_and!.
    + apply IH.
      * by rewrite take_app_le in Hnd.
      * intros j x0 Hj Hn i y Hi Hy.
        apply (Habove j x0) with (i := i); [|done|done|].
        -- rewrite lookup_app_l; [done|by eapply lookup_lt_Some].
        -- rewrite lookup_app_l; [done|by eapply lookup_lt_Some].
    + intros y (i & Hi)%list_elem_of_lookup ->%list_elem_of_singleton.
      pose proof (lookup_lt_Some _ _ _ Hi) as Hlt.
      assert (x < x); [|lia].
      apply (Habove (length l) x) with (i := i); [|done|exact Hlt|].
      * by rewrite lookup_app_r, Nat.sub_diag.
      * by rewrite lookup_app_l.
    + apply NoDup_singleton.
  - rewrite take_ge in Hnd; [done|]. rewrite length_app. simpl. lia.
Qed.

(** X5: without [--sort-by-date], a bundle that the run appends has an
    index, and this index is greater than the index of every bundle before
    it in the written manifest (a bundle without an index counting as 0);
    so when the indices of the loaded manifest differ from each other,
    those of the written manifest do. *)
Theorem new_index_above (a : args) (M M' : manifest) (D : list found)
    (bs bs' : list bundle) :
  arg_sort_by_date a = false ->
  run a M D = Ok M' ->
  bundles M = Some bs -> bundles M' = Some bs' ->
  (forall j nb, bs' !! j = Some nb -> (length bs <= j)%nat ->
     exists z, index nb = Some z
       /\ forall i b, (i < j)%nat -> bs' !! i = Some b -> index_or_0 b < z)
  /\ (NoDup (index_or_0 <$> bs) -> NoDup (index_or_0 <$> bs')).
Proof.
  intros Hsort (bs0 & st & Hbs0 & Hloop & ->)%run_inv Hbs [= <-].
  assert (bs0 = bs) as -> by congruence.
  assert (Hidx : forall j b', post_process a (st_bundles st) !! j = Some b' ->
            exists b1, st_bundles st !! j = Some b1 /\ index b' = index b1).
  { intros j b'. rewrite post_process_lookup by done.
    destruct (st_bundles st !! j) as [b1|]; [|done]. simpl. intros [= <-].
    exists b1. split; [done|]. by destruct (arg_set_min_version a). }
  assert (Hnew : forall j nb, post_process a (st_bundles st) !! j = Some nb ->
     (length bs <= j)%nat ->
     exists z, index nb = Some z
       /\ forall i b, (i < j)%nat -> post_process a (st_bundles st) !! i = Some b ->
            index_or_0 b < z).
  { intros j nb (nb1 & Hj & Hi)%Hidx Hle.
    destruct (loop_new _ _ _ _ Hloop (inv_initial bs) j nb1 Hj Hle)
      as (st0 & f & meta & nb0 & _ & _ & _ & Hcr & Hlen & Hfr & _ & _ & Hold).
    destruct Hcr as (fkey & fallback & mm & _ & _ & _ & ->).
    destruct Hfr as (_ & _ & _ & Hi1 & _). cbn [new_bundle index] in Hi1.
    exists (next_index (st_bundles st0)). split; [congruence|].
    intros i b Hlt (b1 & Hb1 & Hib)%Hidx.
    destruct (lookup_lt_is_Some_2 (st_bundles st0) i) as [b0 Hb0]; [lia|].
    destruct (Hold i b0 Hb0) as (b0' & Hb0' & (_ & _ & _ & Hi0 & _)).
    assert (b0' = b1) as -> by congruence.
    unfold index_or_0. rewrite Hib, Hi0.
    apply next_index_gt. by eapply list_elem_of_lookup_2. }
  split; [exact Hnew|]. intros Hnd.
  apply (NoDup_above _ (length bs)).
  - assert (take (length bs) (index_or_0 <$> post_process a (st_bundles st))
            = index_or_0 <$> bs) as ->; [|done].
    apply list_eq. intros i. rewrite list_lookup_fmap.
    destruct (decide (i < length bs)%nat) as [Hlt|Hge].
    + rewrite lookup_take_lt, list_lookup_fmap by done.
      destruct (lookup_lt_is_Some_2 bs i Hlt) as [b Hb]. rewrite Hb.
      destruct (loop_frame _ _ _ _ _ _ Hloop (inv_initial bs) Hb)
        as (b' & Hb' & (_ & _ & _ & Hi' & _) & _ & _).
      rewrite post_process_lookup, Hb' by done. simpl. f_equal.
      unfold index_or_0. rewrite <- Hi'. by destruct (arg_set_min_version a).
    + rewrite lookup_take_ge by lia. rewrite lookup_ge_None_2; [done|lia].
  - intros j x. rewrite list_lookup_fmap.
    destruct (post_process a (st_bundles st) !! j) as [nb|] eqn:Ej; [|done].
    intros [= <-] Hle i y Hlt. rewrite list_lookup_fmap.
    destruct (post_process a (st_bundles st) !! i) as [b|] eqn:Ei; [|done].
    intros [= <-]. destruct (Hnew j nb Ej Hle) as (z & Hz & Hall).
    unfold index_or_0 at 2. rewrite Hz. simpl. by apply (Hall i).
Qed.

Lemma new_index_above_witness :
  run Ex.args0 Ex.M0 Ex.D0 = Ok Ex.M1
  /\ (exists z, index (Ex.bundle_at Ex.M1 2) = Some z
        /\ forall i b, (i < 2)%nat -> default [] (bundles Ex.M1) !! i = Some b ->
             index_or_0 b < z)
  /\ NoDup (index_or_0 <$> default [] (bundles Ex.M1)).
Proof.
  assert (Hrun : run Ex.args0 Ex.M0 Ex.D0 = Ok Ex.M1) by (vm_compute; reflexivity).
  split; [exact Hrun|].
  destruct (new_index_above Ex.args0 Ex.M0 Ex.M1 Ex.D0 [Ex.rav0; Ex.rav1]
              (default [] (bundles Ex.M1)) eq_refl Hrun eq_refl eq_refl) as [Hnew Hnd].
  split.
  - apply (Hnew 2%nat (Ex.bundle_at Ex.M1 2)); [reflexivity|simpl; lia].
  - apply Hnd. vm_compute. repeat constructor; intros H;
      repeat (apply elem_of_cons in H as [H|H]; [discriminate|]); by apply elem_of_nil in H.
Defined.

Lemma post_process_content (a : args) (l : list bundle) (b' : bundle) :
  b' ∈ post_process a l ->
  exists j b,
    l !! j = Some b /\ content_eq b' b
    /\ minimum_selector_version b'
       = or_else (arg_set_min_version a) (minimum_selector_version b)
    /\ (is_Some (index b) -> is_Some (index b')).
Proof.
  unfold post_process.
  set (P := fun x b : bundle =>
    content_eq x b
    /\ minimum_selector_version x
       = or_else (arg_set_min_version a) (minimum_selector_version b)
    /\ (is_Some (index b) -> is_Some (index x))).
  assert (H1 : forall x, x ∈ match arg_set_min_version a with
                             | Some v => List.map (set_min_version v) l
                             | None => l
                             end -> exists j b, l !! j = Some b /\ P x b).
  { intros x. unfold P, content_eq. destruct (arg_set_min_version a) as [v|].
    - change (List.map ?f ?l) with (f <$> l).
      intros (b & -> & (j & Hj)%list_elem_of_lookup)%list_elem_of_fmap.
      exists j, b. by split_and!.
    - intros (j & Hj)%list_elem_of_lookup. exists j, x. by split_and!. }
  destruct (arg_sort_by_date a); [|apply H1].
  unfold sort_by_date. intros (i & x & -> & Hx)%elem_of_lookup_imap.
  apply list_elem_of_lookup_2 in Hx. rewrite sort_by_perm in Hx.
  destruct (H1 x Hx) as (j & b & Hb & HP). exists j, b. split; [done|].
  destruct HP as (Hc & ? & ?). unfold content_eq in *. unfold set_index. simpl.
  split_and!; eauto; apply Hc.
Qed.

(** X6: in the document that lines 89 to 150 make and that [json.dumps]
    is given, sorted or not, a bundle that the run has appended (its ref
    was not in the loaded manifest) has the environment "development", the
    runner "tinygrad" and an index; its overrides hold the [--lat] and
    [--long] of the command line and, as folder, the [--model-folder] that
    is given and not empty, and the folder key of line 103 for its short
    name when that name is of ASCII characters; its generation is
    [--generation] when that is given; its minimum selector version is
    [--set-min-version] when that is given, and else [--version] when that
    is given.  The text pass of lines 152 to 156 is no part of this
    statement. *)
Theorem new_bundle_fields (a : args) (M M' : manifest) (D : list found)
    (bs bs' : list bundle) (b' : bundle) :
  run a M D = Ok M' ->
  bundles M = Some bs -> bundles M' = Some bs' ->
  b' ∈ bs' -> ref b' ∉ ref <$> bs ->
  environment b' = "development" /\ runner b' = "tinygrad"
  /\ is_Some (index b')
  /\ (forall F, arg_model_folder a = Some F -> F <> "" -> folder (overrides b') = F)
  /\ (is_ascii (short_name b') = true ->
      folder_key a (short_name b') = Ok (folder (overrides b')))
  /\ lat (overrides b') = arg_lat a /\ long (overrides b') = arg_long a
  /\ (exists g, generation b' = Some g
        /\ forall g0, arg_generation a = Some g0 -> g = g0)
  /\ (exists v, minimum_selector_version b' = Some v
        /\ (forall v0, arg_set_min_version a = Some v0 -> v = v0)
        /\ (forall v1, arg_set_min_version a = None -> arg_version a = Some v1 -> v = v1)).
Proof.
  intros (bs0 & st & Hbs0 & Hloop & ->)%run_inv Hbs [= <-] Hb' Hnew.
  assert (bs0 = bs) as -> by congruence.
  apply post_process_content in Hb'
    as (j & b1 & Hj & (Hsn & _ & _ & Hr & Henv & Hrun & Hg & _ & Hov & _) & Hmsv & Hidx).
  assert (Hle : (length bs <= j)%nat).
  { destruct (decide (length bs <= j)%nat) as [|Hlt]; [done|]. exfalso.
    destruct (lookup_lt_is_Some_2 bs j) as [b0 Hb0]; [lia|].
    destruct (loop_frame _ _ _ _ _ _ Hloop (inv_initial bs) Hb0)
      as (b0' & Hb0' & (Hr0 & _) & _ & _).
    assert (b0' = b1) as -> by congruence.
    apply Hnew. rewrite Hr, Hr0. apply list_elem_of_fmap. exists b0.
    split; [done|]. by eapply list_elem_of_lookup_2. }
  destruct (loop_new _ _ _ _ Hloop (inv_initial bs) j b1 Hj Hle)
    as (st0 & f & meta & nb & _ & _ & _ & Hcr & _ & Hfr & Hsn1 & _ & _).
  destruct Hcr as (fkey & fallback & mm & Hfkey & _ & _ & ->).
  destruct Hfr as (_ & Henv1 & Hrun1 & Hidx1 & Hg1 & Hmsv1 & Hov1).
  cbn [new_bundle environment runner index generation minimum_selector_version
       overrides short_name] in *.
  rewrite Henv, Henv1, Hrun, Hrun1, Hov, Hov1, Hsn, Hsn1, Hg, Hg1, Hmsv, Hmsv1.
  cbn [folder lat long]. split_and!; try done.
  - apply Hidx. rewrite Hidx1. eauto.
  - intros F HF Hne. unfold folder_key in Hfkey. rewrite HF in Hfkey.
    destruct F as [|c F]; [done|]. by injection Hfkey as <-.
  - eexists. split; [reflexivity|]. intros g0 ->. reflexivity.
  - destruct (arg_set_min_version a) as [v0|]; cbn [or_else].
    + eexists. split; [reflexivity|]. split; [by intros ? [= ->]|done].
    + eexists. split; [reflexivity|]. split; [done|]. intros v1 _ ->. reflexivity.
Qed.

Lemma new_bundle_fields_witness :
  run Ex.args_sort Ex.M0 Ex.D0 = Ok Ex.M1_sorted
  /\ environment (Ex.bundle_at Ex.M1_sorted 1) = "development"
  /\ overrides (Ex.bundle_at Ex.M1_sorted 1)
     = {| folder := "RAV2 Models"; lat := ".0"; long := ".3" |}
  /\ minimum_selector_version (Ex.bundle_at Ex.M1_sorted 1) = Some "13".
Proof.
  assert (Hrun : run Ex.args_sort Ex.M0 Ex.D0 = Ok Ex.M1_sorted) by (vm_compute; reflexivity).
  split; [exact Hrun|].
  assert (Hin : Ex.bundle_at Ex.M1_sorted 1 ∈ default [] (bundles Ex.M1_sorted)).
  { apply (list_elem_of_lookup_2 _ 1%nat). vm_compute. reflexivity. }
  assert (Hnew : ref (Ex.bundle_at Ex.M1_sorted 1) ∉ ref <$> [Ex.rav0; Ex.rav1]).
  { vm_compute. intros H. repeat (apply elem_of_cons in H as [H|H]; [discriminate|]).
    by apply elem_of_nil in H. }
  destruct (new_bundle_fields Ex.args_sort Ex.M0 Ex.M1_sorted Ex.D0 [Ex.rav0; Ex.rav1]
              (default [] (bundles Ex.M1_sorted)) (Ex.bundle_at Ex.M1_sorted 1)
              Hrun eq_refl eq_refl Hin Hnew)
    as (Henv & _ & _ & _ & Hfolder & Hlat & Hlong & _ & (v & Hv & Hv0 & _)).
  specialize (Hfolder eq_refl).
  split; [exact Henv|]. split.
  - destruct (overrides (Ex.bundle_at Ex.M1_sorted 1)) as [fo la lo].
    cbn [folder lat long] in *. vm_compute in Hfolder.
    injection Hfolder as <-. by rewrite Hlat, Hlong.
  - rewrite Hv. f_equal. by apply Hv0.
Defined.

(** ** Exceptions of the loop *)

(** The first descriptor for a bundle of the manifest reads it as it was
    loaded: a loop that succeeds has found the two keys in it. *)
Lemma loop_needs_complete (a : args) (D : list found) :
  forall st st' : state,
  loop a D st = Ok st' -> inv st ->
  forall f r i b,
    f ∈ D -> found_ref f = Some r ->
    ref_to_bundle st !! r = Some i -> st_bundles st !! i = Some b ->
    complete b.
Proof.
  induction D as [|f0 D IH]; intros st st' Hloop Hinv f r i b Hin Hfr Hi Hb.
  - by apply elem_of_nil in Hin.
  - cbn [loop] in Hloop. apply rbind_Ok in Hloop as (st1 & Hstep & Hloop).
    destruct (step_inv _ _ _ _ Hstep Hinv)
      as (meta & r0 & mm & base & i0 & b0 & Hf & Hr & Hmm & Hcase & Hb0 & Hrb & Hc
          & Hbs1 & Hmp1 & Hinv1).
    assert (Hbase : base !! i = Some b).
    { destruct Hcase as [[_ ->]|(_ & _ & -> & _)]; [done|].
      rewrite lookup_app_l; [done|by eapply lookup_lt_Some]. }
    destruct (decide (i = i0)) as [->|Hne]; [congruence|].
    assert (Hrne : r <> r0).
    { intros ->. destruct Hcase as [[Hi0 _]|(Hnone & _)]; congruence. }
    apply elem_of_cons in Hin as [->|Hin].
    + unfold found_ref in Hfr. rewrite Hf in Hfr. congruence.
    + apply (IH _ _ Hloop Hinv1 f r i b Hin Hfr).
      * by rewrite Hmp1, lookup_insert_ne.
      * by rewrite Hbs1, list_lookup_insert_ne.
Qed.

(** X7: a descriptor for a bundle of the loaded manifest that has no
    [display_name] or no [is_20hz] makes the run fail, also when the
    descriptor carries the key: lines 134 and 135 read the bundle's value
    as the default before they look into the descriptor.  On such a bundle
    the body of the loop raises the [KeyError] of the first missing key. *)
Theorem incomplete_bundle_is_fatal (a : args) (M : manifest) (D : list found)
    (bs : list bundle) (f : found) (meta : descriptor) (r : string) (i : nat)
    (b : bundle) :
  bundles M = Some bs ->
  f ∈ D -> meta_file f = Json meta -> meta_ref meta = Some r ->
  last_index r bs = Some i -> bs !! i = Some b ->
  display_name b = None \/ is_20hz b = None ->
  (exists e, run a M D = Raise e)
  /\ (is_Some (meta_models meta) ->
      step a (initial bs) f
      = Raise (KeyError match display_name b with
                        | Some _ => "is_20hz"
                        | None => "display_name"
                        end)).
Proof.
  intros Hbs Hin Hf Hr Hlast Hb Hmiss.
  assert (Hi : ref_to_bundle (initial bs) !! r = Some i).
  { cbn [initial ref_to_bundle]. by rewrite ref_map_from_lookup, Hlast. }
  split.
  - destruct (run a M D) as [M'|e] eqn:Hrun; [|by exists e]. exfalso.
    apply run_inv in Hrun as (bs0 & st & Hbs0 & Hloop & _).
    assert (bs0 = bs) as -> by congruence.
    assert (Hfr : found_ref f = Some r) by (unfold found_ref; by rewrite Hf).
    destruct (loop_needs_complete _ _ _ _ Hloop (inv_initial bs) f r i b Hin Hfr Hi Hb)
      as [[dn Hdn] [hz Hhz]].
    destruct Hmiss; congruence.
  - intros [mm Hmm]. unfold step, add_if_new.
    rewrite Hf. cbn [json_load rbind]. rewrite Hr. cbn [getitem rbind]. rewrite Hi.
    cbn [getitem rbind fst snd]. rewrite Hi. cbn [getitem rbind].
    cbn [initial st_bundles]. rewrite Hb. cbn [getitem rbind].
    unfold update_bundle. rewrite Hmm. cbn [getitem rbind].
    destruct (update_bundle_models _ _ _ _) as [store slots'].
    destruct (display_name b) as [dn|]; cbn [getitem rbind]; [|reflexivity].
    destruct Hmiss as [|Hhz]; [done|]. by rewrite Hhz.
Qed.

Lemma incomplete_bundle_is_fatal_witness :
  meta_display_name Ex.meta1 = Some "Rav One (June 1, 2024)"
  /\ (exists e, run Ex.args0 Ex2.M_bare Ex.D0 = Raise e)
  /\ step Ex.args0 (initial [Ex2.rav_bare])
       {| meta_folder := "rav1 dir"; meta_file := Json Ex.meta1 |}
     = Raise (KeyError "display_name").
Proof.
  split; [reflexivity|].
  destruct (incomplete_bundle_is_fatal Ex.args0 Ex2.M_bare Ex.D0 [Ex2.rav_bare]
              {| meta_folder := "rav1 dir"; meta_file := Json Ex.meta1 |}
              Ex.meta1 "r1" 0 Ex2.rav_bare eq_refl) as [Hrun Hstep]; try reflexivity.
  - by left.
  - by left.
  - split; [exact Hrun|]. apply Hstep. by eexists.
Defined.

(** ** The folder key of a new bundle *)

Lemma span_spaces (ws rest : string) :
  Str.sforall Str.is_space ws = true ->
  match rest with
  | EmptyString => True
  | String c _ => Str.is_space c = false
  end ->
  Str.drop_while Str.is_space (ws ++ rest) = rest.
Proof.
  unfold Str.drop_while. intros Hws Hrest.
  induction ws as [|c ws IH].
  - rewrite string_app_nil. destruct rest as [|c rest]; [reflexivity|].
    cbn [Str.span]. by rewrite Hrest.
  - cbn [Str.sforall] in Hws. apply andb_true_iff in Hws as [Hc Hws].
    rewrite string_app_cons. cbn [Str.span]. rewrite Hc.
    specialize (IH Hws). by destruct (Str.span Str.is_space (ws ++ rest)).
Qed.

Lemma span_token (p : ascii -> bool) (t rest : string) :
  Str.sforall p t = true ->
  match rest with
  | EmptyString => True
  | String c _ => p c = false
  end ->
  Str.take_while p (t ++ rest) = t.
Proof.
  unfold Str.take_while. intros Ht Hrest.
  induction t as [|c t IH].
  - rewrite string_app_nil. destruct rest as [|c rest]; [reflexivity|].
    cbn [Str.span]. by rewrite Hrest.
  - cbn [Str.sforall] in Ht. apply andb_true_iff in Ht as [Hc Ht].
    rewrite string_app_cons. cbn [Str.span]. rewrite Hc.
    specialize (IH Ht). destruct (Str.span p (t ++ rest)). simpl in *. by rewrite IH.
Qed.

Lemma drop_while_all (p : ascii -> bool) (s : string) :
  Str.sforall p s = true -> Str.drop_while p s = "".
Proof.
  unfold Str.drop_while. induction s as [|c s IH]; [reflexivity|].
  cbn [Str.sforall Str.span]. intros [Hc Hs]%andb_true_iff. rewrite Hc.
  specialize (IH Hs). by destruct (Str.span p s).
Qed.

(** X8: the folder key of line 103.  A [--model-folder] that is not the
    empty string is the key.  Without one, or with an empty one, the key
    for a short name of ASCII characters is the first word of the short
    name (what stands between the leading white space and the next white
    space) in upper case, followed by " Models"; and when the short name
    is empty or white space of the ASCII kind only,
    [split()] is empty and the body of the loop raises [IndexError] for a
    descriptor whose ref the manifest does not have, before it looks for
    the descriptor's models. *)
Theorem folder_key_spec (a : args) (short_name : string) :
  (forall F, arg_model_folder a = Some F -> F <> "" -> folder_key a short_name = Ok F)
  /\ (arg_model_folder a = None \/ arg_model_folder a = Some "" ->
      (forall ws t rest,
         is_ascii short_name = true ->
         short_name = ws ++ t ++ rest ->
         Str.sforall Str.is_space ws = true ->
         t <> "" -> Str.sforall (fun c => negb (Str.is_space c)) t = true ->
         (rest = "" \/ exists c rest', rest = String c rest' /\ Str.is_space c = true) ->
         folder_key a short_name = Ok (Str.upper t ++ " Models"))
      /\ (Str.sforall Str.is_space short_name = true ->
          folder_key a short_name = Raise IndexError
          /\ forall st f meta r,
               meta_file f = Json meta -> meta_ref meta = Some r ->
               ref_to_bundle st !! r = None ->
               descriptor_short_name f meta = short_name ->
               step a st f = Raise IndexError)).
Proof.
  split.
  - intros F HF Hne. unfold folder_key. rewrite HF. by destruct F.
  - intros Hnone.
    assert (Hkey : folder_key a short_name
                   = match Str.first_token short_name with
                     | Some token => Ok (Str.upper token ++ " Models")
                     | None => Raise IndexError
                     end).
    { unfold folder_key. by destruct Hnone as [->| ->]. }
    split.
    + intros ws t rest _ -> Hws Hne Ht Hrest. rewrite Hkey. unfold Str.first_token.
      rewrite span_spaces; [|done|].
      * rewrite span_token; [by destruct t|done|].
        destruct Hrest as [->|(c & rest' & -> & Hc)]; [done|]. by rewrite Hc.
      * destruct t as [|c t]; [done|]. rewrite string_app_cons.
        cbn [Str.sforall] in Ht. apply andb_true_iff in Ht as [Hc _].
        by destruct (Str.is_space c).
    + intros Hall.
      assert (Hraise : folder_key a short_name = Raise IndexError).
      { rewrite Hkey. unfold Str.first_token. by rewrite drop_while_all. }
      split; [done|]. intros st f meta r Hf Hr Hnew Hsn.
      unfold step, add_if_new. rewrite Hf. cbn [json_load rbind].
      rewrite Hr. cbn [getitem rbind]. rewrite Hnew.
      fold (descriptor_short_name f meta). rewrite Hsn, Hraise. reflexivity.
Qed.

Lemma folder_key_spec_witness :
  folder_key Ex.args0 "  XYZ MODEL" = Ok "XYZ Models"
  /\ folder_key Ex.args0 "  " = Raise IndexError.
Proof.
  destruct (folder_key_spec Ex.args0 "  XYZ MODEL") as [_ H1].
  destruct (folder_key_spec Ex.args0 "  ") as [_ H2].
  split.
  - apply (H1 (or_introl eq_refl)) with (ws := "  ") (t := "XYZ") (rest := " MODEL");
      try reflexivity; [discriminate|].
    right. exists " "%char, "MODEL". by split.
  - by apply (H2 (or_introl eq_refl)).
Defined.

(** ** The models of a new bundle *)

(** A property of the models of the bundles from position [n] on that the
    making of a bundle establishes and the update keeps. *)
Lemma loop_models_inv (P : string -> list model -> Prop) (a : args) (D : list found) :
  (forall f meta r mm,
     f ∈ D -> meta_file f = Json meta -> meta_ref meta = Some r ->
     meta_models meta = Some mm ->
     let replace :=
       replace_model (recompiled_dir_name a) (meta_folder f) (List.filter not_big mm) in
     P r (List.map replace (List.filter not_big mm))
     /\ forall ms, P r ms -> P r (List.map replace ms)) ->
  forall (st st' : state) (n : nat),
  loop a D st = Ok st' -> inv st ->
  (forall j b ms, (n <= j)%nat -> st_bundles st !! j = Some b ->
     models b = Some ms -> P (ref b) ms) ->
  forall j b ms, (n <= j)%nat -> st_bundles st' !! j = Some b ->
    models b = Some ms -> P (ref b) ms.
Proof.
  induction D as [|f D IH]; intros HP st st' n Hloop Hinv Hst.
  - by injection Hloop as <-.
  - cbn [loop] in Hloop. apply rbind_Ok in Hloop as (st1 & Hstep & Hloop).
    destruct (step_inv _ _ _ _ Hstep Hinv)
      as (meta & r & mm & base & i & b & Hf & Hr & Hmm & Hcase & Hb & Hrb & Hc
          & Hbs1 & Hmp1 & Hinv1).
    assert (HPD : forall f' meta' r' mm',
              f' ∈ D -> meta_file f' = Json meta' -> meta_ref meta' = Some r' ->
              meta_models meta' = Some mm' ->
              let replace :=
                replace_model (recompiled_dir_name a) (meta_folder f')
                  (List.filter not_big mm') in
              P r' (List.map replace (List.filter not_big mm'))
              /\ forall ms, P r' ms -> P r' (List.map replace ms)).
    { intros f' meta' r' mm' Hin. apply HP. by right. }
    apply (IH HPD st1 st' n Hloop Hinv1).
    destruct (HP f meta r mm) as [Hmake Hkeep]; [by left|done..|].
    intros j bj ms Hn Hj Hms. rewrite Hbs1 in Hj.
    destruct (decide (j = i)) as [->|Hne].
    + rewrite list_lookup_insert_eq in Hj by by eapply lookup_lt_Some.
      injection Hj as <-. cbn [apply_effect ref models descriptor_effect e_replace] in Hms |- *.
      rewrite Hmm in Hms. cbn [default] in Hms. rewrite Hrb.
      destruct Hcase as [[Hi ->]|(Hnone & -> & -> & Hcr)].
      * destruct (models b) as [ms0|] eqn:Ems0; [|done]. injection Hms as <-.
        apply Hkeep. rewrite <- Hrb. by apply (Hst i b).
      * destruct Hcr as (fkey & fallback & mm' & _ & _ & Hmm' & ->).
        assert (mm' = mm) as -> by congruence.
        cbn [new_bundle models] in Hms. injection Hms as <-. exact Hmake.
    + rewrite list_lookup_insert_ne in Hj by done.
      destruct Hcase as [[Hi ->]|(Hnone & -> & -> & Hcr)]; [by apply (Hst j)|].
      apply lookup_app_Some in Hj as [Hj|[Hge Hj]]; [by apply (Hst j)|].
      apply list_lookup_singleton_Some in Hj as [Hj _]. lia.
Qed.

Lemma run_new_position (a : args) (D : list found) (bs : list bundle) (st : state)
    (j : nat) (b : bundle) :
  loop a D (initial bs) = Ok st ->
  st_bundles st !! j = Some b -> ref b ∉ ref <$> bs ->
  (length bs <= j)%nat.
Proof.
  intros Hloop Hj Hnew.
  destruct (decide (length bs <= j)%nat) as [|Hlt]; [done|]. exfalso.
  destruct (lookup_lt_is_Some_2 bs j) as [b0 Hb0]; [lia|].
  destruct (loop_frame _ _ _ _ _ _ Hloop (inv_initial bs) Hb0)
    as (b0' & Hb0' & (Hr0 & _) & _ & _).
  assert (b0' = b) as -> by congruence.
  apply Hnew. rewrite Hr0. apply list_elem_of_fmap. exists b0.
  split; [done|]. by eapply list_elem_of_lookup_2.
Qed.

Lemma find_type_member (cands : list model) (m : model) :
  m ∈ cands ->
  exists c, List.find (fun c => String.eqb (type c) (type m)) cands = Some c.
Proof.
  intros Hm. destruct (List.find _ cands) as [c|] eqn:E; [by exists c|].
  apply list_elem_of_In in Hm.
  pose proof (find_none _ _ E m Hm) as H. simpl in H.
  by rewrite String.eqb_refl in H.
Qed.

Lemma assign_urls (rd folder : string) (m c : model) :
  urls_rewritten rd folder (assign rd folder m c).
Proof. by split. Qed.

(** X9: every model of a bundle that a run appends is written with the
    URLs that [make_model_url] gives the names of its two files, in the
    folder of a descriptor of the bundle's ref: no URL of a descriptor
    gets into the manifest through a new bundle. *)
Theorem new_bundle_urls (a : args) (M M' : manifest) (D : list found)
    (bs bs' : list bundle) (b' : bundle) (ms : list model) :
  run a M D = Ok M' ->
  bundles M = Some bs -> bundles M' = Some bs' ->
  b' ∈ bs' -> ref b' ∉ ref <$> bs ->
  models b' = Some ms ->
  Forall (fun m =>
    exists f, f ∈ D /\ found_ref f = Some (ref b')
      /\ urls_rewritten (recompiled_dir_name a) (meta_folder f) m) ms.
Proof.
  intros (bs0 & st & Hbs0 & Hloop & ->)%run_inv Hbs [= <-] Hb' Hnew Hms.
  assert (bs0 = bs) as -> by congruence.
  apply post_process_elem in Hb' as (b1 & (j & Hj)%list_elem_of_lookup & Hr & _ & Hm & _).
  rewrite Hr in Hnew |- *. rewrite Hm in Hms.
  pose proof (run_new_position _ _ _ _ _ _ Hloop Hj Hnew) as Hle.
  apply (loop_models_inv
           (fun r ms => Forall (fun m =>
              exists f, f ∈ D /\ found_ref f = Some r
                /\ urls_rewritten (recompiled_dir_name a) (meta_folder f) m) ms)
           a D) with (st := initial bs) (st' := st) (n := length bs) (j := j);
    try done.
  - intros f meta r mm Hin Hf Hfr Hmm replace.
    assert (Hfound : found_ref f = Some r) by (unfold found_ref; by rewrite Hf).
    assert (Hone : forall m c,
              List.find (fun c => String.eqb (type c) (type m)) (List.filter not_big mm)
              = Some c ->
              exists f0, f0 ∈ D /\ found_ref f0 = Some r
                /\ urls_rewritten (recompiled_dir_name a) (meta_folder f0) (replace m)).
    { intros m c E. exists f. split_and!; [done..|].
      unfold replace, replace_model. rewrite E. apply assign_urls. }
    split.
    + change (List.map ?f ?l) with (f <$> l). apply Forall_fmap, Forall_forall.
      intros m Hin'. destruct (find_type_member _ _ Hin') as [c E]. by apply (Hone m c).
    + intros ms0 Hms0. change (List.map ?f ?l) with (f <$> l). apply Forall_fmap.
      eapply Forall_impl; [exact Hms0|]. intros m Hm0. cbn [compose].
      destruct (List.find (fun c => String.eqb (type c) (type m)) (List.filter not_big mm))
        as [c|] eqn:E; [by apply (Hone m c)|].
      unfold replace, replace_model. by rewrite E.
  - intros j0 b0 ms0 Hge Hj0. apply lookup_lt_Some in Hj0. cbn [initial st_bundles] in Hj0. lia.
Qed.

Lemma new_bundle_urls_witness :
  run Ex.args0 Ex.M0 Ex.D0 = Ok Ex.M1
  /\ Forall (fun m =>
       exists f, f ∈ Ex.D0 /\ found_ref f = Some "r2"
         /\ urls_rewritten "recompiled3" (meta_folder f) m)
       (default [] (models (Ex.bundle_at Ex.M1 2))).
Proof.
  assert (Hrun : run Ex.args0 Ex.M0 Ex.D0 = Ok Ex.M1) by (vm_compute; reflexivity).
  split; [exact Hrun|].
  apply (new_bundle_urls Ex.args0 Ex.M0 Ex.M1 Ex.D0 [Ex.rav0; Ex.rav1]
           (default [] (bundles Ex.M1)) (Ex.bundle_at Ex.M1 2) _ Hrun eq_refl eq_refl);
    [| |reflexivity].
  - apply (list_elem_of_lookup_2 _ 2%nat). vm_compute. reflexivity.
  - vm_compute. intros H. repeat (apply elem_of_cons in H as [H|H]; [discriminate|]).
    by apply elem_of_nil in H.
Defined.

(** X10: a bundle that a run appends has one model for each model that
    is not big of the descriptor it is made of, of the same types in the
    same order; its models of one type are equal; and each of its models
    has the files of the first model of its type that is not big in a
    descriptor of the bundle's ref, with the URLs that [make_model_url]
    gives them in that descriptor's folder.  So where a descriptor lists
    several models of a type, they all end with the files of one. *)
Theorem new_bundle_one_per_type (a : args) (M M' : manifest) (D : list found)
    (bs bs' : list bundle) (b' : bundle) :
  run a M D = Ok M' ->
  bundles M = Some bs -> bundles M' = Some bs' ->
  b' ∈ bs' -> ref b' ∉ ref <$> bs ->
  exists ms,
    models b' = Some ms
    /\ (exists f meta mm,
          f ∈ D /\ meta_file f = Json meta /\ meta_ref meta = Some (ref b')
          /\ meta_models meta = Some mm
          /\ List.map type ms = List.map type (List.filter not_big mm))
    /\ (forall m1 m2, m1 ∈ ms -> m2 ∈ ms -> type m1 = type m2 -> m1 = m2)
    /\ Forall (fun m =>
         exists f meta mm c,
           f ∈ D /\ meta_file f = Json meta /\ meta_ref meta = Some (ref b')
           /\ meta_models meta = Some mm
           /\ List.find (fun c => String.eqb (type c) (type m)) (List.filter not_big mm)
              = Some c
           /\ m = assign (recompiled_dir_name a) (meta_folder f) m c) ms.
Proof.
  intros (bs0 & st & Hbs0 & Hloop & ->)%run_inv Hbs [= <-] Hb' Hnew.
  assert (bs0 = bs) as -> by congruence.
  apply post_process_elem in Hb' as (b1 & (j & Hj)%list_elem_of_lookup & Hr & _ & Hm & _).
  rewrite Hr in Hnew |- *. rewrite Hm.
  pose proof (run_new_position _ _ _ _ _ _ Hloop Hj Hnew) as Hle.
  destruct (loop_new _ _ _ _ Hloop (inv_initial bs) j b1 Hj Hle)
    as (st0 & f & meta & nb & Hin & Hf & Hfr & Hcr & _ & _ & _ & Hty & _).
  destruct Hcr as (fkey & fallback & mm & _ & _ & Hmm & ->).
  cbn [new_bundle models] in Hty.
  destruct (models b1) as [ms|] eqn:Ems; [|done]. injection Hty as Hty.
  assert (Hinit : forall j0 b0,
            (length bs <= j0)%nat -> st_bundles (initial bs) !! j0 = Some b0 -> False).
  { intros j0 b0 Hge Hj0. apply lookup_lt_Some in Hj0.
    cbn [initial st_bundles] in Hj0. lia. }
  exists ms. split_and!; [done|by exists f, meta, mm| |].
  2:{ apply (loop_models_inv
           (fun r ms => Forall (fun m =>
              exists f meta mm c,
                f ∈ D /\ meta_file f = Json meta /\ meta_ref meta = Some r
                /\ meta_models meta = Some mm
                /\ List.find (fun c => String.eqb (type c) (type m))
                     (List.filter not_big mm) = Some c
                /\ m = assign (recompiled_dir_name a) (meta_folder f) m c) ms)
           a D) with (st := initial bs) (st' := st) (n := length bs) (j := j) (b := b1);
        try done; [|intros j0 b0 ms0 Hge Hj0; by destruct (Hinit j0 b0)].
      intros f0 meta0 r0 mm0 Hin0 Hf0 Hr0 Hmm0 replace.
      assert (Hone : forall m c,
                List.find (fun c => String.eqb (type c) (type m)) (List.filter not_big mm0)
                = Some c ->
                exists f meta mm c,
                  f ∈ D /\ meta_file f = Json meta /\ meta_ref meta = Some r0
                  /\ meta_models meta = Some mm
                  /\ List.find (fun c => String.eqb (type c) (type (replace m)))
                       (List.filter not_big mm) = Some c
                  /\ replace m
                     = assign (recompiled_dir_name a) (meta_folder f) (replace m) c).
      { intros m c E. exists f0, meta0, mm0, c. split_and!; try done.
        - unfold replace. by rewrite replace_model_type.
        - unfold replace, replace_model. by rewrite E. }
      split.
      - change (List.map ?f ?l) with (f <$> l). apply Forall_fmap, Forall_forall.
        intros m Hm'. destruct (find_type_member _ _ Hm') as [c E]. by apply (Hone m c).
      - intros ms0 Hms0. change (List.map ?f ?l) with (f <$> l). apply Forall_fmap.
        eapply Forall_impl; [exact Hms0|]. intros m Hm0. cbn [compose].
        destruct (List.find (fun c => String.eqb (type c) (type m)) (List.filter not_big mm0))
          as [c|] eqn:E; [by apply (Hone m c)|].
        unfold replace, replace_model. by rewrite E. }
  apply (loop_models_inv
           (fun _ ms => forall m1 m2, m1 ∈ ms -> m2 ∈ ms -> type m1 = type m2 -> m1 = m2)
           a D) with (st := initial bs) (st' := st) (n := length bs) (j := j) (b := b1);
    try done.
  - intros f0 meta0 r0 mm0 _ _ _ _ replace.
    assert (Hsame : forall x y cx,
              type x = type y ->
              List.find (fun c => String.eqb (type c) (type x))
                (List.filter not_big mm0) = Some cx ->
              replace x = replace y).
    { intros x y cx Hxy E. unfold replace, replace_model. rewrite <- Hxy, E.
      unfold assign. by rewrite Hxy. }
    split.
    + intros m1 m2 (x & -> & Hx)%list_elem_of_fmap (y & -> & Hy)%list_elem_of_fmap.
      unfold replace at 1 2. rewrite !replace_model_type. intros Hxy.
      destruct (find_type_member _ _ Hx) as [cx E]. by apply (Hsame x y cx).
    + intros ms0 Hms0 m1 m2 (x & -> & Hx)%list_elem_of_fmap (y & -> & Hy)%list_elem_of_fmap.
      unfold replace at 1 2. rewrite !replace_model_type. intros Hxy.
      by rewrite (Hms0 x y Hx Hy Hxy).
  - intros j0 b0 ms0 Hge Hj0. apply lookup_lt_Some in Hj0. cbn [initial st_bundles] in Hj0. lia.
Qed.

Lemma new_bundle_one_per_type_witness :
  run Ex.args0 Ex.M0 Ex.D0 = Ok Ex.M1
  /\ exists ms,
       models (Ex.bundle_at Ex.M1 2) = Some ms
       /\ List.map type ms = ["vision"; "vision"]
       /\ List.map (fun m => file_name (artifact m)) ms = ["vision a.pkl"; "vision a.pkl"]
       /\ forall m1 m2, m1 ∈ ms -> m2 ∈ ms -> type m1 = type m2 -> m1 = m2.
Proof.
  assert (Hrun : run Ex.args0 Ex.M0 Ex.D0 = Ok Ex.M1) by (vm_compute; reflexivity).
  split; [exact Hrun|].
  destruct (new_bundle_one_per_type Ex.args0 Ex.M0 Ex.M1 Ex.D0 [Ex.rav0; Ex.rav1]
              (default [] (bundles Ex.M1)) (Ex.bundle_at Ex.M1 2) Hrun eq_refl eq_refl)
    as (ms & Hms & _ & Heq & _).
  - apply (list_elem_of_lookup_2 _ 2%nat). vm_compute. reflexivity.
  - vm_compute. intros H. repeat (apply elem_of_cons in H as [H|H]; [discriminate|]).
    by apply elem_of_nil in H.
  - exists ms. split; [exact Hms|].
    vm_compute in Hms. injection Hms as Hms.
    split; [by rewrite <- Hms|]. split; [by rewrite <- Hms|exact Heq].
Defined.

(** ** Several descriptors of one ref *)

Lemma effect_at_app (a : args) (mp : gmap string nat) (D1 D2 : list found)
    (i : nat) (b : bundle) :
  apply_effect (effect_at a mp (D1 ++ D2) i) b
  = apply_effect (effect_at a mp D2 i) (apply_effect (effect_at a mp D1 i) b).
Proof.
  revert b. induction D1 as [|f D1 IH]; intros b.
  - cbn [app effect_at]. by rewrite apply_unit_effect.
  - cbn [app effect_at]. by rewrite !apply_compose_effect, IH.
Qed.

(** X11: when the refs of the loaded manifest differ from each other and
    several descriptors have one ref, the last of them decides: the bundle
    of this ref is written with the [display_name], [is_20hz] and
    [build_time] that the last descriptor carries, and each of its models
    whose type a model of that descriptor has that is not big, with the
    files of the first such model and URLs into that descriptor's
    folder. *)
Theorem last_descriptor_wins (a : args) (M M' : manifest) (D1 D2 : list found)
    (f : found) (meta : descriptor) (r : string) (mm : list model)
    (bs bs' : list bundle) (b' : bundle) :
  run a M (D1 ++ f :: D2) = Ok M' ->
  bundles M = Some bs -> bundles M' = Some bs' ->
  NoDup (ref <$> bs) ->
  meta_file f = Json meta -> meta_ref meta = Some r -> meta_models meta = Some mm ->
  (forall f2, f2 ∈ D2 -> found_ref f2 <> Some r) ->
  b' ∈ bs' -> ref b' = r ->
  (forall d, meta_display_name meta = Some d -> display_name b' = Some d)
  /\ (forall h, meta_is_20hz meta = Some h -> is_20hz b' = Some h)
  /\ (forall t, meta_build_time meta = Some t -> build_time b' = Some t)
  /\ forall ms, models b' = Some ms ->
       Forall (fun m =>
         forall c,
           List.find (fun c => String.eqb (type c) (type m)) (List.filter not_big mm)
           = Some c ->
           m = assign (recompiled_dir_name a) (meta_folder f) m c) ms.
Proof.
  intros (bs0 & st & Hbs0 & Hloop & ->)%run_inv Hbs [= <-] Hnd Hf Hr Hmm Hlast Hb' Hrb'.
  assert (bs0 = bs) as -> by congruence.
  destruct (loop_inv _ _ _ _ Hloop (inv_initial bs))
    as (Hinv & _ & Hready & news & Hfresh & Hclosed).
  destruct (loop_refs _ _ _ _ Hloop) as (news' & Hfresh' & Hrefs & _).
  assert (Hnd' : NoDup (ref <$> st_bundles st)).
  { rewrite Hrefs. by eapply fresh_news_NoDup. }
  apply post_process_content in Hb'
    as (j & b1 & Hj & (_ & Hdn & Hhz & Hr1 & _ & _ & _ & Hbt & _ & Hms) & _).
  rewrite Hdn, Hhz, Hbt, Hms. rewrite Hr1 in Hrb'. clear Hdn Hhz Hbt Hms Hr1.
  rewrite Forall_forall in Hready.
  destruct (Hready f) as (meta' & r' & mm' & i & bi & Hf' & Hr' & _ & Hi & Hbi & _).
  { apply elem_of_app. right. by left. }
  assert (meta' = meta) as -> by congruence. assert (r' = r) as -> by congruence.
  destruct (inv_lookup _ _ _ Hinv Hi) as (bi' & Hbi' & Hrbi & _).
  assert (i = j) as ->.
  { apply (NoDup_lookup _ _ _ r Hnd'); rewrite list_lookup_fmap.
    - rewrite Hbi'. simpl. by rewrite Hrbi.
    - rewrite Hj. simpl. by rewrite Hrb'. }
  pose proof Hj as Hj'. rewrite Hclosed in Hj'.
  destruct ((st_bundles (initial bs) ++ news)%list !! j) as [b0|]; [|done].
  injection Hj' as Hb1. rewrite effect_at_app in Hb1. cbn [effect_at] in Hb1.
  rewrite decide_True in Hb1 by by eapply targets_found.
  rewrite apply_compose_effect, (found_effect_json a f meta Hf) in Hb1.
  rewrite effect_at_untargeted in Hb1.
  2:{ intros f2 Hf2 Ht. unfold targets in Ht.
      destruct (found_ref f2) as [r2|] eqn:E2; [|done]. simpl in Ht.
      destruct (inv_lookup _ _ _ Hinv Ht) as (b2 & Hb2 & Hrb2 & _).
      apply (Hlast f2 Hf2). rewrite E2. f_equal. congruence. }
  rewrite <- Hb1.
  cbn [apply_effect descriptor_effect display_name is_20hz build_time models
       e_display_name e_is_20hz e_build_time e_replace].
  rewrite Hmm. cbn [default]. split_and!.
  - by intros d ->.
  - by intros h ->.
  - by intros t ->.
  - intros ms Hms.
    destruct (models _) as [ms0|]; [|done]. injection Hms as <-.
    change (List.map ?f ?l) with (f <$> l). apply Forall_fmap, Forall_forall.
    intros m _ c. cbn [compose]. rewrite replace_model_type. intros E.
    unfold replace_model. by rewrite E.
Qed.

Lemma last_descriptor_wins_witness :
  run Ex.args0 Ex.M0 Ex2.D_twice = Ok Ex2.M1_twice
  /\ Ex2.D_twice = ([Ex2.found1; Ex2.found2] ++ Ex2.found1b :: [])%list
  /\ found_ref Ex2.found1 = Some "r1" /\ found_ref Ex2.found1b = Some "r1"
  /\ meta_display_name Ex.meta1 = Some "Rav One (June 1, 2024)"
  /\ ref (Ex.bundle_at Ex2.M1_twice 1) = "r1"
  /\ display_name (Ex.bundle_at Ex2.M1_twice 1) = Some "Rav One (July 2, 2024)"
  /\ is_20hz (Ex.bundle_at Ex2.M1_twice 1) = Some false
  /\ build_time (Ex.bundle_at Ex2.M1_twice 1) = Some "t2"
  /\ exists m,
       models (Ex.bundle_at Ex2.M1_twice 1) = Some [m]
       /\ m = assign "recompiled3" "rav1 v2" m
               (Ex.a_model "policy" "policy2.pkl" "policy2_meta.pkl").
Proof.
  assert (Hrun : run Ex.args0 Ex.M0 Ex2.D_twice = Ok Ex2.M1_twice)
    by (vm_compute; reflexivity).
  split; [exact Hrun|]. do 5 (split; [reflexivity|]).
  destruct (last_descriptor_wins Ex.args0 Ex.M0 Ex2.M1_twice
              [Ex2.found1; Ex2.found2] [] Ex2.found1b
              Ex2.meta1b "r1" (default [] (meta_models Ex2.meta1b))
              [Ex.rav0; Ex.rav1] (default [] (bundles Ex2.M1_twice))
              (Ex.bundle_at Ex2.M1_twice 1)
              Hrun eq_refl eq_refl) as (Hdn & Hhz & Hbt & Hms); try reflexivity.
  - vm_compute. repeat constructor; intros H;
      repeat (apply elem_of_cons in H as [H|H]; [discriminate|]); by apply elem_of_nil in H.
  - by intros f2 H%elem_of_nil.
  - apply (list_elem_of_lookup_2 _ 1%nat). vm_compute. reflexivity.
  - split; [by apply Hdn|]. split; [by apply Hhz|]. split; [by apply Hbt|].
    destruct (models (Ex.bundle_at Ex2.M1_twice 1)) as [[|m [|m' ms]]|] eqn:E;
      try (vm_compute in E; discriminate).
    exists m. split; [reflexivity|].
    specialize (Hms [m] eq_refl). apply Forall_cons in Hms as [Hm _].
    apply Hm. vm_compute in E. injection E as <-. reflexivity.
Defined.

(** ** URLs of different files *)

Lemma string_app_inv_head (s t1 t2 : string) : s ++ t1 = s ++ t2 -> t1 = t2.
Proof.
  induction s as [|c s IH]; [done|]. rewrite !string_app_cons. intros [= H]. by apply IH.
Qed.

Lemma split_at_first (c : ascii) (s1 s2 t1 t2 : string) :
  Str.mem c s1 = false -> Str.mem c s2 = false ->
  s1 ++ String c t1 = s2 ++ String c t2 ->
  s1 = s2 /\ t1 = t2.
Proof.
  revert s2. induction s1 as [|a s1 IH]; intros [|b s2] H1 H2;
    rewrite ?string_app_cons, ?string_app_nil.
  - by intros [= ->].
  - intros [= <- _]. cbn [Str.mem] in H2. by rewrite Ascii.eqb_refl in H2.
  - intros [= -> _]. cbn [Str.mem] in H1. by rewrite Ascii.eqb_refl in H1.
  - intros [= <- H]. cbn [Str.mem] in H1, H2.
    apply orb_false_iff in H1 as [_ H1]. apply orb_false_iff in H2 as [_ H2].
    destruct (IH s2 H1 H2 H) as [-> ->]. done.
Qed.

Lemma quote_char_slash (c : ascii) :
  Ascii.eqb "/" c = false -> Str.mem "/" (quote_char c) = false.
Proof. each_ascii c. Qed.

Lemma quote_slash (s : string) :
  Str.mem "/" s = false -> Str.mem "/" (quote s) = false.
Proof.
  unfold quote. induction s as [|c s IH]; [done|].
  cbn [Str.mem Str.concat_map]. intros [Hc Hs]%orb_false_iff.
  by rewrite mem_app, quote_char_slash, IH.
Qed.

(** X12: in one recompiled directory, two files get the same URL only
    when they have the same name in the same folder, as long as the folder
    names hold no slash (a folder is the last component of a path):
    [make_model_url] loses nothing of the folder and the file name. *)
Theorem make_model_url_injective (recompiled_dir folder1 file1 folder2 file2 : string) :
  Str.mem "/" folder1 = false -> Str.mem "/" folder2 = false ->
  make_model_url recompiled_dir folder1 file1 = make_model_url recompiled_dir folder2 file2 ->
  folder1 = folder2 /\ file1 = file2.
Proof.
  intros H1 H2. unfold make_model_url. cbv zeta.
  intros H%string_app_inv_head.
  change ("/" ++ ?s) with (String "/" s) in H.
  apply split_at_first in H as [Hf Hn]; [|by apply quote_slash..].
  split.
  - by rewrite <- (percent_decode_quote folder1), Hf, percent_decode_quote.
  - by rewrite <- (percent_decode_quote file1), Hn, percent_decode_quote.
Qed.

Lemma make_model_url_injective_witness :
  make_model_url "recompiled3" "My Model" "a b.onnx"
  = make_model_url "recompiled3" "My Model" "a b.onnx"
  /\ "My Model" = "My Model" /\ "a b.onnx" = "a b.onnx".
Proof.
  split; [reflexivity|].
  apply (make_model_url_injective "recompiled3" "My Model" "a b.onnx" "My Model" "a b.onnx");
    reflexivity.
Defined.

(** ** Dates that are none *)

Lemma match_year_end_range (s : string) (y : Z) :
  match_year_end s = Some y -> 0 <= y <= 9999.
Proof.
  unfold match_year_end.
  destruct s as [|a [|b [|c [|d [|]]]]]; try done.
  destruct (Str.is_digit a) eqn:Ea; [|done]. destruct (Str.is_digit b) eqn:Eb; [|done].
  destruct (Str.is_digit c) eqn:Ec; [|done]. destruct (Str.is_digit d) eqn:Ed; [|done].
  intros [= <-].
  apply digit_val_range in Ea, Eb, Ec, Ed. lia.
Qed.

Lemma strptime_year (s : string) (d : datetime) :
  strptime s = Some d -> year d <= 9999.
Proof.
  unfold strptime.
  destruct (match_month month_names 1 s) as [[m r1]|]; [|done].
  destruct (skip_spaces r1) as [r2|]; [|done].
  destruct (match_day_comma r2) as [[dd r3]|]; [|done].
  destruct (skip_spaces r3) as [r4|]; [|done].
  destruct (match_year_end r4) as [y|] eqn:Ey; [|done].
  destruct ((1 <=? y) && (dd <=? days_in_month y m)); [|done].
  intros [= <-]. apply match_year_end_range in Ey. simpl. lia.
Qed.

(** X13: [parse_date] gives a date of the calendar whatever the text is;
    a text that names, in the format "Month Day, Year", a day that the
    month does not have (February 30, or February 29 of a year that is
    not a leap year) or the year 0000 is read as [datetime.min], like a
    text that is no date: with [--sort-by-date] such a bundle comes
    first. *)
Theorem parse_date_calendar :
  (forall s, valid_date (parse_date s))
  /\ (forall pad d,
        0 <= year d <= 9999 -> 1 <= month d <= 12 -> 1 <= day d <= 31 ->
        ~ valid_date d ->
        strptime (render_date pad d) = None
        /\ parse_date (render_date pad d) = datetime_min).
Proof.
  split.
  - intros s. unfold parse_date. destruct (strptime s) as [d|] eqn:E.
    + pose proof (strptime_range _ _ E) as (? & ? & ?).
      pose proof (strptime_year _ _ E). unfold valid_date. lia.
    + unfold valid_date, datetime_min. simpl. unfold days_in_month. simpl. lia.
  - intros pad [y m dd]. cbn [year month day]. intros Hy Hm Hdd Hbad.
    assert (Hnone : strptime (render_date pad {| year := y; month := m; day := dd |}) = None).
    { unfold strptime, render_date. cbn [year month day].
      rewrite match_month_name by done.
      destruct (match_day_comma_render pad dd (" " ++ render_year y) Hdd)
        as (Hday & c & r & Hc & Hsp).
      change (" " ++ render_day pad dd ++ ", " ++ render_year y)
        with (String " " (render_day pad dd ++ "," ++ " " ++ render_year y)).
      rewrite Hc, (skip_spaces_one c r Hsp), <- Hc, Hday.
      destruct (match_year_end_render y) as (Hyear & c' & r' & Hc' & Hsp'); [lia|].
      change (" " ++ render_year y) with (String " " (render_year y)).
      rewrite Hc', (skip_spaces_one c' r' Hsp'), <- Hc', Hyear.
      destruct ((1 <=? y) && (dd <=? days_in_month y m)) eqn:E; [|done].
      exfalso. apply Hbad. unfold valid_date. cbn [year month day]. lia. }
    split; [done|]. unfold parse_date. by rewrite Hnone.
Qed.

Lemma parse_date_calendar_witness :
  strptime "February 30, 2024" = None
  /\ parse_date "February 30, 2024" = datetime_min
  /\ parse_date "February 29, 2024" = {| year := 2024; month := 2; day := 29 |}.
Proof.
  destruct parse_date_calendar as [_ H].
  destruct (H false {| year := 2024; month := 2; day := 30 |}) as [H1 H2];
    [cbn; lia..| |].
  - intros (_ & _ & Hd). vm_compute in Hd. destruct Hd as [_ Hd]. by apply Hd.
  - split; [exact H1|]. split; [exact H2|]. reflexivity.
Defined.

(** ** The text pass over the written JSON *)

Lemma sfilter_app (p : ascii -> bool) (s t : string) :
  sfilter p (s ++ t) = sfilter p s ++ sfilter p t.
Proof.
  induction s as [|c s IH]; [reflexivity|].
  rewrite string_app_cons. cbn [sfilter]. destruct (p c); [|exact IH].
  by rewrite string_app_cons, IH.
Qed.

Lemma sfilter_none (keep p : ascii -> bool) (s : string) :
  (forall c, p c = true -> keep c = false) ->
  Str.sforall p s = true -> sfilter keep s = "".
Proof.
  intros Hp. induction s as [|c s IH]; [done|]. cbn [Str.sforall sfilter].
  intros [Hc Hs]%andb_true_iff. rewrite (Hp c Hc). by apply IH.
Qed.

Lemma sfilter_rstrip (keep p : ascii -> bool) (s : string) :
  (forall c, p c = true -> keep c = false) ->
  sfilter keep (rstrip p s) = sfilter keep s.
Proof.
  intros Hp. induction s as [|c s IH]; [reflexivity|]. cbn [rstrip sfilter].
  destruct (rstrip p s) as [|d r].
  - cbn [sfilter] in IH. rewrite <- IH. destruct (p c) eqn:Ec.
    + by rewrite (Hp c Ec).
    + reflexivity.
  - cbn [sfilter] in *. by rewrite IH.
Qed.

Lemma sfilter_drop_while (keep p : ascii -> bool) (s : string) :
  (forall c, p c = true -> keep c = false) ->
  sfilter keep (Str.drop_while p s) = sfilter keep s.
Proof.
  intros Hp. rewrite (span_app p s) at 2. rewrite sfilter_app.
  by rewrite (sfilter_none keep p _ Hp (take_while_all p s)).
Qed.

Lemma space_not_ink (c : ascii) : Str.is_space c = true -> is_ink c = false.
Proof. unfold is_ink. by intros ->. Qed.

Lemma comma_not_ink (c : ascii) : is_comma c = true -> is_ink c = false.
Proof. unfold is_ink. intros ->. apply andb_false_r. Qed.

Lemma linebreak_space (c : ascii) : is_linebreak c = true -> Str.is_space c = true.
Proof. each_ascii c. Qed.

Lemma sfilter_strip (s : string) : sfilter is_ink (strip s) = sfilter is_ink s.
Proof.
  unfold strip.
  by rewrite (sfilter_rstrip _ _ _ space_not_ink), (sfilter_drop_while _ _ _ space_not_ink).
Qed.

Lemma join_cons (x : string) (l : list string) : join "" (x :: l) = x ++ join "" l.
Proof.
  destruct l as [|y l]; cbn [join]; [|reflexivity].
  induction x as [|c x IH]; [reflexivity|]. by rewrite string_app_cons, <- IH.
Qed.

Lemma sfilter_join (keep : ascii -> bool) (sep : string) (l : list string) :
  sfilter keep sep = "" ->
  sfilter keep (join sep l) = join "" (List.map (sfilter keep) l).
Proof.
  intros Hsep. induction l as [|x l IH]; [reflexivity|].
  destruct l as [|y l]; [reflexivity|].
  change (join sep (x :: y :: l)) with (x ++ sep ++ join sep (y :: l)).
  rewrite !sfilter_app, Hsep, IH, string_app_nil.
  change (List.map (sfilter keep) (x :: y :: l))
    with (sfilter keep x :: List.map (sfilter keep) (y :: l)).
  by rewrite join_cons.
Qed.

Lemma string_ind2 (P : string -> Prop) :
  P "" -> (forall c, P (String c "")) ->
  (forall c d s, P s -> P (String d s) -> P (String c (String d s))) ->
  forall s, P s.
Proof.
  intros H0 H1 H2 s.
  assert (H : P s /\ forall c, P (String c s)); [|by destruct H].
  induction s as [|d s [IHs IHc]]; [by split|].
  split; [apply IHc|]. intros c. by apply H2.
Qed.

Lemma splitlines_cons (c : ascii) (s' : string) :
  splitlines (String c s')
  = if is_linebreak c then
      match s' with
      | String d s'' =>
          if Ascii.eqb c "013" && Ascii.eqb d "010" then "" :: splitlines s''
          else "" :: splitlines s'
      | EmptyString => [""]
      end
    else
      match splitlines s' with
      | [] => [String c ""]
      | line :: lines => String c line :: lines
      end.
Proof. reflexivity. Qed.

Lemma splitlines_ink (s : string) :
  join "" (List.map (sfilter is_ink) (splitlines s)) = sfilter is_ink s.
Proof.
  assert (Hline : forall c s',
    join "" (List.map (sfilter is_ink) (splitlines s')) = sfilter is_ink s' ->
    join "" (List.map (sfilter is_ink)
               match splitlines s' with
               | [] => [String c ""]
               | line :: lines => String c line :: lines
               end) = sfilter is_ink (String c s')).
  { intros c s' IH. cbn [sfilter]. rewrite <- IH.
    destruct (splitlines s') as [|line lines]; cbn [List.map].
    - cbn [join sfilter]. by destruct (is_ink c).
    - rewrite !join_cons. cbn [sfilter]. by destruct (is_ink c). }
  induction s as [|c|c d s IH1 IH2] using string_ind2.
  - reflexivity.
  - cbn [splitlines]. destruct (is_linebreak c) eqn:Ec.
    + cbn [List.map join sfilter].
      by rewrite (space_not_ink c (linebreak_space c Ec)).
    + by apply (Hline c "").
  - rewrite splitlines_cons. destruct (is_linebreak c) eqn:Ec;
      [|by apply (Hline c (String d s))].
    pose proof (space_not_ink c (linebreak_space c Ec)) as Hc.
    destruct (Ascii.eqb c "013" && Ascii.eqb d "010") eqn:Ecr.
    + apply andb_true_iff in Ecr as [_ ->%Ascii.eqb_eq].
      cbn [List.map]. rewrite join_cons, IH1. cbn [sfilter]. rewrite Hc.
      reflexivity.
    + cbn [List.map]. rewrite join_cons, IH2.
      cbn [sfilter]. by rewrite Hc.
Qed.

Lemma items_ink (group2 : string) :
  sfilter is_ink (join ", " (items_of group2)) = sfilter is_ink group2.
Proof.
  rewrite sfilter_join by reflexivity. rewrite <- splitlines_ink. unfold items_of.
  induction (splitlines group2) as [|line lines IH]; [reflexivity|].
  cbn [List.filter List.map]. rewrite join_cons, <- IH.
  destruct (String.eqb (strip line) "") eqn:E; cbn [negb List.map].
  - apply String.eqb_eq in E. rewrite <- (sfilter_strip line), E. reflexivity.
  - rewrite join_cons. f_equal.
    by rewrite (sfilter_rstrip _ _ _ comma_not_ink), sfilter_strip.
Qed.

Lemma strip_prefix_Some (p s r : string) : strip_prefix p s = Some r -> s = p ++ r.
Proof.
  revert s. induction p as [|a p IH]; intros [|b s]; cbn [strip_prefix]; try done.
  - intros [= <-]. reflexivity.
  - intros [= <-]. reflexivity.
  - destruct (Ascii.eqb_spec a b) as [->|]; [|done].
    intros H%IH. by rewrite string_app_cons, H.
Qed.

Lemma strip_prefix_app (p s : string) : strip_prefix p (p ++ s) = Some s.
Proof.
  induction p as [|a p IH]; [by destruct s|].
  rewrite string_app_cons. cbn [strip_prefix]. by rewrite Ascii.eqb_refl.
Qed.

(** The shape of a text at whose start the pattern matches. *)
Lemma match_overrides_Some (s group2 rest : string) :
  match_overrides s = Some (group2, rest) ->
  exists ws,
    s = overrides_key ++ "{" ++ ws ++ group2 ++ "}" ++ rest
    /\ Str.sforall Str.is_space ws = true
    /\ Str.mem "}" group2 = false
    /\ match group2 with
       | EmptyString => True
       | String c _ => Str.is_space c = false
       end.
Proof.
  unfold match_overrides.
  destruct (strip_prefix overrides_key s) as [[|c r2]|] eqn:Ep; try done.
  apply strip_prefix_Some in Ep.
  destruct (Ascii.eqb_spec c "{") as [->|]; [|done].
  pose proof (span_app Str.is_space r2) as Hr2.
  pose proof (take_while_all Str.is_space r2) as Hws.
  pose proof (drop_while_head Str.is_space r2) as Hhead.
  set (r3 := Str.drop_while Str.is_space r2) in *.
  pose proof (span_app (fun c => negb (Ascii.eqb c "}")) r3) as Hr3.
  pose proof (take_while_all (fun c => negb (Ascii.eqb c "}")) r3) as Hg.
  pose proof (drop_while_head (fun c => negb (Ascii.eqb c "}")) r3) as Hclose.
  unfold Str.take_while, Str.drop_while in Hr3, Hg, Hclose.
  destruct (Str.span (fun c => negb (Ascii.eqb c "}")) r3) as [g r4].
  cbn [fst snd] in *. destruct r4 as [|x rest']; [done|]. intros [= <- <-].
  apply negb_false_iff, Ascii.eqb_eq in Hclose. subst x.
  exists (Str.take_while Str.is_space r2). split_and!.
  - rewrite Ep. f_equal. change ("{" ++ ?t) with (String "{" t). f_equal.
    rewrite Hr2 at 1. f_equal. exact Hr3.
  - exact Hws.
  - clear -Hg. induction g as [|c g IH]; [done|]. cbn [Str.sforall Str.mem] in *.
    apply andb_true_iff in Hg as [Hc Hg]. rewrite (IH Hg), orb_false_r.
    rewrite Ascii.eqb_sym. by apply negb_true_iff.
  - destruct g as [|c g]; [done|]. rewrite Hr3 in Hhead. by rewrite string_app_cons in Hhead.
Qed.

Lemma sub_overrides_skip (m rest : string) :
  sub_overrides (String.length m) (m ++ rest) = sub_overrides 0 rest.
Proof.
  induction m as [|c m IH]; [reflexivity|].
  rewrite string_app_cons. exact IH.
Qed.

(** [re.sub] from the first character on: a match is replaced and the
    search goes on behind it. *)
Lemma collapse_overrides_unfold (s : string) :
  collapse_overrides s
  = match match_overrides s with
    | Some (group2, rest) => replacer group2 ++ collapse_overrides rest
    | None =>
        match s with
        | EmptyString => EmptyString
        | String c s' => String c (collapse_overrides s')
        end
    end.
Proof.
  unfold collapse_overrides. destruct s as [|c s']; [reflexivity|].
  cbn [sub_overrides].
  destruct (match_overrides (String c s')) as [[group2 rest]|] eqn:E; [|reflexivity].
  f_equal. apply match_overrides_Some in E as (ws & Hs & _).
  unfold overrides_key in Hs. rewrite string_app_cons in Hs. injection Hs as _ Hs.
  rewrite <- !string_app_assoc in Hs. rewrite Hs, string_app_length, Nat.add_sub.
  apply sub_overrides_skip.
Qed.

Lemma match_overrides_shorter (s group2 rest : string) :
  match_overrides s = Some (group2, rest) ->
  (String.length rest < String.length s)%nat.
Proof.
  intros (ws & -> & _)%match_overrides_Some.
  rewrite !string_app_length. simpl. lia.
Qed.

(** The white space and the commas of the model are ASCII characters. *)
Lemma not_ink_ascii (c : ascii) : is_ink c = false -> (Str.code c <? 128)%N = true.
Proof. destruct c as [[] [] [] [] [] [] [] []]; vm_compute; congruence. Qed.

Lemma is_ascii_ink (s : string) : is_ascii (sfilter is_ink s) = is_ascii s.
Proof.
  unfold is_ascii. induction s as [|c s IH]; [reflexivity|].
  cbn [sfilter Str.sforall]. destruct (is_ink c) eqn:Ec.
  - cbn [Str.sforall]. by rewrite IH.
  - by rewrite (not_ink_ascii c Ec), IH.
Qed.

(** What the model function does to the characters that are neither
    white space nor a comma, by induction on the length of the text. *)
Lemma collapse_overrides_ink (s : string) :
  sfilter is_ink (collapse_overrides s) = sfilter is_ink s.
Proof.
  remember (String.length s) as n eqn:Hn.
  assert (Hle : (String.length s <= n)%nat) by lia. clear Hn.
  revert s Hle. induction n as [|n IH]; intros s Hle.
  - destruct s; [reflexivity|simpl in Hle; lia].
  - rewrite collapse_overrides_unfold.
    destruct (match_overrides s) as [[group2 rest]|] eqn:E.
    + pose proof (match_overrides_shorter _ _ _ E) as Hlt.
      apply match_overrides_Some in E as (ws & -> & Hws & _).
      unfold replacer. rewrite !sfilter_app, items_ink, IH by lia.
      rewrite (sfilter_none _ _ _ space_not_ink Hws), !string_app_assoc. reflexivity.
    + destruct s as [|c s']; [reflexivity|]. cbn [sfilter].
      simpl in Hle. rewrite IH by lia. reflexivity.
Qed.

(** X14: on a text of ASCII characters, as [json.dumps] writes it (line
    153 leaves [ensure_ascii] at its default), [collapse_overrides]
    changes white space and commas only: the characters of the text that
    are neither are the same, in the same order, before and after it,
    and the result is again a text of ASCII characters.  Outside ASCII
    the white space that [strip], [splitlines] and the class of the
    pattern know is wider than [Str.is_space], and nothing is stated. *)
Theorem collapse_overrides_keeps_ink (json_text : string) :
  is_ascii json_text = true ->
  sfilter is_ink (collapse_overrides json_text) = sfilter is_ink json_text
  /\ is_ascii (collapse_overrides json_text) = true.
Proof.
  intros Hascii. split; [apply collapse_overrides_ink|].
  by rewrite <- is_ascii_ink, collapse_overrides_ink, is_ascii_ink.
Qed.

Lemma collapse_overrides_keeps_ink_witness :
  is_ascii Ex2.dumped = true
  /\ collapse_overrides Ex2.dumped <> Ex2.dumped
  /\ sfilter is_ink (collapse_overrides Ex2.dumped) = sfilter is_ink Ex2.dumped
  /\ is_ascii (collapse_overrides Ex2.dumped) = true.
Proof.
  split; [reflexivity|]. split; [by vm_compute|].
  apply (collapse_overrides_keeps_ink Ex2.dumped). reflexivity.
Defined.

Lemma splitlines_line (l t : string) :
  Str.sforall (fun c => negb (is_linebreak c)) l = true ->
  splitlines (l ++ newline ++ t) = l :: splitlines t.
Proof.
  induction l as [|c l IH]; intros Hl.
  - rewrite string_app_nil. unfold newline. rewrite string_app_cons, string_app_nil.
    rewrite splitlines_cons. by destruct t.
  - cbn [Str.sforall] in Hl. apply andb_true_iff in Hl as [Hc%negb_true_iff Hl].
    rewrite string_app_cons, splitlines_cons, Hc. by rewrite (IH Hl).
Qed.

Lemma splitlines_one (l : string) :
  Str.sforall (fun c => negb (is_linebreak c)) l = true ->
  splitlines l = match l with EmptyString => [] | _ => [l] end.
Proof.
  induction l as [|c l IH]; [done|]. cbn [Str.sforall].
  intros [Hc%negb_true_iff Hl]%andb_true_iff.
  rewrite splitlines_cons, Hc, (IH Hl). by destruct l.
Qed.

Lemma items_of_line (l t : string) :
  Str.sforall (fun c => negb (is_linebreak c)) l = true ->
  items_of (l ++ newline ++ t)
  = ((if String.eqb (strip l) "" then [] else [rstrip is_comma (strip l)])
     ++ items_of t)%list.
Proof.
  intros Hl. unfold items_of. rewrite (splitlines_line l t Hl). cbn [List.filter].
  by destruct (String.eqb (strip l) "").
Qed.

Lemma drop_while_blanks (ws s : string) :
  Str.sforall Str.is_space ws = true ->
  Str.drop_while Str.is_space (ws ++ s) = Str.drop_while Str.is_space s.
Proof.
  unfold Str.drop_while. induction ws as [|c ws IH]; [done|].
  cbn [Str.sforall]. intros [Hc Hws]%andb_true_iff.
  rewrite string_app_cons. cbn [Str.span]. rewrite Hc.
  specialize (IH Hws). by destruct (Str.span Str.is_space (ws ++ s)).
Qed.

Lemma strip_blanks (ws s : string) :
  Str.sforall Str.is_space ws = true -> strip (ws ++ s) = strip s.
Proof. intros H. unfold strip. by rewrite drop_while_blanks. Qed.

Lemma strip_all_blank (ws : string) :
  Str.sforall Str.is_space ws = true -> strip ws = "".
Proof. intros H. unfold strip. by rewrite drop_while_all. Qed.

Lemma rstrip_last_keep (p : ascii -> bool) (s : string) (c : ascii) :
  last_char s = Some c -> p c = false -> rstrip p s = s.
Proof.
  intros Hlast Hc. induction s as [|a s IH]; [done|].
  cbn [rstrip]. destruct s as [|b s].
  - cbn [rstrip]. injection Hlast as ->. by rewrite Hc.
  - rewrite IH by exact Hlast. reflexivity.
Qed.

Lemma rstrip_snoc_drop (p : ascii -> bool) (s : string) (c : ascii) :
  p c = true -> rstrip p (s ++ String c "") = rstrip p s.
Proof.
  intros Hc. induction s as [|a s IH].
  - rewrite string_app_nil. cbn [rstrip]. by rewrite Hc.
  - rewrite string_app_cons. cbn [rstrip]. by rewrite IH.
Qed.

Lemma last_char_snoc (s : string) (c : ascii) : last_char (s ++ String c "") = Some c.
Proof.
  induction s as [|a s IH]; [reflexivity|].
  rewrite string_app_cons. cbn [last_char]. rewrite IH.
  by destruct (s ++ String c "") eqn:E; [destruct s|].
Qed.

Lemma drop_while_ink (p : ascii -> bool) (c : ascii) (s : string) :
  p c = false -> Str.drop_while p (String c s) = String c s.
Proof. intros Hc. unfold Str.drop_while. cbn [Str.span]. by rewrite Hc. Qed.

(** The line of a member, with white space before it and with or
    without a comma after it, gives the member. *)
Lemma item_of_line (ws x : string) (comma : bool) :
  Str.sforall Str.is_space ws = true -> is_item x = true ->
  let line := ws ++ x ++ (if comma then "," else "") in
  strip line <> "" /\ rstrip is_comma (strip line) = x.
Proof.
  intros Hws Hx line. unfold is_item in Hx.
  apply andb_true_iff in Hx as [Hx _]. apply andb_true_iff in Hx as [Hhead Hlast].
  destruct x as [|c x]; [done|]. apply negb_true_iff in Hhead.
  destruct (last_char (String c x)) as [d|] eqn:Ed; [|done].
  apply andb_true_iff in Hlast as [Hd1%negb_true_iff Hd2%negb_true_iff].
  unfold line. rewrite strip_blanks by done. unfold strip.
  rewrite string_app_cons, drop_while_ink by done. rewrite <- string_app_cons.
  destruct comma.
  - rewrite (rstrip_last_keep _ _ "," (last_char_snoc _ _)) by reflexivity.
    split; [by rewrite string_app_cons|].
    rewrite rstrip_snoc_drop by reflexivity. by apply (rstrip_last_keep _ _ d).
  - assert (String c x ++ "" = String c x) as ->.
    { clear. induction (String c x) as [|a s IH]; [done|]. by rewrite string_app_cons, IH. }
    rewrite (rstrip_last_keep _ _ d Ed Hd1). split; [done|].
    by apply (rstrip_last_keep _ _ d).
Qed.

Lemma blank_space (ws : string) :
  Str.sforall is_blank ws = true -> Str.sforall Str.is_space ws = true.
Proof. apply sforall_impl. by intros c [? _]%andb_true_iff. Qed.

Lemma blank_no_linebreak (ws : string) :
  Str.sforall is_blank ws = true ->
  Str.sforall (fun c => negb (is_linebreak c)) ws = true.
Proof. apply sforall_impl. by intros c [_ ?]%andb_true_iff. Qed.

Lemma item_no_linebreak (x : string) :
  is_item x = true -> Str.sforall (fun c => negb (is_linebreak c)) x = true.
Proof.
  unfold is_item. intros [_ H]%andb_true_iff. revert H. apply sforall_impl.
  by intros c [? _]%andb_true_iff.
Qed.

Lemma item_no_brace (x : string) :
  is_item x = true -> Str.sforall (fun c => negb (Ascii.eqb c "}")) x = true.
Proof.
  unfold is_item. intros [_ H]%andb_true_iff. revert H. apply sforall_impl.
  by intros c [_ ?]%andb_true_iff.
Qed.

Lemma blank_no_brace (ws : string) :
  Str.sforall is_blank ws = true ->
  Str.sforall (fun c => negb (Ascii.eqb c "}")) ws = true.
Proof.
  apply sforall_impl. intros c [Hc _]%andb_true_iff.
  destruct (Ascii.eqb_spec c "}") as [->|]; [done|reflexivity].
Qed.

Lemma items_of_dumped (ind ind2 : string) (items : list string) :
  Str.sforall is_blank ind = true -> Str.sforall is_blank ind2 = true ->
  Forall (fun x => is_item x = true) items ->
  forall ind0, Str.sforall is_blank ind0 = true ->
  items_of (dumped_members ind0 ind items ++ ind2) = items.
Proof.
  intros Hind Hind2 Hitems.
  assert (Hend : items_of ind2 = []).
  { unfold items_of. rewrite (splitlines_one _ (blank_no_linebreak _ Hind2)).
    destruct ind2 as [|c w]; [reflexivity|]. cbn [List.filter].
    by rewrite (strip_all_blank _ (blank_space _ Hind2)). }
  induction Hitems as [|x items Hx Hitems IH]; intros ind0 Hind0.
  - exact Hend.
  - assert (Hline : forall comma : bool,
      Str.sforall (fun c => negb (is_linebreak c))
        (ind0 ++ x ++ (if comma then "," else "")) = true).
    { intros comma. rewrite !sforall_app, (blank_no_linebreak _ Hind0),
        (item_no_linebreak _ Hx). by destruct comma. }
    destruct items as [|y items].
    + cbn [dumped_members].
      pose proof (item_of_line ind0 x false (blank_space _ Hind0) Hx) as [Hne Hit].
      cbv zeta in Hne, Hit.
      assert ((ind0 ++ x ++ newline) ++ ind2 = (ind0 ++ x ++ "") ++ newline ++ ind2) as ->.
      { rewrite !string_app_assoc. reflexivity. }
      rewrite (items_of_line _ _ (Hline false)), Hend, Hit.
      by destruct (String.eqb_spec (strip (ind0 ++ x ++ "")) "").
    + change (dumped_members ind0 ind (x :: y :: items))
        with (ind0 ++ x ++ "," ++ newline ++ dumped_members ind ind (y :: items)).
      pose proof (item_of_line ind0 x true (blank_space _ Hind0) Hx) as [Hne Hit].
      cbv zeta in Hne, Hit.
      assert ((ind0 ++ x ++ "," ++ newline ++ dumped_members ind ind (y :: items)) ++ ind2
              = (ind0 ++ x ++ ",") ++ newline ++ dumped_members ind ind (y :: items) ++ ind2)
        as ->.
      { rewrite !string_app_assoc. reflexivity. }
      rewrite (items_of_line _ _ (Hline true)), (IH ind Hind), Hit.
      by destruct (String.eqb_spec (strip (ind0 ++ x ++ ",")) "").
Qed.

Lemma dumped_members_no_brace (ind : string) (items : list string) :
  Str.sforall is_blank ind = true ->
  Forall (fun x => is_item x = true) items ->
  forall ind0, Str.sforall is_blank ind0 = true ->
  Str.sforall (fun c => negb (Ascii.eqb c "}")) (dumped_members ind0 ind items) = true.
Proof.
  intros Hind Hitems. induction Hitems as [|x items Hx Hitems IH]; intros ind0 Hind0.
  - reflexivity.
  - destruct items as [|y items].
    + cbn [dumped_members].
      by rewrite !sforall_app, (blank_no_brace _ Hind0), (item_no_brace _ Hx).
    + change (dumped_members ind0 ind (x :: y :: items))
        with (ind0 ++ x ++ "," ++ newline ++ dumped_members ind ind (y :: items)).
      by rewrite !sforall_app, (blank_no_brace _ Hind0), (item_no_brace _ Hx), (IH ind Hind).
Qed.

Lemma span_split (p : ascii -> bool) (t rest : string) :
  Str.sforall p t = true ->
  match rest with
  | EmptyString => True
  | String c _ => p c = false
  end ->
  Str.span p (t ++ rest) = (t, rest).
Proof.
  intros Ht Hrest. induction t as [|c t IH].
  - rewrite string_app_nil. destruct rest as [|c rest]; [reflexivity|].
    cbn [Str.span]. by rewrite Hrest.
  - cbn [Str.sforall] in Ht. apply andb_true_iff in Ht as [Hc Ht].
    rewrite string_app_cons. cbn [Str.span]. by rewrite Hc, (IH Ht).
Qed.

(** X15: an [overrides] object that [json.dumps] has written over several
    lines, one member a line, is put on one line, the members between
    "{ " and " }" with ", " between them, when no member holds a closing
    brace; the text after it is treated on its own. *)
Theorem collapse_dumped_overrides (ind ind2 : string) (items : list string)
    (post : string) :
  items <> [] ->
  Forall (fun x => is_item x = true) items ->
  Str.sforall is_blank ind = true -> Str.sforall is_blank ind2 = true ->
  collapse_overrides (dumped_overrides ind ind2 items ++ post)
  = overrides_key ++ "{ " ++ join ", " items ++ " }" ++ collapse_overrides post.
Proof.
  intros Hne Hitems Hind Hind2.
  assert (Hmatch : match_overrides (dumped_overrides ind ind2 items ++ post)
                   = Some (dumped_members "" ind items ++ ind2, post)).
  { unfold match_overrides, dumped_overrides.
    rewrite string_app_assoc, strip_prefix_app.
    change (("{" ++ ?t) ++ post) with (String "{" (t ++ post)).
    lazy beta iota. rewrite Ascii.eqb_refl.
    assert (Hbody : dumped_members ind ind items = ind ++ dumped_members "" ind items).
    { destruct items as [|x [|y items]]; [done|reflexivity..]. }
    rewrite Hbody.
    assert (((newline ++ (ind ++ dumped_members "" ind items) ++ ind2 ++ "}") ++ post)
            = (newline ++ ind) ++ (dumped_members "" ind items ++ ind2) ++ String "}" post)
      as ->.
    { rewrite !string_app_assoc. reflexivity. }
    rewrite drop_while_blanks
      by (rewrite sforall_app, (blank_space _ Hind); reflexivity).
    assert (Hhead : match (dumped_members "" ind items ++ ind2) ++ String "}" post with
                    | EmptyString => True
                    | String c _ => Str.is_space c = false
                    end).
    { destruct Hitems as [|x items Hx Hitems]; [done|].
      unfold is_item in Hx. destruct x as [|c x]; [done|].
      apply andb_true_iff in Hx as [Hx _]. apply andb_true_iff in Hx as [Hc%negb_true_iff _].
      by destruct items. }
    destruct ((dumped_members "" ind items ++ ind2) ++ String "}" post) as [|c r] eqn:E.
    { by destruct (dumped_members "" ind items ++ ind2). }
    rewrite drop_while_ink by done. rewrite <- E.
    rewrite span_split; [reflexivity| |by rewrite Ascii.eqb_refl].
    rewrite sforall_app, (blank_no_brace _ Hind2), andb_true_r.
    by apply dumped_members_no_brace. }
  rewrite collapse_overrides_unfold, Hmatch. unfold replacer.
  rewrite items_of_dumped by done. by rewrite !string_app_assoc.
Qed.

Lemma collapse_dumped_overrides_witness :
  collapse_overrides Ex2.dumped
  = overrides_key ++ "{ " ++ join ", " Ex2.members ++ " }" ++ ",".
Proof.
  apply (collapse_dumped_overrides "      " "    " Ex2.members ",").
  - discriminate.
  - repeat constructor.
  - reflexivity.
  - reflexivity.
Defined.

(** ** The scan of the recompiled directory *)

Lemma dir_induction (P : dir -> Prop) :
  (forall name files subs, Forall P subs -> P (Dir name files subs)) ->
  forall d, P d.
Proof.
  intros H. fix IH 1. intros [name files subs]. apply H.
  induction subs as [|sub subs IHsubs]; constructor; [apply IH|exact IHsubs].
Qed.

Lemma string_app_nil_r (s : string) : s ++ "" = s.
Proof. induction s as [|c s IH]; [done|]. by rewrite string_app_cons, IH. Qed.

Lemma last_char_app (s t : string) : t <> "" -> last_char (s ++ t) = last_char t.
Proof.
  intros Ht. induction s as [|c s IH]; [done|].
  rewrite string_app_cons. cbn [last_char].
  destruct (s ++ t) eqn:E; [|exact IH]. by destruct s, t.
Qed.

Lemma rstrip_app_all (p : ascii -> bool) (w s : string) :
  Str.sforall p w = true -> rstrip p (s ++ w) = rstrip p s.
Proof.
  revert s. induction w as [|c w IH]; intros s; [by rewrite string_app_nil_r|].
  cbn [Str.sforall]. intros [Hc Hw]%andb_true_iff.
  change (String c w) with (String c "" ++ w).
  by rewrite <- string_app_assoc, (IH _ Hw), rstrip_snoc_drop.
Qed.

Lemma name_chars (n : string) :
  is_name n = true ->
  n <> "" /\ Str.mem "/" n = false
  /\ Str.sforall is_slash n = false
  /\ exists c, last_char n = Some c /\ is_slash c = false.
Proof.
  unfold is_name. intros [Hne%negb_true_iff Hmem%negb_true_iff]%andb_true_iff.
  apply String.eqb_neq in Hne. split_and!; [done..| |].
  - destruct n as [|c n]; [done|]. cbn [Str.mem Str.sforall] in *.
    apply orb_false_iff in Hmem as [Hc _]. unfold is_slash.
    by rewrite Ascii.eqb_sym, Hc.
  - induction n as [|c n IH]; [done|].
    cbn [Str.mem] in Hmem. apply orb_false_iff in Hmem as [Hc Hn].
    destruct n as [|d n].
    + exists c. split; [done|]. unfold is_slash. by rewrite Ascii.eqb_sym.
    + by apply IH.
Qed.

Lemma rsplit_noslash (t : string) :
  Str.mem "/" t = false -> rsplit_slash t = ("", t).
Proof.
  induction t as [|c t IH]; [done|]. cbn [Str.mem rsplit_slash].
  intros [Hc Ht]%orb_false_iff. rewrite (IH Ht).
  unfold is_slash. by rewrite Ascii.eqb_sym, Hc.
Qed.

Lemma rsplit_app_slash (h t : string) :
  Str.mem "/" t = false -> ends_with_slash h = true ->
  rsplit_slash (h ++ t) = (h, t).
Proof.
  intros Ht. induction h as [|c h IH]; [done|].
  unfold ends_with_slash. rewrite string_app_cons. cbn [rsplit_slash last_char].
  destruct h as [|d h].
  - intros Hc. rewrite string_app_nil, (rsplit_noslash t Ht). by rewrite Hc.
  - intros Hh. by rewrite (IH Hh).
Qed.

Lemma last_char_all (p : ascii -> bool) (w : string) :
  Str.sforall p w = true -> w <> "" ->
  exists c, last_char w = Some c /\ p c = true.
Proof.
  induction w as [|c w IH]; [done|]. cbn [Str.sforall].
  intros [Hc Hw]%andb_true_iff _. destruct w as [|d w].
  - by exists c.
  - by apply IH.
Qed.

Lemma ends_with_slash_app (s w : string) :
  w <> "" -> Str.sforall is_slash w = true -> ends_with_slash (s ++ w) = true.
Proof.
  intros Hne Hw. unfold ends_with_slash. rewrite last_char_app by done.
  by destruct (last_char_all _ _ Hw Hne) as (e & -> & He).
Qed.

Lemma ends_with_name (s n : string) :
  is_name n = true -> ends_with_slash (s ++ n) = false.
Proof.
  intros Hn. destruct (name_chars n Hn) as (Hne & _ & _ & c & Hlast & Hc).
  unfold ends_with_slash. by rewrite last_char_app, Hlast.
Qed.

(** The folder of line 98 for the descriptor of a directory whose path
    ends in its name, with or without slashes after it. *)
Lemma folder_of_path (pre n slashes : string) :
  is_name n = true ->
  pre = "" \/ ends_with_slash pre = true ->
  Str.sforall is_slash slashes = true ->
  basename (dirname (path_join (pre ++ n ++ slashes) metadata_json)) = n.
Proof.
  intros Hn Hpre Hsl.
  destruct (name_chars n Hn) as (Hne & Hmem & Hnot & c & Hlast & Hc).
  assert (Hjoin : exists sl,
            path_join (pre ++ n ++ slashes) metadata_json
            = (pre ++ n ++ String "/" sl) ++ metadata_json
            /\ Str.sforall is_slash sl = true).
  { unfold path_join. change (Str.startswith metadata_json "/") with false. cbv iota.
    assert (String.eqb (pre ++ n ++ slashes) "" = false) as ->.
    { apply String.eqb_neq. by destruct pre, n. }
    cbn [orb]. destruct slashes as [|s0 sl].
    - exists "". split; [|done].
      rewrite string_app_nil_r, (ends_with_name pre n Hn).
      by rewrite !string_app_assoc.
    - rewrite <- string_app_assoc, ends_with_slash_app by done.
      cbn [Str.sforall] in Hsl. apply andb_true_iff in Hsl as [Hs0 Hsl].
      apply Ascii.eqb_eq in Hs0. subst s0.
      exists sl. split; [|done]. by rewrite !string_app_assoc. }
  destruct Hjoin as (sl & -> & Hsl').
  assert (Hends : ends_with_slash (pre ++ n ++ String "/" sl) = true).
  { rewrite <- string_app_assoc. by apply ends_with_slash_app. }
  unfold dirname. rewrite (rsplit_app_slash _ metadata_json eq_refl Hends). cbn [fst].
  assert (String.eqb (pre ++ n ++ String "/" sl) "" = false) as ->.
  { apply String.eqb_neq. by destruct pre, n. }
  assert (Str.sforall is_slash (pre ++ n ++ String "/" sl) = false) as ->.
  { rewrite !sforall_app, Hnot. cbn [andb]. apply andb_false_r. }
  cbn [negb andb].
  rewrite <- string_app_assoc, rstrip_app_all by done.
  assert (Hlast' : last_char (pre ++ n) = Some c) by by rewrite last_char_app.
  rewrite (rstrip_last_keep _ _ c Hlast' Hc).
  unfold basename. destruct Hpre as [->|Hpre].
  - by rewrite string_app_nil, rsplit_noslash.
  - by rewrite rsplit_app_slash.
Qed.

(** The path of a sub-directory ends in its name, after a slash. *)
Lemma path_join_name (pre n slashes m : string) :
  is_name n = true -> is_name m = true ->
  Str.sforall is_slash slashes = true ->
  exists pre', path_join (pre ++ n ++ slashes) m = pre' ++ m ++ ""
               /\ ends_with_slash pre' = true.
Proof.
  intros Hn Hm Hsl.
  destruct (name_chars n Hn) as (Hne & _ & _ & c & Hlast & Hc).
  destruct (name_chars m Hm) as (Hmne & Hmmem & _).
  unfold path_join.
  assert (Str.startswith m "/" = false) as ->.
  { destruct m as [|a m]; [done|]. cbn [Str.mem] in Hmmem.
    apply orb_false_iff in Hmmem as [Ha _]. cbn [Str.startswith]. by rewrite Ha. }
  assert (String.eqb (pre ++ n ++ slashes) "" = false) as ->.
  { apply String.eqb_neq. by destruct pre, n. }
  cbn [orb]. rewrite string_app_nil_r. destruct slashes as [|s0 sl].
  - rewrite string_app_nil_r, (ends_with_name pre n Hn).
    exists ((pre ++ n) ++ "/"). split; [by rewrite !string_app_assoc|].
    by apply ends_with_slash_app.
  - assert (Hends : ends_with_slash (pre ++ n ++ String s0 sl) = true).
    { rewrite <- string_app_assoc. by apply ends_with_slash_app. }
    rewrite Hends. by exists (pre ++ n ++ String s0 sl).
Qed.

Lemma discovered_paths (root : string) (d : dir) :
  List.map (fun path => basename (dirname path)) (find_metadata_files root d)
  = List.map meta_folder (discovered root d).
Proof.
  unfold find_metadata_files, discovered.
  induction (walk root d) as [|[dirpath sub] l IH]; [reflexivity|].
  cbn [flat_map]. rewrite !List.map_app, IH. f_equal.
  by destruct (existsb _ _).
Qed.

Lemma discovered_named (d : dir) :
  forall root pre top slashes,
    well_named d = true -> is_name top = true ->
    pre = "" \/ ends_with_slash pre = true ->
    Str.sforall is_slash slashes = true ->
    root = pre ++ top ++ slashes ->
    discovered root d = flat_map descriptor_of (named_dirs top d).
Proof.
  induction d as [name files subs IH] using dir_induction.
  intros root pre top slashes Hwn Htop Hpre Hsl ->.
  unfold discovered, named_dirs. cbn [walk below flat_map]. f_equal.
  - unfold descriptor_of. cbn [fst snd]. destruct (existsb _ _); [|done].
    by rewrite folder_of_path.
  - cbn [well_named] in Hwn. clear name files.
    induction IH as [|sub subs IHsub _ IHsubs]; [reflexivity|].
    cbn [forallb] in Hwn. apply andb_true_iff in Hwn as [Hsub Hwn].
    apply andb_true_iff in Hsub as [Hname Hsubwn].
    cbn [flat_map List.map]. rewrite flat_map_app, List.map_app, flat_map_app.
    rewrite (IHsubs Hwn). f_equal.
    destruct (path_join_name pre top slashes (name_of sub) Htop Hname Hsl)
      as (pre' & Hjoin & Hpre').
    exact (IHsub _ pre' (name_of sub) "" Hsubwn Hname (or_intror Hpre') eq_refl Hjoin).
Qed.

(** X16: the loop reads one descriptor for each directory of the
    recompiled directory that has a [metadata.json], the top first and a
    directory before those below it, and the folder of line 98 is the
    name of that directory: for the top, the last name in the path given
    on the command line, with or without slashes after it.  The folders
    are those of the paths that [find_metadata_files] yields. *)
Theorem discovered_spec (root pre top slashes : string) (d : dir) :
  well_named d = true -> is_name top = true ->
  pre = "" \/ ends_with_slash pre = true ->
  Str.sforall is_slash slashes = true ->
  root = pre ++ top ++ slashes ->
  discovered root d = flat_map descriptor_of (named_dirs top d)
  /\ List.map (fun path => basename (dirname path)) (find_metadata_files root d)
     = List.map meta_folder (flat_map descriptor_of (named_dirs top d)).
Proof.
  intros Hwn Htop Hpre Hsl Hroot.
  pose proof (discovered_named d root pre top slashes Hwn Htop Hpre Hsl Hroot) as H.
  split; [exact H|]. by rewrite discovered_paths, H.
Qed.

Lemma discovered_spec_witness :
  discovered "models/recompiled3/" Ex2.tree
  = [{| meta_folder := "rav1 dir"; meta_file := Json Ex.meta1 |};
     {| meta_folder := "rav2"; meta_file := Json Ex.meta2 |}]
  /\ List.map (fun path => basename (dirname path))
       (find_metadata_files "models/recompiled3/" Ex2.tree)
     = ["rav1 dir"; "rav2"].
Proof.
  exact (discovered_spec "models/recompiled3/" "models/" "recompiled3" "/" Ex2.tree
           eq_refl eq_refl (or_intror eq_refl) eq_refl eq_refl).
Defined.

(** ** Running twice with [--sort-by-date] *)

Lemma inv_lookup_NoDup (st : state) (i : nat) (b : bundle) :
  inv st -> NoDup (ref <$> st_bundles st) -> st_bundles st !! i = Some b ->
  ref_to_bundle st !! ref b = Some i.
Proof.
  intros Hinv Hnd Hb.
  destruct (ref_to_bundle st !! ref b) as [i'|] eqn:E.
  - destruct (inv_lookup _ _ _ Hinv E) as (b' & Hb' & Hr & _).
    f_equal. apply (NoDup_lookup _ _ _ (ref b) Hnd); rewrite list_lookup_fmap.
    + rewrite Hb'. simpl. by rewrite Hr.
    + by rewrite Hb.
  - exfalso. by apply (inv_lookup_None _ _ Hinv E i b).
Qed.

Lemma effect_at_ext (a : args) (mp mp' : gmap string nat) (D : list found) (i j : nat) :
  (forall f, f ∈ D -> targets mp f i <-> targets mp' f j) ->
  effect_at a mp D i = effect_at a mp' D j.
Proof.
  induction D as [|f D IH]; intros H; [done|]. cbn [effect_at].
  rewrite IH by (intros f' Hf'; apply H; by right).
  destruct (H f) as [H1 H2]; [by left|].
  destruct (decide (targets mp f i)), (decide (targets mp' f j)); try done.
  - exfalso. auto.
  - exfalso. auto.
Qed.

Lemma min_version_of_list (a : args) (bs : list bundle) :
  match arg_set_min_version a with
  | Some v => List.map (set_min_version v) bs
  | None => bs
  end = min_version_of a <$> bs.
Proof.
  unfold min_version_of. destruct (arg_set_min_version a); [done|].
  by rewrite list_fmap_id.
Qed.

Lemma post_process_sorted_lookup (a : args) (bs : list bundle) (i : nat) (b1 : bundle) :
  arg_sort_by_date a = true ->
  post_process a bs !! i = Some b1 ->
  exists j b, bs !! j = Some b /\ b1 = set_index i (min_version_of a b).
Proof.
  intros Hs. unfold post_process. rewrite Hs, min_version_of_list.
  unfold sort_by_date. rewrite list_lookup_imap.
  destruct (sort_by _ _ !! i) as [x|] eqn:Ex; [|done]. intros [= <-].
  apply list_elem_of_lookup_2 in Ex. rewrite sort_by_perm in Ex.
  apply list_elem_of_fmap in Ex as (b & -> & (j & Hj)%list_elem_of_lookup).
  by exists j, b.
Qed.

Lemma post_process_sorted_elem (a : args) (bs : list bundle) (b : bundle) :
  arg_sort_by_date a = true -> b ∈ bs ->
  exists i, post_process a bs !! i = Some (set_index i (min_version_of a b)).
Proof.
  intros Hs Hb. unfold post_process. rewrite Hs, min_version_of_list.
  assert (Hin : min_version_of a b ∈ sort_by bundle_sort_key (min_version_of a <$> bs)).
  { rewrite sort_by_perm. apply list_elem_of_fmap. by exists b. }
  apply list_elem_of_lookup in Hin as (i & Hi). exists i.
  unfold sort_by_date. by rewrite list_lookup_imap, Hi.
Qed.

Lemma imap_sorted {A : Type} (key : A -> datetime) (l : list A) :
  StronglySorted (key_le key) l ->
  forall g : nat -> A -> A,
    (forall i x, key (g i x) = key x) ->
    StronglySorted (key_le key) (imap g l).
Proof.
  induction 1 as [|x l Hl IH Hx]; intros g Hg; cbn [imap]; constructor.
  - apply IH. intros i y. apply Hg.
  - apply Forall_forall. intros y (i & z & -> & Hz)%elem_of_lookup_imap.
    unfold key_le. cbn [compose]. rewrite !Hg. rewrite Forall_forall in Hx.
    apply Hx. by eapply list_elem_of_lookup_2.
Qed.

(** X17: with [--sort-by-date] too, when the refs of the loaded manifest
    differ from each other, a second run on the manifest that a run has
    made, with the same descriptors and flags, succeeds and makes the same
    manifest: the order, the indices and every bundle stay. *)
Theorem run_idempotent_sorted (a : args) (M M1 : manifest) (D : list found)
    (bs : list bundle) :
  arg_sort_by_date a = true ->
  bundles M = Some bs -> NoDup (ref <$> bs) ->
  run a M D = Ok M1 ->
  run a M1 D = Ok M1.
Proof.
  intros Hsort Hbs Hnd (bs0 & st & Hbs0 & Hloop & ->)%run_inv.
  assert (bs0 = bs) as -> by congruence.
  destruct (loop_inv _ _ _ _ Hloop (inv_initial bs))
    as (Hinv & _ & Hready & news & Hfresh & Hclosed).
  cbn [initial st_bundles] in Hclosed.
  destruct (loop_refs _ _ _ _ Hloop) as (news' & Hfresh' & Hrefs & _).
  assert (HndL : NoDup (ref <$> st_bundles st)).
  { rewrite Hrefs. by eapply fresh_news_NoDup. }
  set (bs1 := post_process a (st_bundles st)).
  assert (Hnd1 : NoDup (ref <$> st_bundles (initial bs1))).
  { cbn [initial st_bundles]. subst bs1. by rewrite post_process_refs. }
  pose proof (inv_initial bs1) as Hinv1.
  assert (Hfix : forall i b1, bs1 !! i = Some b1 ->
            apply_effect (effect_at a (ref_to_bundle (initial bs1)) D i) b1 = b1).
  { intros i b1 Hb1.
    destruct (post_process_sorted_lookup a _ i b1 Hsort Hb1) as (j & b & Hj & ->).
    rewrite (effect_at_ext a _ (ref_to_bundle st) D i j).
    - pose proof Hj as Hj'. rewrite Hclosed in Hj'.
      destruct ((bs ++ news)%list !! j) as [b0|]; [|done]. injection Hj' as <-.
      change (apply_effect ?e (set_index i ?x)) with (set_index i (apply_effect e x)).
      rewrite min_version_of_apply.
      by rewrite apply_effect_idem by apply good_effect_at.
    - intros f _. unfold targets.
      destruct (found_ref f) as [r|]; [|done]. cbn [mbind option_bind].
      split; intros Hr.
      + destruct (inv_lookup _ _ _ Hinv1 Hr) as (b' & Hb' & <- & _).
        cbn [initial st_bundles] in Hb'.
        assert (b' = set_index i (min_version_of a b)) as -> by congruence.
        cbn [set_index ref]. rewrite min_version_of_ref.
        by apply inv_lookup_NoDup.
      + destruct (inv_lookup _ _ _ Hinv Hr) as (b' & Hb' & <- & _).
        assert (b' = b) as -> by congruence.
        rewrite <- (min_version_of_ref a b).
        change (ref (min_version_of a b)) with (ref (set_index i (min_version_of a b))).
        by apply inv_lookup_NoDup. }
  assert (Hloop1 : loop a D (initial bs1) = Ok (initial bs1)).
  { rewrite loop_ready.
    - f_equal. unfold initial. cbn [st_bundles ref_to_bundle]. f_equal.
      fold (initial bs1). apply list_eq. intros i. rewrite list_lookup_imap.
      destruct (bs1 !! i) as [b1|] eqn:E; [|done]. simpl. f_equal. by apply Hfix.
    - eapply Forall_impl; [exact Hready|].
      intros f (meta & r & mm & i0 & b & ? & ? & ? & Hi & Hb & Hc).
      destruct (inv_lookup _ _ _ Hinv Hi) as (b' & Hb' & Hrb & _).
      assert (b' = b) as -> by congruence.
      destruct (post_process_sorted_elem a (st_bundles st) b Hsort) as (i & Hi1).
      { by eapply list_elem_of_lookup_2. }
      exists meta, r, mm, i, (set_index i (min_version_of a b)). split_and!; try done.
      + rewrite <- Hrb, <- (min_version_of_ref a b).
        change (ref (min_version_of a b)) with (ref (set_index i (min_version_of a b))).
        by apply inv_lookup_NoDup.
      + unfold complete. cbn [set_index display_name is_20hz].
        by apply min_version_of_complete. }
  unfold run. cbn [bundles tinygrad_ref getitem rbind]. fold bs1.
  rewrite Hloop1. cbn [rbind initial st_bundles]. f_equal. f_equal.
  - by destruct (arg_tinygrad_ref a).
  - f_equal. unfold post_process at 1. rewrite Hsort, min_version_of_list.
    assert (Hmv : min_version_of a <$> bs1 = bs1).
    { apply list_eq. intros i. rewrite list_lookup_fmap.
      destruct (bs1 !! i) as [b1|] eqn:E; [|done]. simpl. f_equal.
      destruct (post_process_sorted_lookup a _ i b1 Hsort E) as (j & b & _ & ->).
      unfold min_version_of. by destruct (arg_set_min_version a). }
    rewrite Hmv. unfold sort_by_date.
    assert (Hsorted : StronglySorted (key_le bundle_sort_key) bs1).
    { subst bs1. unfold post_process. rewrite Hsort. unfold sort_by_date.
      apply imap_sorted; [apply sort_by_sorted|done]. }
    rewrite <- (sort_by_unique bundle_sort_key bs1 bs1 Hsorted) by done.
    apply list_eq. intros i. rewrite list_lookup_imap.
    destruct (bs1 !! i) as [b1|] eqn:E; [|done]. simpl. f_equal.
    by destruct (post_process_sorted_lookup a _ i b1 Hsort E) as (j & b & _ & ->).
Qed.

Lemma run_idempotent_sorted_witness :
  run Ex.args_sort Ex.M0 Ex.D0 = Ok Ex.M1_sorted
  /\ run Ex.args_sort Ex.M1_sorted Ex.D0 = Ok Ex.M1_sorted.
Proof.
  assert (Hrun : run Ex.args_sort Ex.M0 Ex.D0 = Ok Ex.M1_sorted) by (vm_compute; reflexivity).
  split; [exact Hrun|].
  apply (run_idempotent_sorted Ex.args_sort Ex.M0 Ex.M1_sorted Ex.D0 [Ex.rav0; Ex.rav1]
           eq_refl eq_refl); [|exact Hrun].
  vm_compute. repeat constructor; intros H;
    repeat (apply elem_of_cons in H as [H|H]; [discriminate|]); by apply elem_of_nil in H.
Defined.

(** ** The name of the recompiled directory *)

Lemma split_slash_cons (p : string) : exists x rest, split_slash p = x :: rest.
Proof.
  induction p as [|c p (x & rest & IH)]; [by eexists _, _|]. cbn [split_slash].
  destruct (is_slash c); [by eexists _, _|]. rewrite IH. by eexists _, _.
Qed.

Lemma split_slash_app (s t : string) :
  split_slash (s ++ String "/" t) = (split_slash s ++ split_slash t)%list.
Proof.
  induction s as [|c s IH]; [reflexivity|].
  rewrite string_app_cons. cbn [split_slash]. rewrite IH.
  destruct (is_slash c); [reflexivity|].
  by destruct (split_slash_cons s) as (x & rest & ->).
Qed.

Lemma split_slash_name (t : string) :
  Str.mem "/" t = false -> split_slash t = [t].
Proof.
  induction t as [|c t IH]; [done|]. cbn [Str.mem split_slash].
  intros [Hc Ht]%orb_false_iff. unfold is_slash. by rewrite Ascii.eqb_sym, Hc, (IH Ht).
Qed.

Lemma split_slash_slashes (sl : string) :
  Str.sforall is_slash sl = true -> Forall (fun x => x = "") (split_slash sl).
Proof.
  induction sl as [|c sl IH]; [by repeat constructor|]. cbn [Str.sforall split_slash].
  intros [Hc Hsl]%andb_true_iff. rewrite Hc. constructor; [done|by apply IH].
Qed.

Lemma ends_with_slash_inv (p : string) :
  ends_with_slash p = true -> exists p0, p = p0 ++ "/".
Proof.
  unfold ends_with_slash. induction p as [|c p IH]; [done|]. cbn [last_char].
  destruct p as [|d p].
  - intros ->%Ascii.eqb_eq. by exists "".
  - intros (p0 & ->)%IH. by exists (String c p0).
Qed.

Lemma norm_step_empties (k : nat) (comps : list string) (stack : list string) :
  Forall (fun x => x = "") comps -> fold_left (norm_step k) comps stack = stack.
Proof.
  induction 1 as [|x comps -> _ IH]; [done|]. cbn [fold_left]. exact IH.
Qed.

Lemma join_snoc (sep : string) (l : list string) (x : string) :
  join sep (l ++ [x])
  = match l with
    | [] => x
    | _ => (join sep l ++ sep) ++ x
    end.
Proof.
  induction l as [|y l IH]; [reflexivity|].
  destruct l as [|z l]; [by rewrite string_app_assoc|].
  change (join sep ((y :: z :: l) ++ [x])) with (y ++ sep ++ join sep ((z :: l) ++ [x])).
  rewrite IH. change (join sep (y :: z :: l)) with (y ++ sep ++ join sep (z :: l)).
  by rewrite !string_app_assoc.
Qed.

(** X18: the directory name that the URLs carry (line 84) is the last
    name of the path given as [--recompiled-dir], whatever stands before
    it and with or without slashes after it, when that name is neither
    "." nor "..": it is the name that line 98 gives, as its folder, to a
    descriptor at the top of the recompiled directory. *)
Theorem recompiled_dir_name_is_top (pre top slashes : string) :
  is_name top = true -> top <> "." -> top <> ".." ->
  pre = "" \/ ends_with_slash pre = true ->
  Str.sforall is_slash slashes = true ->
  recompiled_dir_name_of (pre ++ top ++ slashes) = top
  /\ basename (dirname (path_join (pre ++ top ++ slashes) metadata_json)) = top.
Proof.
  intros Htop Hdot Hdotdot Hpre Hsl. split; [|by apply folder_of_path].
  destruct (name_chars top Htop) as (Hne & Hmem & _).
  unfold recompiled_dir_name_of, normpath.
  assert (String.eqb (pre ++ top ++ slashes) "" = false) as ->.
  { apply String.eqb_neq. by destruct pre, top. }
  cbv zeta.
  generalize (if Str.startswith (pre ++ top ++ slashes) "/"
              then if Str.startswith (pre ++ top ++ slashes) "//"
                      && negb (Str.startswith (pre ++ top ++ slashes) "///")
                   then 2%nat else 1%nat
              else 0%nat) as k.
  intros k.
  assert (Hsplit : exists C0 E,
            split_slash (pre ++ top ++ slashes) = (C0 ++ [top] ++ E)%list
            /\ Forall (fun x => x = "") E).
  { assert (Htail : exists E, split_slash (top ++ slashes) = ([top] ++ E)%list
                              /\ Forall (fun x => x = "") E).
    { destruct slashes as [|c sl].
      - exists []. by rewrite string_app_nil_r, split_slash_name.
      - cbn [Str.sforall] in Hsl. apply andb_true_iff in Hsl as [->%Ascii.eqb_eq Hsl].
        exists (split_slash sl).
        split; [by rewrite split_slash_app, split_slash_name|].
        by apply split_slash_slashes. }
    destruct Htail as (E & HE & Hall).
    destruct Hpre as [->|(p0 & ->)%ends_with_slash_inv].
    - exists [], E. by rewrite string_app_nil.
    - exists (split_slash p0), E.
      rewrite string_app_assoc. change ("/" ++ ?t) with (String "/" t).
      by rewrite split_slash_app, HE. }
  destruct Hsplit as (C0 & E & -> & HE).
  rewrite !fold_left_app. cbn [fold_left]. rewrite norm_step_empties by done.
  set (S0 := fold_left (norm_step k) C0 []).
  assert (norm_step k S0 top = top :: S0) as ->.
  { unfold norm_step.
    assert (String.eqb top "" = false) as -> by by apply String.eqb_neq.
    assert (String.eqb top "." = false) as -> by by apply String.eqb_neq.
    assert (String.eqb top ".." = false) as -> by by apply String.eqb_neq.
    reflexivity. }
  cbn [rev]. rewrite join_snoc.
  assert (Hshape : exists Q,
            match k with
            | 0%nat => match rev S0 with
                       | [] => top
                       | _ :: _ => (join "/" (rev S0) ++ "/") ++ top
                       end
            | 1%nat => "/" ++ match rev S0 with
                              | [] => top
                              | _ :: _ => (join "/" (rev S0) ++ "/") ++ top
                              end
            | _ => "//" ++ match rev S0 with
                           | [] => top
                           | _ :: _ => (join "/" (rev S0) ++ "/") ++ top
                           end
            end = Q ++ top
            /\ (Q = "" \/ ends_with_slash Q = true)).
  { destruct (rev S0) as [|y l].
    - destruct k as [|[|k]].
      + exists "". by split; [|left].
      + exists "/". by split; [|right].
      + exists "//". by split; [|right].
    - assert (Hq : forall w, ends_with_slash (w ++ join "/" (y :: l) ++ "/") = true).
      { intros w. rewrite <- string_app_assoc. by apply ends_with_slash_app. }
      destruct k as [|[|k]].
      + exists (join "/" (y :: l) ++ "/"). split; [done|]. right. exact (Hq "").
      + exists ("/" ++ join "/" (y :: l) ++ "/"). split; [|right; apply Hq].
        by rewrite !string_app_assoc.
      + exists ("//" ++ join "/" (y :: l) ++ "/"). split; [|right; apply Hq].
        by rewrite !string_app_assoc. }
  destruct Hshape as (Q & -> & HQ).
  assert (String.eqb (Q ++ top) "" = false) as ->.
  { apply String.eqb_neq. by destruct Q, top. }
  unfold basename. destruct HQ as [->|HQ].
  - by rewrite string_app_nil, rsplit_noslash.
  - by rewrite rsplit_app_slash.
Qed.

Lemma recompiled_dir_name_is_top_witness :
  recompiled_dir_name_of "models/../out/recompiled3//" = "recompiled3"
  /\ basename (dirname (path_join "models/../out/recompiled3//" metadata_json)) = "recompiled3".
Proof.
  apply (recompiled_dir_name_is_top "models/../out/" "recompiled3" "//");
    try reflexivity; try discriminate.
  by right.
Defined.
